(** * AthensBuses: the response and smart-card decoders

    A shallow embedding of the decoding code of the AthensBuses client:
    - the OASTH telematics client ([decompressGzip], [parseTupleFormat],
      [fetchAPI], [getStops], [getClosestStops]);
    - the ticket screen's card decoders ([parseDESFireVersion],
      [parseAthenaTicketData], [formatTimestamp]).

    Conventions of the embedding.
    - A JavaScript number that holds an integer is a [Z]; the 32-bit
      conversions of the bit operators are written out ([ToInt32],
      [ToUint32]).  Card bytes are [number[]] in the source, so a file is a
      [list Z]: nothing in the decoders restricts an entry to 0..255, and
      the theorems say where they need that range.
    - A string is a [string] whose characters stand for the code units
      U+0000..U+00FF.
    - [undefined] for an optional argument or a missing map entry is [None].
    - The [console.log] calls are left out: they do not touch the result.
    - The arithmetic of [getClosestStops] is written against the class
      [Float64]; [IEEE754.float64] is the engine's: binary64 with
      round-to-nearest-even, [parseFloat] and [toFixed] as ECMAScript
      defines them, and the sine, cosine and arc tangent of the engine,
      which ECMAScript leaves to it, as a parameter. *)

From Stdlib Require Import ZArith Lia String Ascii List Bool.
From Stdlib Require Import DecimalString HexadecimalString.
From Stdlib Require Floats.SpecFloat.
From stdpp Require Import base gmap strings list.

Open Scope string_scope.
Open Scope Z_scope.

(** ** The JavaScript primitives the decoders rely on *)

Module JS.

(** [ToUint32] and [ToInt32] of an integer. *)
Definition ToUint32 (x : Z) : Z := x mod 2 ^ 32.

Definition ToInt32 (x : Z) : Z :=
  let u := x mod 2 ^ 32 in
  if u <? 2 ^ 31 then u else u - 2 ^ 32.

(** [a & b], [a | b], [a << n], [a >> n] and [a >>> n]. *)
Definition band (a b : Z) : Z := ToInt32 (Z.land (ToInt32 a) (ToInt32 b)).
Definition bor (a b : Z) : Z := ToInt32 (Z.lor (ToInt32 a) (ToInt32 b)).
Definition shl (a n : Z) : Z := ToInt32 (Z.shiftl (ToInt32 a) (ToUint32 n mod 32)).
Definition sar (a n : Z) : Z := Z.shiftr (ToInt32 a) (ToUint32 n mod 32).
Definition ushr (a n : Z) : Z := Z.shiftr (ToUint32 a) (ToUint32 n mod 32).

(** [n.toString()] / a template hole [${n}] and [n.toString(16)] of an
    integer. *)
Definition toString (n : Z) : string :=
  DecimalString.NilEmpty.string_of_int (Z.to_int n).

Definition toString16 (n : Z) : string :=
  HexadecimalString.NilEmpty.string_of_int (Z.to_hex_int n).

Fixpoint repeat_char (c : ascii) (n : nat) : string :=
  match n with
  | O => ""
  | S k => String c (repeat_char c k)
  end.

(** [s.padStart(n, c)] for a one-character filler. *)
Definition padStart (s : string) (n : nat) (c : ascii) : string :=
  repeat_char c (n - String.length s) +:+ s.

(** [a[i]] where the source reads it under a length guard. *)
Definition at_ (a : list Z) (i : nat) : Z := nth i a 0.

(** [a.slice(i, j)]. *)
Definition slice {A} (a : list A) (i j : nat) : list A :=
  firstn (j - i) (skipn i a).

(** [x || d] on a string: the empty string is falsy. *)
Definition or_str (x d : string) : string :=
  if String.eqb x "" then d else x.

(** White space and line terminators of ECMAScript below U+0100: TAB, LF,
    VT, FF, CR, SP and NBSP. *)
Definition isWhiteSpace (c : ascii) : bool :=
  let n := N_of_ascii c in
  ((9 <=? n) && (n <=? 13) || (n =? 32) || (n =? 160))%N.

(** The line terminators (what [.] of a regular expression refuses). *)
Definition isLineTerminator (c : ascii) : bool :=
  let n := N_of_ascii c in ((n =? 10) || (n =? 13))%N.

Fixpoint trimStart (s : string) : string :=
  match s with
  | String c r => if isWhiteSpace c then trimStart r else s
  | EmptyString => EmptyString
  end.

Fixpoint trimEnd (s : string) : string :=
  match s with
  | String c r =>
      let r' := trimEnd r in
      if isWhiteSpace c && String.eqb r' "" then "" else String c r'
  | EmptyString => EmptyString
  end.

(** [s.trim()]. *)
Definition trim (s : string) : string := trimEnd (trimStart s).

(** [s.toUpperCase()] on the letters a-z; the strings it is applied to
    are made of hexadecimal digits, spaces and a sign. *)
Definition upper_char (c : ascii) : ascii :=
  let n := N_of_ascii c in
  if ((97 <=? n) && (n <=? 122))%N then ascii_of_N (n - 32) else c.

Fixpoint toUpperCase (s : string) : string :=
  match s with
  | String c r => String (upper_char c) (toUpperCase r)
  | EmptyString => EmptyString
  end.

(** [s.startsWith(p)]. *)
Definition startsWith (p s : string) : bool := String.prefix p s.

End JS.

(** ** [Date]: the clock and the local calendar

    [Date.now()], the local time zone and daylight saving rules belong to
    the device, so they are fields of [Clock]; the calendar arithmetic of
    ECMAScript (proleptic Gregorian, days counted from 1970-01-01) is
    computed. All time values are in milliseconds, as in the language. *)

Module JSDate.

Record Clock := {
  (** [Date.now()] as read by [parseAthenaTicketData] for [now]. *)
  now_ms : Z;
  (** The time value of the [new Date()] it builds for a period pass. *)
  new_Date_ms : Z;
  (** [LocalTime(t)]: the local wall clock, in ms, at the UTC instant [t]. *)
  LocalTime : Z -> Z;
  (** [UTC(t)]: the UTC instant of the local wall clock value [t]. *)
  UTC : Z -> Z
}.

Definition msPerDay : Z := 86400000.

(** Year, month (1..12) and day of the month of a day number. *)
Definition civil_from_days (z0 : Z) : Z * Z * Z :=
  let z := z0 + 719468 in
  let era := z / 146097 in
  let doe := z - era * 146097 in
  let yoe := (doe - doe / 1460 + doe / 36524 - doe / 146096) / 365 in
  let doy := doe - (365 * yoe + yoe / 4 - yoe / 100) in
  let mp := (5 * doy + 2) / 153 in
  let d := doy - (153 * mp + 2) / 5 + 1 in
  let m := if mp <? 10 then mp + 3 else mp - 9 in
  let y := yoe + era * 400 + (if m <=? 2 then 1 else 0) in
  (y, m, d).

(** Day number of the given year, month (1..12) and day of the month. *)
Definition days_from_civil (y0 m d : Z) : Z :=
  let y := if m <=? 2 then y0 - 1 else y0 in
  let era := y / 400 in
  let yoe := y - era * 400 in
  let doy := (153 * (if 2 <? m then m - 3 else m + 9) + 2) / 5 + d - 1 in
  let doe := yoe * 365 + yoe / 4 - yoe / 100 + doy in
  era * 146097 + doe - 719468.

Section WithClock.
Variable clk : Clock.

(** The getters of a [Date] of time value [t]. *)
Definition getFullYear (t : Z) : Z :=
  fst (fst (civil_from_days (LocalTime clk t / msPerDay))).
Definition getMonth (t : Z) : Z :=
  snd (fst (civil_from_days (LocalTime clk t / msPerDay))) - 1.
Definition getDate (t : Z) : Z :=
  snd (civil_from_days (LocalTime clk t / msPerDay)).
Definition getHours (t : Z) : Z := (LocalTime clk t / 3600000) mod 24.
Definition getMinutes (t : Z) : Z := (LocalTime clk t / 60000) mod 60.
Definition getSeconds (t : Z) : Z := (LocalTime clk t / 1000) mod 60.

(** The time value of [new Date(year, month, date, hours, minutes,
    seconds)]: a year 0..99 means 1900 + year, the month and the date
    may lie outside their ranges. *)
Definition new_Date_fields (year month date hours minutes seconds : Z) : Z :=
  let yr := if (0 <=? year) && (year <=? 99) then 1900 + year else year in
  let ym := yr + month / 12 in
  let mn := month mod 12 in
  let day := days_from_civil ym (mn + 1) 1 + date - 1 in
  let time := hours * 3600000 + minutes * 60000 + seconds * 1000 in
  UTC clk (day * msPerDay + time).
End WithClock.

End JSDate.

(** ** The card decoders (app/(tabs)/ticket.tsx) *)

Module Ticket.

(** The object [parseDESFireVersion] returns and [parseAthenaTicketData]
    takes as [desfireInfo]; its fields are [cardType], [manufacturer],
    [capacity] and [productionDate]. *)
Record VersionInfo := {
  v_cardType : string;
  v_manufacturer : string;
  v_capacity : string;
  v_productionDate : string
}.

Inductive ProductStatus := active | expired | inactive.

Record ProductInfo := {
  name : string;
  status : option ProductStatus;
  validUntil : option Z;
  trips : option Z
}.

(** [number | "unlimited" | "encrypted"]. *)
Inductive Trips :=
| Count (n : Z)
| unlimited
| encrypted.

Record TicketInfo := {
  cardId : string;
  uid : string;
  cardType : string;
  manufacturer : string;
  capacity : string;
  productionDate : string;
  tripsRemaining : Trips;
  activeProduct : option ProductInfo;
  expiredProduct : option ProductInfo;
  userCategory : string;
  isActive : bool;
  remainingTimeSeconds : Z;
  expiryDate : option string;
  loadDate : option string;
  isEncrypted : bool;
  applicationId : string
}.

(** DESFire version data parser. *)
Definition parseDESFireVersion (versionData : list Z) : VersionInfo :=
  let len := Z.of_nat (List.length versionData) in
  let hw :=
    if 7 <=? len then
      let hwVendor := JS.at_ versionData 0 in
      let hwType := JS.at_ versionData 1 in
      let hwSubType := JS.at_ versionData 2 in
      let hwMajor := JS.at_ versionData 3 in
      let hwMinor := JS.at_ versionData 4 in
      let hwStorageSize := JS.at_ versionData 5 in
      let manufacturer :=
        if hwVendor =? 4 then "NXP Semiconductors" else "Unknown" in
      let cardType :=
        if hwType =? 1 then
          if hwSubType =? 1 then "DESFire EV1"
          else if hwSubType =? 2 then "DESFire EV2"
          else if hwSubType =? 3 then "DESFire EV3"
          else "DESFire (" +:+ JS.toString hwMajor +:+ "."
               +:+ JS.toString hwMinor +:+ ")"
        else "DESFire" in
      let storagePower := JS.sar hwStorageSize 1 in
      let storageBytes := JS.shl 1 storagePower in
      let capacity :=
        if 1024 <=? storageBytes
        then JS.toString (storageBytes / 1024) +:+ " KB"
        else JS.toString storageBytes +:+ " bytes" in
      (cardType, manufacturer, capacity)
    else ("DESFire", "Unknown", "Unknown") in
  let productionDate :=
    if 28 <=? len then
      let prodWeek := JS.at_ versionData 26 in
      let prodYear := JS.at_ versionData 27 in
      if (0 <? prodWeek) && (prodWeek <=? 53) && (0 <? prodYear) then
        let year := if prodYear <? 50 then 2000 + prodYear
                    else 1900 + prodYear in
        "Week " +:+ JS.toString prodWeek +:+ ", " +:+ JS.toString year
      else ""
    else "" in
  {| v_cardType := fst (fst hw);
     v_manufacturer := snd (fst hw);
     v_capacity := snd hw;
     v_productionDate := productionDate |}.

(** ATH.ENA user category codes. *)
Definition USER_CATEGORIES (key : Z) : option string :=
  if key =? 0x00 then Some "Adult"
  else if key =? 0x01 then Some "Adult"
  else if key =? 0x10 then Some "Student"
  else if key =? 0x20 then Some "Senior"
  else if key =? 0x30 then Some "Adult"
  else if key =? 0x40 then Some "Child"
  else if key =? 0x50 then Some "Disabled"
  else if key =? 0x60 then Some "Military"
  else if key =? 0x70 then Some "Unemployed"
  else if key =? 0x80 then Some "University student"
  else None.

(** [(b0 & 0xff) | ((b1 & 0xff) << 8) | ((b2 & 0xff) << 16) |
    ((b3 & 0xff) << 24)] followed by [>>> 0]: the expression the source
    writes out for file 12 and for both timestamps of file 16. *)
Definition le32 (b0 b1 b2 b3 : Z) : Z :=
  let raw :=
    JS.bor (JS.bor (JS.bor (JS.band b0 0xff)
                           (JS.shl (JS.band b1 0xff) 8))
                   (JS.shl (JS.band b2 0xff) 16))
           (JS.shl (JS.band b3 0xff) 24) in
  JS.ushr raw 0.

(** [s.replace(/(.{4})/g, "$1 ")]: from left to right, every run of four
    characters none of which is a line terminator is followed by a space;
    [inside] counts the characters of the current match still to copy. *)
Definition matches4 (s : string) : bool :=
  match s with
  | String a (String b (String c (String d _))) =>
      negb (JS.isLineTerminator a) && negb (JS.isLineTerminator b)
      && negb (JS.isLineTerminator c) && negb (JS.isLineTerminator d)
  | _ => false
  end.

Fixpoint replace4 (inside : nat) (s : string) : string :=
  match s with
  | EmptyString => EmptyString
  | String c r =>
      match inside with
      | S (S k) => String c (replace4 (S k) r)
      | S O => String c (String " " (replace4 O r))
      | O => if matches4 s then String c (replace4 3 r)
             else String c (replace4 O r)
      end
  end.

(** The card id of file 2: bytes 12..16 in hexadecimal after the prefix. *)
Definition cardId_of_file2 (file2 : list Z) : string :=
  let cardBytes := JS.slice file2 12 17 in
  let cardNum :=
    fold_left (fun acc b => acc +:+ JS.padStart (JS.toString16 b) 2 "0")
              cardBytes "3001 0100 " in
  JS.trim (replace4 O (JS.toUpperCase cardNum)).

(** PARSE FILE 2: card info and user category. Returns the new
    [(cardId, userCategory)]. *)
Definition parse_file2 (fileData : gmap Z (list Z)) (cardId userCategory : string)
  : string * string :=
  match fileData !! 2 with
  | Some file2 =>
      if 20 <=? Z.of_nat (List.length file2) then
        let categoryByte := JS.at_ file2 9 in
        (cardId_of_file2 file2,
         match USER_CATEGORIES categoryByte with
         | Some c => c
         | None => "Regular"
         end)
      else (cardId, userCategory)
  | None => (cardId, userCategory)
  end.

(** [String.fromCharCode(a, b, c) === "PKP"], on the code units. *)
Definition is_PKP (a b c : Z) : bool :=
  (a mod 65536 =? 80) && (b mod 65536 =? 75) && (c mod 65536 =? 80).

(** PARSE FILE 4: card personalization and user type. Returns the new
    [userCategory]. *)
Definition parse_file4 (fileData : gmap Z (list Z)) (userCategory : string)
  : string :=
  match fileData !! 4 with
  | Some file4 =>
      if 10 <=? Z.of_nat (List.length file4) then
        let pkp := is_PKP (JS.at_ file4 4) (JS.at_ file4 5) (JS.at_ file4 6) in
        if pkp || (JS.at_ file4 3 =? 0x37) then
          let persCategory := JS.at_ file4 9 in
          let userCategory1 :=
            if negb (persCategory =? 0) then
              match USER_CATEGORIES persCategory with
              | Some persUserCat => persUserCat
              | None => userCategory
              end
            else userCategory in
          if String.eqb userCategory1 "Adult" && pkp
          then "University student"
          else userCategory1
        else userCategory
      else userCategory
  | None => userCategory
  end.

(** PARSE FILE 12: remaining trips (value file). *)
Definition parse_file12 (fileData : gmap Z (list Z)) (tripsRemaining : Trips)
  : Trips :=
  match fileData !! 12 with
  | Some file12 =>
      if 4 <=? Z.of_nat (List.length file12) then
        Count (le32 (JS.at_ file12 0) (JS.at_ file12 1)
                    (JS.at_ file12 2) (JS.at_ file12 3))
      else tripsRemaining
  | None => tripsRemaining
  end.

Definition Monthly : ProductInfo :=
  {| name := "Monthly"; status := None; validUntil := None; trips := Some 0 |}.

Definition count_product (n : Z) : ProductInfo :=
  {| name := JS.toString n +:+ " trips"; status := None; validUntil := None;
     trips := Some n |}.

(** One 32-byte product record at offset [off]: [Some (product, period)]
    when the record yields a product, [period] telling a period pass. *)
Definition product_at (file16 : list Z) (off : nat)
  : option (ProductInfo * bool) :=
  let prodType := JS.at_ file16 (off + 1) in
  let prodTrips := JS.at_ file16 (off + 16) in
  let isPeriodPass := (prodTrips =? 0) && negb (JS.at_ file16 off =? 0xff) in
  if isPeriodPass || (prodType =? 0x31) then Some (Monthly, true)
  else if 0 <? prodTrips then Some (count_product prodTrips, false)
  else None.

(** [tripsRemaining === 0 && activeProduct && activeProduct.trips &&
    activeProduct.trips > 0]. *)
Definition fallback_applies (tripsRemaining : Trips)
    (activeProduct : option ProductInfo) : option Z :=
  match tripsRemaining, activeProduct with
  | Count 0, Some p =>
      match trips p with
      | Some n => if negb (n =? 0) && (0 <? n) then Some n else None
      | None => None
      end
  | _, _ => None
  end.

(** PARSE FILE 16: products. Returns the new
    [(activeProduct, expiredProduct, tripsRemaining)]. *)
Definition parse_file16_products (fileData : gmap Z (list Z))
    (activeProduct expiredProduct : option ProductInfo) (tripsRemaining : Trips)
  : option ProductInfo * option ProductInfo * Trips :=
  match fileData !! 16 with
  | Some file16 =>
      if 32 <=? Z.of_nat (List.length file16) then
        let first := product_at file16 0 in
        let activeProduct1 :=
          match first with Some (p, _) => Some p | None => activeProduct end in
        let tripsRemaining1 :=
          match first with
          | Some (_, true) => unlimited
          | _ => tripsRemaining
          end in
        let expiredProduct1 :=
          if 64 <=? Z.of_nat (List.length file16) then
            match product_at file16 32 with
            | Some (p, _) => Some p
            | None => expiredProduct
            end
          else expiredProduct in
        let tripsRemaining2 :=
          match fallback_applies tripsRemaining1 activeProduct1 with
          | Some n => Count n
          | None => tripsRemaining1
          end in
        (activeProduct1, expiredProduct1, tripsRemaining2)
      else (activeProduct, expiredProduct, tripsRemaining)
  | None => (activeProduct, expiredProduct, tripsRemaining)
  end.

Definition athenaEpoch : Z := 852076800.

Definition in_window (t : Z) : bool := (1420070400 <? t) && (t <? 2208988800).

(** What the timestamp block of file 16 assigns:
    [(loadDate, expiryDate, isActive, remainingTimeSeconds)]. *)
Record Validity := {
  val_loadDate : option string;
  val_expiryDate : option string;
  val_isActive : bool;
  val_remainingTimeSeconds : Z
}.

(** The initial values: [loadDate] and [expiryDate] null, [isActive]
    false, [remainingTimeSeconds] 0. *)
Definition no_validity : Validity :=
  {| val_loadDate := None; val_expiryDate := None; val_isActive := false;
     val_remainingTimeSeconds := 0 |}.

Section WithClock.
Variable clk : JSDate.Clock.

Definition pad2 (n : Z) : string := JS.padStart (JS.toString n) 2 "0".

Definition formatTimestamp (unixTimestamp : Z) : string :=
  let date := unixTimestamp * 1000 in
  let day := pad2 (JSDate.getDate clk date) in
  let month := pad2 (JSDate.getMonth clk date + 1) in
  let year := JSDate.getFullYear clk date in
  let hours := pad2 (JSDate.getHours clk date) in
  let minutes := pad2 (JSDate.getMinutes clk date) in
  let seconds := pad2 (JSDate.getSeconds clk date) in
  day +:+ "/" +:+ month +:+ "/" +:+ JS.toString year +:+ " "
  +:+ hours +:+ ":" +:+ minutes +:+ ":" +:+ seconds.

(** The assignments shared by the three places that accept an expiry
    instant [e]: [expiryDate = formatTimestamp(e)], and [isActive] and
    [remainingTimeSeconds] only when [e > now]. *)
Definition expires_at (v : Validity) (loadDate : option string) (now e : Z)
  : Validity :=
  {| val_loadDate := loadDate;
     val_expiryDate := Some (formatTimestamp e);
     val_isActive := if now <? e then true else val_isActive v;
     val_remainingTimeSeconds :=
       if now <? e then e - now else val_remainingTimeSeconds v |}.

(** PARSE PRODUCT TIMESTAMPS from file 16. *)
Definition parse_file16_timestamps (fileData : gmap Z (list Z)) (v : Validity)
  : Validity :=
  match fileData !! 16 with
  | Some file16 =>
      if 12 <=? Z.of_nat (List.length file16) then
        let now := JSDate.now_ms clk / 1000 in
        let prodType := JS.at_ file16 1 in
        let isPeriodPass := prodType =? 0x31 in
        let loadBytes := JS.slice file16 4 8 in
        let loadTimestamp :=
          le32 (JS.at_ loadBytes 0) (JS.at_ loadBytes 1)
               (JS.at_ loadBytes 2) (JS.at_ loadBytes 3) in
        let loadDate :=
          if in_window loadTimestamp then Some (formatTimestamp loadTimestamp)
          else if 0 <? loadTimestamp then
            let loadUnix := athenaEpoch + loadTimestamp in
            if in_window loadUnix then Some (formatTimestamp loadUnix)
            else val_loadDate v
          else val_loadDate v in
        if isPeriodPass then
          let refDate :=
            if 1420070400 <? loadTimestamp then loadTimestamp * 1000
            else JSDate.new_Date_ms clk in
          let endOfMonth :=
            JSDate.new_Date_fields clk (JSDate.getFullYear clk refDate)
              (JSDate.getMonth clk refDate + 1) 0 23 59 59 in
          let endOfMonthUnix := endOfMonth / 1000 in
          expires_at v loadDate now endOfMonthUnix
        else
          let expiryBytes := JS.slice file16 8 12 in
          let expiryTimestamp :=
            le32 (JS.at_ expiryBytes 0) (JS.at_ expiryBytes 1)
                 (JS.at_ expiryBytes 2) (JS.at_ expiryBytes 3) in
          let unchanged :=
            {| val_loadDate := loadDate;
               val_expiryDate := val_expiryDate v;
               val_isActive := val_isActive v;
               val_remainingTimeSeconds := val_remainingTimeSeconds v |} in
          if in_window expiryTimestamp then
            expires_at v loadDate now expiryTimestamp
          else if 0 <? expiryTimestamp then
            let expiryUnix := athenaEpoch + expiryTimestamp in
            if in_window expiryUnix then expires_at v loadDate now expiryUnix
            else unchanged
          else unchanged
      else v
  | None => v
  end.

Definition truthy_bool (b : option bool) : bool :=
  match b with Some true => true | _ => false end.

Definition truthy_str (s : option string) : string :=
  match s with Some x => x | None => "" end.

(** ATH.ENA ticket data parser. *)
Definition parseAthenaTicketData (data : list Z) (tagId : option string)
    (desfireInfo : option VersionInfo) (applicationId : option string)
    (isEncrypted : option bool) (fileData : option (gmap Z (list Z)))
  : TicketInfo :=
  let versionInfo :=
    match desfireInfo with
    | Some d => d
    | None => {| v_cardType := "Unknown"; v_manufacturer := "Unknown";
                 v_capacity := "Unknown"; v_productionDate := "" |}
    end in
  let uid := truthy_str tagId in
  let cardId := uid in
  let tripsRemaining := if truthy_bool isEncrypted then encrypted else Count 0 in
  let userCategory := "Unknown" in
  let validity := no_validity in
  let '(cardId, userCategory, tripsRemaining, activeProduct, expiredProduct,
        validity) :=
    match fileData with
    | Some fd =>
        if negb (truthy_bool isEncrypted) then
          let '(cardId, userCategory) := parse_file2 fd cardId userCategory in
          let userCategory := parse_file4 fd userCategory in
          let tripsRemaining := parse_file12 fd tripsRemaining in
          let '(activeProduct, expiredProduct, tripsRemaining) :=
            parse_file16_products fd None None tripsRemaining in
          let validity := parse_file16_timestamps fd validity in
          (cardId, userCategory, tripsRemaining, activeProduct,
           expiredProduct, validity)
        else (cardId, userCategory, tripsRemaining, None, None, validity)
    | None => (cardId, userCategory, tripsRemaining, None, None, validity)
    end in
  {| cardId := cardId;
     uid := uid;
     cardType := v_cardType versionInfo;
     manufacturer := v_manufacturer versionInfo;
     capacity := v_capacity versionInfo;
     productionDate := v_productionDate versionInfo;
     tripsRemaining := tripsRemaining;
     activeProduct := activeProduct;
     expiredProduct := expiredProduct;
     userCategory := userCategory;
     isActive := val_isActive validity;
     remainingTimeSeconds := val_remainingTimeSeconds validity;
     expiryDate := val_expiryDate validity;
     loadDate := val_loadDate validity;
     isEncrypted := truthy_bool isEncrypted;
     applicationId := truthy_str applicationId |}.
End WithClock.

End Ticket.

(** ** The OASTH telematics client (src/unnamed/part_000) *)

Module Oasth.

(** *** The platform: network, gzip, text decoding, JSON

    A call that can throw (or a promise that can reject) returns an
    [outcome]. *)
Inductive outcome (A : Type) :=
| Returns (a : A)
| Throws (e : string).
Arguments Returns {A} a.
Arguments Throws {A} e.

#[global] Instance outcome_ret : MRet outcome := fun A a => Returns a.

#[global] Instance outcome_bind : MBind outcome := fun A B k m =>
  match m with
  | Returns a => k a
  | Throws e => Throws e
  end.

(** [try { body } catch (e) { handler(e) }]. *)
Definition try_catch {A} (body : outcome A) (handler : string -> outcome A)
  : outcome A :=
  match body with
  | Returns a => Returns a
  | Throws e => handler e
  end.

(** A value [JSON.parse] returns; a number keeps its literal. *)
#[local] Unset Elimination Schemes.
Inductive json :=
| JNull
| JBool (b : bool)
| JNumber (literal : string)
| JString (s : string)
| JArray (items : list json)
| JObject (members : list (string * json)).
#[local] Set Elimination Schemes.

Record Response := {
  ok : bool;
  status : Z;
  statusText : string;
  arrayBuffer : outcome (list Z)
}.

Record Platform := {
  (** [fetch(url, {method: 'GET', headers})]. *)
  fetch : string -> outcome Response;
  (** [pako.ungzip(data, {to: 'string'})]: the text, an exception, or
      [undefined] ([None]) for a stream that stops before its end mark,
      which pako does not report as an error. *)
  ungzip : list Z -> outcome (option string);
  (** [new TextDecoder('utf-8').decode(data)]: malformed input is replaced,
      never refused. *)
  utf8_decode : list Z -> string;
  (** [JSON.parse(text)]. *)
  JSON_parse : string -> outcome json
}.

Definition BASE_URL : string := "https://old.oasth.gr/el/api".

(** Helper to build endpoint URLs. *)
Definition buildUrl (endpoint : string) (param : option string) : string :=
  let path :=
    match param with
    | Some p => if String.eqb p "" then endpoint else endpoint +:+ "/" +:+ p
    | None => endpoint
    end in
  BASE_URL +:+ "/" +:+ path +:+ "/?a=1".

(** *** [parseTupleFormat] *)

(** The longest prefix of [s] whose characters satisfy [p], and the rest. *)
Fixpoint span (p : ascii -> bool) (s : string) : string * string :=
  match s with
  | String c r =>
      if p c then let '(a, b) := span p r in (String c a, b)
      else (EmptyString, s)
  | EmptyString => (EmptyString, EmptyString)
  end.

(** Whether every character of [s] satisfies [p]. *)
Fixpoint all_chars (p : ascii -> bool) (s : string) : bool :=
  match s with
  | String c r => p c && all_chars p r
  | EmptyString => true
  end.

Definition is_not (x : ascii) (c : ascii) : bool := negb (Ascii.eqb c x).

(** The double quote. *)
Definition dquote : ascii := "034"%char.

Definition is_digit (c : ascii) : bool :=
  let n := N_of_ascii c in ((48 <=? n) && (n <=? 57))%N.

(** [/\(([^)]+)\)/] tried at the start of [s]: the captured group and the
    length of the match. [[^)]+] is greedy and what follows it must be a
    closing parenthesis, so only the longest run can match. *)
Definition match_tuple (s : string) : option (string * nat) :=
  match s with
  | String "(" r =>
      let '(content, rest) := span (is_not ")") r in
      match content, rest with
      | String _ _, String _ _ => Some (content, (String.length content + 2)%nat)
      | _, _ => None
      end
  | _ => None
  end.

(** What one match of the value pattern holds: capture group 1 when the
    first alternative matched, the whole match otherwise. *)
Inductive value_match :=
| Quoted (group1 : string)
| Bare (match0 : string).

(** The first alternative at the start of [s]: a double quote, the longest
    run of characters other than a double quote (group 1, possibly
    empty), a double quote. *)
Definition match_quoted (s : string) : option (value_match * nat) :=
  match s with
  | String c r =>
      if Ascii.eqb c dquote then
        let '(content, rest) := span (is_not dquote) r in
        match rest with
        | String _ _ => Some (Quoted content, (String.length content + 2)%nat)
        | EmptyString => None
        end
      else None
  | EmptyString => None
  end.

(** The second alternative at the start of [s]: an optional minus sign,
    one or more digits, an optional dot, any number of digits; every
    part takes as much as it can. *)
Definition match_number (s : string) : option (value_match * nat) :=
  let '(sign, r) :=
    match s with
    | String "-" r' => ("-", r')
    | _ => ("", s)
    end in
  let '(int, r1) := span is_digit r in
  match int with
  | EmptyString => None
  | String _ _ =>
      let '(dot, r2) :=
        match r1 with
        | String "." r' => (".", r')
        | _ => ("", r1)
        end in
      let '(frac, _) := span is_digit r2 in
      let m := sign +:+ int +:+ dot +:+ frac in
      Some (Bare m, String.length m)
  end.

Definition match_literal (lit s : string) : option (value_match * nat) :=
  if String.prefix lit s then Some (Bare lit, String.length lit) else None.

(** The value pattern at the start of [s], a quoted string, a number,
    [None] or [null]: the first alternative that matches. *)
Definition match_value (s : string) : option (value_match * nat) :=
  match match_quoted s with
  | Some m => Some m
  | None =>
      match match_number s with
      | Some m => Some m
      | None =>
          match match_literal "None" s with
          | Some m => Some m
          | None => match_literal "null" s
          end
      end
  end.

(** The body of the inner loop: what is pushed for one match. *)
Definition pushed (m : value_match) : string :=
  match m with
  | Quoted group1 => group1
  | Bare match0 =>
      if String.eqb match0 "None" || String.eqb match0 "null" then ""
      else match0
  end.

(** [while ((valueMatch = valueRegex.exec(tupleContent)) !== null)]: the
    pattern is tried at every position from left to right, and after a
    match the search resumes behind it; [skip] counts the characters of
    the last match still to pass. *)
Fixpoint scan_values (skip : nat) (s : string) : list string :=
  match s with
  | EmptyString => []
  | String _ r =>
      match skip with
      | S k => scan_values k r
      | O =>
          match match_value s with
          | Some (m, n) => pushed m :: scan_values (n - 1) r
          | None => scan_values O r
          end
      end
  end.

(** The outer loop, in the same way. *)
Fixpoint scan_tuples (skip : nat) (s : string) : list (list string) :=
  match s with
  | EmptyString => []
  | String _ r =>
      match skip with
      | S k => scan_tuples k r
      | O =>
          match match_tuple s with
          | Some (tupleContent, n) =>
              let values := scan_values O tupleContent in
              if (0 <? length values)%nat
              then values :: scan_tuples (n - 1) r
              else scan_tuples (n - 1) r
          | None => scan_tuples O r
          end
      end
  end.

(** Parse OASTH tuple format to an array of rows. *)
Definition parseTupleFormat (text : string) : list (list string) :=
  scan_tuples O text.

(** *** [decompressGzip] and [fetchAPI] *)

(** A parsed row set as the JavaScript value it is: an array of arrays of
    strings. *)
Definition of_rows (rows : list (list string)) : json :=
  JArray (map (fun row => JArray (map JString row)) rows).

(** [Array.isArray(v)]. *)
Definition isArray (v : json) : bool :=
  match v with
  | JArray _ => true
  | _ => false
  end.

Section WithPlatform.
Variable P : Platform.

(** [data[0] === 0x1f && data[1] === 0x8b]. *)
Definition has_gzip_magic (data : list Z) : bool :=
  match data with
  | b0 :: b1 :: _ => (b0 =? 0x1f) && (b1 =? 0x8b)
  | _ => false
  end.

(** Decompress gzip data using pako. *)
Definition decompressGzip (data : list Z) : outcome (option string) :=
  try_catch
    (if has_gzip_magic data then ungzip P data
     else Returns (Some (utf8_decode P data)))
    (fun e => Returns (Some (utf8_decode P data))).

(** [!text || text.trim() === '' || text === 'null' || text === '[]' ||
    text === '()']. *)
Definition is_empty_response (text : string) : bool :=
  String.eqb text "" || String.eqb (JS.trim text) ""
  || String.eqb text "null" || String.eqb text "[]" || String.eqb text "()".

(** The part of [fetchAPI] behind [decompressGzip]: the sniffing of the
    text. *)
Definition decode_text (text : string) : outcome json :=
  if is_empty_response text then Returns (of_rows [])
  else
    let trimmed := JS.trim text in
    let parsed :=
      if JS.startsWith "[" trimmed || JS.startsWith "{" trimmed then
        try_catch (v ← JSON_parse P text; Returns (Some v))
                  (fun _ => Returns None)
      else Returns None in
    v ← parsed;
    match v with
    | Some j => Returns j
    | None => Returns (of_rows (parseTupleFormat text))
    end.

(** Fetch and parse an OASTH API response. [!text] holds of [undefined]
    and of the empty text; [decode_text] has the second. *)
Definition fetchAPI (endpoint : string) (param : option string)
  : outcome json :=
  let url := buildUrl endpoint param in
  try_catch
    (response ← fetch P url;
     if negb (ok response) then
       Throws ("OASTH API Error: " +:+ JS.toString (status response)
               +:+ " " +:+ statusText response)
     else
       bytes ← arrayBuffer response;
       text ← decompressGzip bytes;
       match text with
       | None => Returns (of_rows [])
       | Some text => decode_text text
       end)
    (fun error => Returns (of_rows [])).
End WithPlatform.

(** *** [getStops] and [getClosestStops] *)

(** The fields of [Stop] that [getStops] fills in, and [distance]. *)
Record Stop := {
  StopCode : string;
  StopID : string;
  StopDescr : string;
  StopDescrEng : string;
  StopLat : string;
  StopLng : string;
  StopHeading : string;
  StopStreet : option string;
  StopStreetEng : option string;
  distance : option string
}.

(** [row[i] || d] and [row[i] || null] on a row of strings. *)
Definition field_or (row : list string) (i : nat) (d : string) : string :=
  match row !! i with
  | Some x => JS.or_str x d
  | None => d
  end.

Definition field_or_null (row : list string) (i : nat) : option string :=
  match row !! i with
  | Some x => if String.eqb x "" then None else Some x
  | None => None
  end.

(** The mapping of [getStops], for an answer that is an array of rows. *)
Definition getStops_row (row : list string) : Stop :=
  {| StopCode := field_or row 1 "";
     StopID := field_or row 0 "";
     StopDescr := field_or row 2 "";
     StopDescrEng := field_or row 3 (field_or row 2 "");
     StopLat := field_or row 8 "0";
     StopLng := field_or row 7 "0";
     StopHeading := "0";
     StopStreet := field_or_null row 4;
     StopStreetEng := field_or_null row 5;
     distance := None |}.

Definition getStops_rows (rows : list (list string)) : list Stop :=
  map getStops_row rows.

(** The double-precision arithmetic of the engine. A number is
    [option double]: [None] is NaN, [double] holds the other values.
    Which strings [parseFloat] refuses is computed below; the value of
    the others, the arithmetic and [toFixed] are the engine's. *)
Class Float64 := {
  double : Type;
  (** The value of the longest prefix of the text that is a decimal
      literal, for a text that has one. *)
  strtod : string -> double;
  fadd : option double -> option double -> option double;
  fsub : option double -> option double -> option double;
  fmul : option double -> option double -> option double;
  fdiv : option double -> option double -> option double;
  Math_sin : option double -> option double;
  Math_cos : option double -> option double;
  Math_sqrt : option double -> option double;
  Math_atan2 : option double -> option double -> option double;
  Math_PI : option double;
  (** An integer literal of the source. *)
  lit : Z -> option double;
  (** [x.toFixed(2)]. *)
  toFixed2 : option double -> string;
  (** [x > 0]: what [sort] asks of a comparator result. *)
  is_positive : option double -> bool
}.

(** Whether the text starts with a decimal literal: an optional sign, then
    [Infinity], a digit, or a dot and a digit. *)
Definition starts_decimal_literal (s : string) : bool :=
  let body :=
    match s with
    | String "+" r => r
    | String "-" r => r
    | _ => s
    end in
  String.prefix "Infinity" body
  || match body with
     | String c r =>
         is_digit c
         || (Ascii.eqb c "." && match r with
                                | String d _ => is_digit d
                                | EmptyString => false
                                end)
     | EmptyString => false
     end.

Section WithFloat64.
Context {F : Float64}.

Definition num : Type := option double.

Definition isNaN (x : num) : bool :=
  match x with
  | None => true
  | Some _ => false
  end.

(** [parseFloat(s)]: leading white space is skipped; NaN when no decimal
    literal follows. *)
Definition parseFloat (s : string) : num :=
  let t := JS.trimStart s in
  if starts_decimal_literal t then Some (strtod t) else None.

(** The haversine distance in km, as the source writes it. *)
Definition haversine_km (lat lng stopLat stopLng : num) : num :=
  let R := lit 6371 in
  let dLat := fdiv (fmul (fsub stopLat lat) Math_PI) (lit 180) in
  let dLng := fdiv (fmul (fsub stopLng lng) Math_PI) (lit 180) in
  let a :=
    fadd (fmul (Math_sin (fdiv dLat (lit 2))) (Math_sin (fdiv dLat (lit 2))))
         (fmul (fmul (fmul (Math_cos (fdiv (fmul lat Math_PI) (lit 180)))
                           (Math_cos (fdiv (fmul stopLat Math_PI) (lit 180))))
                     (Math_sin (fdiv dLng (lit 2))))
               (Math_sin (fdiv dLng (lit 2)))) in
  let c := fmul (lit 2)
                (Math_atan2 (Math_sqrt a) (Math_sqrt (fsub (lit 1) a))) in
  fmul R c.

Definition with_distance (stop : Stop) (d : string) : Stop :=
  {| StopCode := StopCode stop;
     StopID := StopID stop;
     StopDescr := StopDescr stop;
     StopDescrEng := StopDescrEng stop;
     StopLat := StopLat stop;
     StopLng := StopLng stop;
     StopHeading := StopHeading stop;
     StopStreet := StopStreet stop;
     StopStreetEng := StopStreetEng stop;
     distance := Some d |}.

(** The filter: [stop.StopLat && stop.StopLng && stop.StopLat !== '0'
    && stop.StopLng !== '0']. *)
Definition has_coordinates (stop : Stop) : bool :=
  negb (String.eqb (StopLat stop) "") && negb (String.eqb (StopLng stop) "")
  && negb (String.eqb (StopLat stop) "0")
  && negb (String.eqb (StopLng stop) "0").

(** The map: the stop with its distance. *)
Definition add_distance (lat lng : num) (stop : Stop) : Stop :=
  let stopLat := parseFloat (StopLat stop) in
  let stopLng := parseFloat (StopLng stop) in
  if isNaN stopLat || isNaN stopLng then with_distance stop "999"
  else with_distance stop (toFixed2 (haversine_km lat lng stopLat stopLng)).

(** The comparator: [parseFloat(a.distance!) - parseFloat(b.distance!)]. *)
Definition by_distance (a b : Stop) : num :=
  let dist (s : Stop) := match distance s with Some d => d | None => "" end in
  fsub (parseFloat (dist a)) (parseFloat (dist b)).

(** [Array.prototype.sort(cmp)], which is stable: each element goes
    before the first element already placed that compares greater. This
    is the order of every engine when the comparator answers a number
    for each pair and answers consistently. When a verdict is NaN (the
    distance text of a stop is NaN) ECMAScript leaves the order to the
    engine, and the order below is one of the orders allowed; what is
    proved of the order of the result is proved of lists without such a
    verdict, the rest holds of every permutation. *)
Fixpoint insert_sorted (cmp : Stop -> Stop -> num) (x : Stop) (l : list Stop)
  : list Stop :=
  match l with
  | [] => [x]
  | y :: r =>
      if is_positive (cmp y x) then x :: y :: r
      else y :: insert_sorted cmp x r
  end.

Definition sort (cmp : Stop -> Stop -> num) (l : list Stop) : list Stop :=
  fold_left (fun acc x => insert_sorted cmp x acc) l [].

(** Get closest stops to a location; [allStops] is what [getStops()]
    resolved to. *)
Definition getClosestStops (allStops : list Stop) (lat lng : num)
  : list Stop :=
  match allStops with
  | [] => []
  | _ =>
      let stopsWithDistance :=
        map (add_distance lat lng) (List.filter has_coordinates allStops) in
      JS.slice (sort by_distance stopsWithDistance) 0 30
  end.
End WithFloat64.

End Oasth.

(** ** The numbers of the engine

    The doubles of [getClosestStops]: IEEE 754 binary64, with the
    operations of [SpecFloat] (round to nearest, ties to even). *)

Module IEEE754.
Import SpecFloat.

Definition prec : Z := 53.
Definition emax : Z := 1024.

(** The doubles other than NaN: [Finite s m e] is [m * 2 ^ e], negated
    when [s] holds. *)
Inductive binary64 :=
| Zero (negative : bool)
| Infinite (negative : bool)
| Finite (negative : bool) (m : positive) (e : Z).

Definition to_sf (x : option binary64) : spec_float :=
  match x with
  | None => S754_nan
  | Some (Zero s) => S754_zero s
  | Some (Infinite s) => S754_infinity s
  | Some (Finite s m e) => S754_finite s m e
  end.

Definition of_sf (x : spec_float) : option binary64 :=
  match x with
  | S754_nan => None
  | S754_zero s => Some (Zero s)
  | S754_infinity s => Some (Infinite s)
  | S754_finite s m e => Some (Finite s m e)
  end.

Fixpoint digits_value (acc : Z) (digits : string) : Z :=
  match digits with
  | String c r => digits_value (10 * acc + (Z.of_N (N_of_ascii c) - 48)) r
  | EmptyString => acc
  end.

(** The double nearest to [digits * 10 ^ exponent], for [digits >= 0]. A
    value of 10 ^ 401 or more is beyond every double, one below
    10 ^ -400 rounds to zero. *)
Definition of_decimal (negative : bool) (digits exponent : Z) : spec_float :=
  if digits =? 0 then S754_zero negative
  else if 400 <? exponent then S754_infinity negative
  else if exponent <? - 400 - Z.log2 digits then S754_zero negative
  else if 0 <=? exponent then
    binary_normalize prec emax (cond_Zopp negative (digits * 10 ^ exponent)) 0
      negative
  else
    let '(m, e, l) :=
      SFdiv_core_binary prec emax digits 0 (10 ^ (- exponent)) 0 in
    binary_round_aux prec emax negative m e l.

Definition signed (s : string) : bool * string :=
  match s with
  | String "-" r => (true, r)
  | String "+" r => (false, r)
  | _ => (false, s)
  end.

(** The value of the longest prefix of [t] that is a decimal literal
    ([StrDecimalLiteral]: a sign, then [Infinity] or digits with an
    optional fraction and an optional exponent), for a text that starts
    with one. *)
Definition strtod (t : string) : spec_float :=
  let '(negative, body) := signed t in
  if String.prefix "Infinity" body then S754_infinity negative
  else
    let '(whole, r1) := Oasth.span Oasth.is_digit body in
    let '(fraction, r2) :=
      match r1 with
      | String "." r => Oasth.span Oasth.is_digit r
      | _ => ("", r1)
      end in
    let exponent :=
      match r2 with
      | String c r =>
          if Ascii.eqb c "e" || Ascii.eqb c "E" then
            let '(minus, r') := signed r in
            let '(digits, _) := Oasth.span Oasth.is_digit r' in
            if String.eqb digits "" then 0
            else cond_Zopp minus (digits_value 0 digits)
          else 0
      | EmptyString => 0
      end in
    of_decimal negative (digits_value 0 (whole +:+ fraction))
      (exponent - Z.of_nat (String.length fraction)).

(** [Number::toString] of a double [x] that is the integer [X] of [n]
    decimal digits, for [X >= 10 ^ 21]: the fewest digits [s], [k] of
    them, with [s * 10 ^ (n - k)] rounding to [x], the nearest to [X]
    among them. *)
Definition rounds_to (x : spec_float) (v : Z) : bool :=
  match binary_normalize prec emax v 0 false, x with
  | S754_finite _ m e, S754_finite _ m' e' => Pos.eqb m m' && (e =? e')
  | _, _ => false
  end.

Fixpoint shortest (fuel : nat) (k : Z) (x : spec_float) (X n : Z) : Z * Z :=
  match fuel with
  | O => (X, n)
  | S fuel' =>
      let scale := 10 ^ (n - k) in
      let s0 := X / scale in
      let r := X mod scale in
      let ok0 := rounds_to x (s0 * scale) && (10 ^ (k - 1) <=? s0) in
      let ok1 := rounds_to x ((s0 + 1) * scale) in
      let nearer1 := (scale <? 2 * r) || ((2 * r =? scale) && Z.odd s0) in
      let pick (s : Z) :=
        if s =? 10 ^ k then (10 ^ (k - 1), n + 1) else (s, n) in
      if ok0 && ok1 then pick (if nearer1 then s0 + 1 else s0)
      else if ok0 then (s0, n)
      else if ok1 then pick (s0 + 1)
      else shortest fuel' (k + 1) x X n
  end.

Fixpoint strip_zeros (fuel : nat) (s : Z) : Z :=
  match fuel with
  | O => s
  | S fuel' =>
      if (s mod 10 =? 0) && negb (s =? 0) then strip_zeros fuel' (s / 10)
      else s
  end.

Definition toString_large (m : positive) (e : Z) : string :=
  let X := Z.pos m * 2 ^ e in
  let n := Z.of_nat (String.length (JS.toString X)) in
  let '(s, n') := shortest 17 1 (S754_finite false m e) X n in
  match JS.toString (strip_zeros 20 s) with
  | String d EmptyString => String d "" +:+ "e+" +:+ JS.toString (n' - 1)
  | String d rest =>
      String d "" +:+ "." +:+ rest +:+ "e+" +:+ JS.toString (n' - 1)
  | EmptyString => ""
  end.

(** [x.toFixed(2)]: the integer [n] nearest to [100 * x], the larger one
    of two, with a point before its last two digits; the notation of
    [toString] from 10 ^ 21 on. *)
Definition toFixed2 (x : spec_float) : string :=
  match x with
  | S754_nan => "NaN"
  | S754_zero _ => "0.00"
  | S754_infinity s => (if s then "-" else "") +:+ "Infinity"
  | S754_finite s m e =>
      let sign := if s then "-" else "" in
      let large :=
        if 0 <=? e then 10 ^ 21 <=? Z.pos m * 2 ^ e
        else 10 ^ 21 * 2 ^ (- e) <=? Z.pos m in
      if large then sign +:+ toString_large m e
      else
        let n :=
          if 0 <=? e then 100 * Z.pos m * 2 ^ e
          else (200 * Z.pos m + 2 ^ (- e)) / 2 ^ (- e + 1) in
        let digits := JS.padStart (JS.toString n) 3 "0" in
        let k := String.length digits in
        sign +:+ String.substring 0 (k - 2) digits +:+ "."
        +:+ String.substring (k - 2) 2 digits
  end.

(** [Math.sin], [Math.cos] and [Math.atan2] of the engine. *)
Record Engine := {
  sin : option binary64 -> option binary64;
  cos : option binary64 -> option binary64;
  atan2 : option binary64 -> option binary64 -> option binary64
}.

Definition float64 (E : Engine) : Oasth.Float64 :=
  {| Oasth.double := binary64;
     Oasth.strtod := fun t =>
       match of_sf (strtod t) with
       | Some d => d
       | None => Zero false
       end;
     Oasth.fadd := fun a b => of_sf (SFadd prec emax (to_sf a) (to_sf b));
     Oasth.fsub := fun a b => of_sf (SFsub prec emax (to_sf a) (to_sf b));
     Oasth.fmul := fun a b => of_sf (SFmul prec emax (to_sf a) (to_sf b));
     Oasth.fdiv := fun a b => of_sf (SFdiv prec emax (to_sf a) (to_sf b));
     Oasth.Math_sin := sin E;
     Oasth.Math_cos := cos E;
     Oasth.Math_sqrt := fun a => of_sf (SFsqrt prec emax (to_sf a));
     Oasth.Math_atan2 := atan2 E;
     Oasth.Math_PI := Some (Finite false 7074237752028440 (-51));
     Oasth.lit := fun z => of_sf (binary_normalize prec emax z 0 false);
     Oasth.toFixed2 := fun x => toFixed2 (to_sf x);
     Oasth.is_positive := fun x => SFltb (S754_zero false) (to_sf x) |}.

(** The values ECMAScript fixes for the three functions at zero: the sine
    of +0 is +0 and the arc tangent of +0 over 1 is +0. *)
Definition one : binary64 := Finite false 4503599627370496 (-52).

Definition zero_laws (E : Engine) : Prop :=
  sin E (Some (Zero false)) = Some (Zero false)
  /\ atan2 E (Some (Zero false)) (Some one) = Some (Zero false).

(** A number between -1 and 1, with a mantissa of at most 53 bits. *)
Definition unit_range (x : option binary64) : bool :=
  match x with
  | Some (Zero _) => true
  | Some (Finite _ m e) => (Z.pos m <? 2 ^ 53) && (Z.pos m <=? 2 ^ (- e))
  | _ => false
  end.

(** A number other than NaN and the infinities. *)
Definition finite (x : option binary64) : bool :=
  match x with
  | Some (Zero _) | Some (Finite _ _ _) => true
  | _ => false
  end.

End IEEE754.

(** ** The mappers of the OASTH client (src/unnamed/part_000)

    The answer of [fetchAPI] is typed [string[][]] by the mappers (and
    [any[]] by [getStopArrivals], whose comment names the objects it
    expects). The embedding follows these types: a row is a list of
    strings, an arrival is an object with the three optional string fields
    or a row. An answer that is an array of another shape is outside the
    embedding ([None] below). *)

Module Line.
Record t := {
  LineCode : string;
  LineID : string;
  LineDescr : string;
  LineDescrEng : string
}.
End Line.

Module Route.
Record t := {
  RouteCode : string;
  LineCode : string;
  RouteDescr : string;
  RouteDescrEng : string;
  RouteType : string;
  RouteDistance : string
}.
End Route.

Module RoutePoint.
Record t := {
  routed_x : string;
  routed_y : string;
  routed_order : string
}.
End RoutePoint.

Module BusLocation.
Record t := {
  VEH_NO : string;
  CS_DATE : string;
  CS_LAT : string;
  CS_LNG : string;
  ROUTE_CODE : string
}.
End BusLocation.

Module StopArrival.
Record t := {
  route_code : string;
  veh_code : string;
  btime2 : string
}.
End StopArrival.

Module StopRoute.
Record t := {
  RouteCode : string;
  RouteDescr : string;
  RouteDescrEng : string;
  RouteType : string;
  LineCode : string;
  LineID : string;
  LineDescr : string;
  LineDescrEng : string;
  MasterLineCode : string
}.
End StopRoute.

Module OasthMappers.
Import Oasth.

(** An element of the array [getStopArrivals] and [getRoutesForStop] walk
    through: an object whose members are strings (each key once), or a
    row of strings. An element with a member or a field that is not a
    string is not embedded: the source treats it differently in the two
    functions ([getStopArrivals] converts a number with [toString],
    [getRoutesForStop] fails on its [slice] and returns no route), and
    the mappers below answer [None] for it. *)
Inductive arrival_item :=
| Named (members : list (string * string))
| Positional (row : list string).

(** [arr.key], [arr[key]] on such an object. *)
Definition member (members : list (string * string)) (key : string)
  : option string :=
  match List.find (fun kv => String.eqb (fst kv) key) members with
  | Some kv => Some (snd kv)
  | None => None
  end.

Definition as_string (v : json) : option string :=
  match v with
  | JString x => Some x
  | _ => None
  end.

(** The rows of an answer that is an array of arrays of strings. *)
Definition as_row (v : json) : option (list string) :=
  match v with
  | JArray fields => mapM as_string fields
  | _ => None
  end.

Definition as_rows (v : json) : option (list (list string)) :=
  match v with
  | JArray items => mapM as_row items
  | _ => None
  end.

Definition as_item (v : json) : option arrival_item :=
  match v with
  | JObject members =>
      Named <$> mapM (fun kv => x ← as_string (snd kv); Some (fst kv, x))
                     members
  | JArray fields => Positional <$> mapM as_string fields
  | _ => None
  end.

Definition as_items (v : json) : option (list arrival_item) :=
  match v with
  | JArray items => mapM as_item items
  | _ => None
  end.

(** The prologue the mappers share: [const rows = await fetchAPI(...);
    if (!Array.isArray(rows)) return [];], then the mapping of the rows. *)
Definition with_answer {A B} (answer : outcome json)
    (typed : json -> option A) (mapping : A -> list B)
  : outcome (option (list B)) :=
  rows ← answer;
  if negb (isArray rows) then Returns (Some [])
  else Returns (mapping <$> typed rows).

(** [getLines]. *)
Definition getLines_row (row : list string) : Line.t :=
  {| Line.LineCode := field_or row 0 "";
     Line.LineID := field_or row 1 "";
     Line.LineDescr := field_or row 2 "";
     Line.LineDescrEng := field_or row 3 (field_or row 2 "") |}.

Definition getLines (P : Platform) : outcome (option (list Line.t)) :=
  with_answer (fetchAPI P "getLines" None) as_rows (map getLines_row).

(** [getStops], with the mapping of [Oasth.getStops_rows]. *)
Definition getStops (P : Platform) : outcome (option (list Stop)) :=
  with_answer (fetchAPI P "getStopsB" None) as_rows getStops_rows.

(** [getRoutesForLine(lineCode)]: the rows whose first field is the line
    code. *)
Definition is_line (lineCode : string) (row : list string) : bool :=
  match row !! 0%nat with
  | Some x => String.eqb x lineCode
  | None => false
  end.

Definition getRoutes_row (row : list string) : Route.t :=
  {| Route.RouteCode := field_or row 1 "";
     Route.LineCode := field_or row 0 "";
     Route.RouteDescr := field_or row 2 "";
     Route.RouteDescrEng := field_or row 3 (field_or row 2 "");
     Route.RouteType := "1";
     Route.RouteDistance := "" |}.

Definition getRoutesForLine_rows (lineCode : string) (rows : list (list string))
  : list Route.t :=
  let lineRoutes := List.filter (is_line lineCode) rows in
  map getRoutes_row lineRoutes.

Definition getRoutesForLine (P : Platform) (lineCode : string)
  : outcome (option (list Route.t)) :=
  with_answer (fetchAPI P "getRoutes" None) as_rows
              (getRoutesForLine_rows lineCode).

(** [getRouteDetails(routeCode)]: [rows.map((row, index) => ...)]. *)
Fixpoint map_indexed {A B} (f : A -> nat -> B) (index : nat) (l : list A)
  : list B :=
  match l with
  | [] => []
  | x :: r => f x index :: map_indexed f (S index) r
  end.

Definition getRouteDetails_row (row : list string) (index : nat)
  : RoutePoint.t :=
  {| RoutePoint.routed_x := field_or row 0 "0";
     RoutePoint.routed_y := field_or row 1 "0";
     RoutePoint.routed_order := JS.toString (Z.of_nat index) |}.

Definition getRouteDetails_rows (rows : list (list string))
  : list RoutePoint.t :=
  map_indexed getRouteDetails_row 0 rows.

Definition getRouteDetails (P : Platform) (routeCode : string)
  : outcome (option (list RoutePoint.t)) :=
  with_answer (fetchAPI P "getRouteDetailPerRoute" (Some routeCode)) as_rows
              getRouteDetails_rows.

(** [getBusLocations(routeCode)]. *)
Definition getBusLocations_row (routeCode : string) (row : list string)
  : BusLocation.t :=
  {| BusLocation.VEH_NO := field_or row 0 "";
     BusLocation.CS_DATE := field_or row 1 "";
     BusLocation.CS_LAT := field_or row 2 "0";
     BusLocation.CS_LNG := field_or row 3 "0";
     BusLocation.ROUTE_CODE := routeCode |}.

Definition getBusLocations (P : Platform) (routeCode : string)
  : outcome (option (list BusLocation.t)) :=
  with_answer (fetchAPI P "getBusLocation" (Some routeCode)) as_rows
              (map (getBusLocations_row routeCode)).

(** [x?.toString() || ''] on an optional string. *)
Definition or_empty (x : option string) : string :=
  match x with
  | Some v => v
  | None => ""
  end.

(** [x] when it is truthy. *)
Definition truthy (x : option string) : option string :=
  match x with
  | Some v => if String.eqb v "" then None else Some v
  | None => None
  end.

(** The mapping of [getStopArrivals]. *)
Definition getStopArrivals_item (arr : arrival_item) : StopArrival.t :=
  match arr with
  | Named members =>
      {| StopArrival.btime2 := or_empty (member members "btime2");
         StopArrival.route_code := or_empty (member members "route_code");
         StopArrival.veh_code := or_empty (member members "veh_code") |}
  | Positional row =>
      {| StopArrival.btime2 := field_or row 0 "";
         StopArrival.route_code := field_or row 1 "";
         StopArrival.veh_code := field_or row 2 "" |}
  end.

Definition getStopArrivals_items (arrivals : list arrival_item)
  : list StopArrival.t :=
  map getStopArrivals_item arrivals.

Definition getStopArrivals (P : Platform) (stopCode : string)
  : outcome (option (list StopArrival.t)) :=
  with_answer (fetchAPI P "getStopArrivals" (Some stopCode)) as_items
              getStopArrivals_items.

(** [getRoutesForStop]. *)

(** What the loop adds to the set for one element: [arr.route_code] when it
    is truthy, else [arr[1]] when that is truthy. *)
Definition code_of (arr : arrival_item) : option string :=
  match arr with
  | Named members =>
      match truthy (member members "route_code") with
      | Some code => Some code
      | None => truthy (member members "1")
      end
  | Positional row => truthy (row !! 1%nat)
  end.

(** [routeCodes.add(code)] on a [Set], kept in insertion order. *)
Definition Set_add (codes : list string) (code : string) : list string :=
  if existsb (String.eqb code) codes then codes else codes ++ [code].

Definition collect_codes (arrivals : list arrival_item) : list string :=
  fold_left (fun routeCodes arr =>
               match code_of arr with
               | Some code => Set_add routeCodes code
               | None => routeCodes
               end) arrivals [].

(** [s.slice(-2)]: the last two characters. *)
Definition last_two (s : string) : string :=
  String.substring (String.length s - 2) 2 s.

Definition stop_route (routeCode : string) : StopRoute.t :=
  {| StopRoute.RouteCode := routeCode;
     StopRoute.RouteDescr := "Route " +:+ routeCode;
     StopRoute.RouteDescrEng := "Route " +:+ routeCode;
     StopRoute.RouteType := "1";
     StopRoute.LineCode := routeCode;
     StopRoute.LineID := JS.or_str (last_two routeCode) routeCode;
     StopRoute.LineDescr := "Line " +:+ routeCode;
     StopRoute.LineDescrEng := "Line " +:+ routeCode;
     StopRoute.MasterLineCode := routeCode |}.

Definition routes_of_arrivals (arrivals : list arrival_item)
  : list StopRoute.t :=
  map stop_route (collect_codes arrivals).

Definition getRoutesForStop (P : Platform) (stopCode : string)
  : outcome (option (list StopRoute.t)) :=
  let arrivalsUrl := buildUrl "getStopArrivals" (Some stopCode) in
  try_catch
    (response ← fetch P arrivalsUrl;
     if negb (ok response) then Returns (Some [])
     else
       bytes ← arrayBuffer response;
       text ← decompressGzip P bytes;
       match text with
       | None => Returns (Some [])
       | Some text =>
           if String.eqb text "" || String.eqb (JS.trim text) "" then
             Returns (Some [])
           else
             let trimmed := JS.trim text in
             arrivals ←
               (if JS.startsWith "[" trimmed || JS.startsWith "{" trimmed then
                  try_catch (JSON_parse P text)
                            (fun _ => Returns (of_rows (parseTupleFormat text)))
                else Returns (of_rows (parseTupleFormat text)));
             if negb (isArray arrivals) then Returns (Some [])
             else Returns (routes_of_arrivals <$> as_items arrivals)
       end)
    (fun error => Returns (Some [])).

End OasthMappers.

(** ** The stop screen (app/stop/[stopCode].tsx) *)

Module StopScreen.

(** [uniqueLines]: the routes without those whose [LineCode] was seen
    before. *)
Fixpoint unique_from (seen : list string) (routes : list StopRoute.t)
  : list StopRoute.t :=
  match routes with
  | [] => []
  | route :: rest =>
      if existsb (String.eqb (StopRoute.LineCode route)) seen
      then unique_from seen rest
      else route :: unique_from (StopRoute.LineCode route :: seen) rest
  end.

Definition uniqueLines (routes : option (list StopRoute.t))
  : list StopRoute.t :=
  match routes with
  | None => []
  | Some l => unique_from [] l
  end.

End StopScreen.

(** ** The schedule dialog (src/unnamed/part_002) *)

Module ScheduleModal.

(** The current time as HH:MM, for a [new Date()] of time value [now]. *)
Definition currentTime (clk : JSDate.Clock) (now : Z) : string :=
  JS.padStart (JS.toString (JSDate.getHours clk now)) 2 "0" +:+ ":"
  +:+ JS.padStart (JS.toString (JSDate.getMinutes clk now)) 2 "0".

(** [a >= b] on strings: the order of the code units. *)
Definition ge (a b : string) : bool :=
  match String.compare a b with
  | Lt => false
  | _ => true
  end.

(** [times.findIndex(f)]. *)
Fixpoint findIndex_from {A} (f : A -> bool) (index : Z) (l : list A) : Z :=
  match l with
  | [] => -1
  | x :: r => if f x then index else findIndex_from f (index + 1) r
  end.

Definition findIndex {A} (f : A -> bool) (l : list A) : Z :=
  findIndex_from f 0 l.

Definition findNextDepartureIndex (currentTime : string) (times : list string)
  : Z :=
  findIndex (fun time => ge time currentTime) times.

End ScheduleModal.

(** ** The ticket screen's display helpers (app/(tabs)/ticket.tsx) *)

Module TicketScreen.

(** [formatRemainingTime(seconds)] for a whole number of seconds; [%] is the
    remainder of the truncated division. *)
Definition formatRemainingTime (seconds : Z) : string :=
  if seconds <=? 0 then "00:00"
  else
    let days := seconds / 86400 in
    let hours := Z.rem seconds 86400 / 3600 in
    let mins := Z.rem seconds 3600 / 60 in
    let secs := Z.rem seconds 60 in
    if 0 <? days then
      JS.toString days +:+ "d " +:+ Ticket.pad2 hours +:+ ":"
      +:+ Ticket.pad2 mins +:+ ":" +:+ Ticket.pad2 secs
    else if 0 <? hours then
      Ticket.pad2 hours +:+ ":" +:+ Ticket.pad2 mins +:+ ":" +:+ Ticket.pad2 secs
    else Ticket.pad2 mins +:+ ":" +:+ Ticket.pad2 secs.

(** The updater of the countdown timer: [prev <= 1 ? 0 : prev - 1]. *)
Definition countdown_tick (prev : Z) : Z :=
  if prev <=? 1 then 0 else prev - 1.

(** The call site of the decoders in [startScan]: the version block is
    decoded first and handed to the ticket parser. *)
Definition decode_card (clk : JSDate.Clock) (pages versionData : list Z)
    (tagId : option string) (applicationId : string) (isEncrypted : bool)
    (fileData : gmap Z (list Z)) : Ticket.TicketInfo :=
  let desfireInfo := Ticket.parseDESFireVersion versionData in
  Ticket.parseAthenaTicketData clk pages tagId (Some desfireInfo)
    (Some applicationId) (Some isEncrypted) (Some fileData).

End TicketScreen.

(** ** Notions used by the statements *)

(** The labels a user category can take. *)
Definition category_labels : list string :=
  ["Unknown"; "Regular"; "Adult"; "Student"; "Senior"; "Child"; "Disabled";
   "Military"; "Unemployed"; "University student"].

(** A clock with a fixed offset from UTC of a whole number of seconds. *)
Definition fixed_offset_clock (now_ms new_Date_ms offset_seconds : Z)
  : JSDate.Clock :=
  {| JSDate.now_ms := now_ms;
     JSDate.new_Date_ms := new_Date_ms;
     JSDate.LocalTime := fun t => t + 1000 * offset_seconds;
     JSDate.UTC := fun t => t - 1000 * offset_seconds |}.

(** The tuple text of rows of quoted fields: each field between double
    quotes, the fields of a row separated by a comma and a space inside
    parentheses, the rows separated in the same way. *)
Definition quoted (field : string) : string :=
  String Oasth.dquote (field +:+ String Oasth.dquote "").

Fixpoint joined (sep : string) (parts : list string) : string :=
  match parts with
  | [] => ""
  | [x] => x
  | x :: rest => x +:+ sep +:+ joined sep rest
  end.

Definition row_text (fields : list string) : string :=
  "(" +:+ joined ", " (map quoted fields) +:+ ")".

Definition rows_text (rows : list (list string)) : string :=
  joined ", " (map row_text rows).

(** A field that can stand between double quotes inside a tuple: it holds
    neither a double quote nor a closing parenthesis. *)
Definition plain_field (field : string) : bool :=
  Oasth.all_chars (fun c => Oasth.is_not Oasth.dquote c && Oasth.is_not ")" c)
    field.

(** Rows that the tuple text can carry: no row is empty and every field is
    plain. *)
Definition plain_rows (rows : list (list string)) : bool :=
  forallb (fun fields => (0 <? length fields)%nat && forallb plain_field fields)
          rows.

(** The number that a text of decimal digits stands for, and whether a
    text is the decimal notation of [n]: digits only and, but for the
    text 0, no leading zero. *)
Fixpoint decimal_value (acc : Z) (digits : string) : Z :=
  match digits with
  | String c r => decimal_value (10 * acc + (Z.of_N (N_of_ascii c) - 48)) r
  | EmptyString => acc
  end.

Definition is_decimal_of (n : Z) (text : string) : bool :=
  Oasth.all_chars Oasth.is_digit text
  && (0 <? String.length text)%nat
  && (String.eqb text "0" || negb (String.prefix "0" text))
  && (decimal_value 0 text =? n).

(** The text HH:MM of an hour and a minute, as a schedule lists its
    departures. *)
Definition clock_text (h m : Z) : string :=
  Ticket.pad2 h +:+ ":" +:+ Ticket.pad2 m.

(** * Verification *)

(** ** Sample inputs *)

Module Samples.
Import Ticket.

(** A clock two hours east of UTC, read at 2023-11-14T22:13:20Z. *)
Definition clock : JSDate.Clock :=
  {| JSDate.now_ms := 1700000000000;
     JSDate.new_Date_ms := 1700000000123;
     JSDate.LocalTime := fun t => t + 7200000;
     JSDate.UTC := fun t => t - 7200000 |}.

(** A version block of 28 bytes with the given production week and year. *)
Definition version28 (week year : Z) : list Z :=
  [4; 1; 1; 1; 0; 24; 5] ++ repeat 0 19%nat ++ [week; year].

(** A product record of 32 bytes: first byte, type, load and expiry
    timestamps (four bytes each), trip count. *)
Definition record32 (b0 type : Z) (load expiry : list Z) (n : Z) : list Z :=
  [b0; type; 0; 0] ++ load ++ expiry ++ [0; 0; 0; 0] ++ [n] ++ repeat 0 15%nat.

(** File 2 as the comment of the source quotes it: bytes 12..16 are
    00 02 16 39 54. *)
Definition file2 : list Z :=
  [0xb0; 0x32; 0x01; 0x83; 0x01; 0x1a; 0x01; 0x01; 0x01; 0x30; 0x01; 0x01;
   0x00; 0x02; 0x16; 0x39; 0x54; 0; 0; 0].

Definition files (l : list (Z * list Z)) : gmap Z (list Z) := list_to_map l.

(** 1700000000 (2023-11-14T22:13:20Z) and 1420070400 (2015-01-01T00:00:00Z)
    as four bytes, least significant first. *)
Definition bytes_1700000000 : list Z := [0x00; 0xf1; 0x53; 0x65].
Definition bytes_1420070400 : list Z := [0x00; 0x8e; 0xa4; 0x54].

(** A card whose file 16 holds a 15-trip product validated at
    1700000000. *)
Definition card_15_trips : gmap Z (list Z) :=
  files [(16, record32 1 0x32 bytes_1700000000 bytes_1700000000 15)].

(** The same product with an expiry field of exactly 1420070400. *)
Definition card_expiry_2015 : gmap Z (list Z) :=
  files [(16, record32 1 0x32 [0; 0; 0; 0] bytes_1420070400 15)].

(** A card whose value file reads zero trips while its product record
    says 15 trips. *)
Definition card_used_up : gmap Z (list Z) :=
  files [(12, [0; 0; 0; 0]); (16, record32 1 0x32 [0; 0; 0; 0] [0; 0; 0; 0] 15)].

(** A card with a monthly pass. *)
Definition card_monthly : gmap Z (list Z) :=
  files [(16, record32 1 0x31 bytes_1700000000 [0; 0; 0; 0] 0)].

(** A card that holds file 2 only. *)
Definition card_file2 : gmap Z (list Z) := files [(2, file2)].

(** A double quote, as a string. *)
Definition dq : string := String Oasth.dquote "".

(** The text (1, [dq]a[dq], None), (2, [dq]b[dq], 3). *)
Definition tuple_text : string :=
  "(1, " +:+ dq +:+ "a" +:+ dq +:+ ", None), (2, " +:+ dq +:+ "b" +:+ dq
  +:+ ", 3)".

(** Text decoding for bytes below 0x80, where UTF-8 is ASCII; the samples
    hold no other byte. *)
Definition decode_ascii (data : list Z) : string :=
  fold_right (fun b acc => String (ascii_of_N (Z.to_N (b mod 128))) acc)
             "" data.

(** A platform whose server answers every request with the two bytes of
    the text {}, which [JSON.parse] reads as the empty object; the sample
    parses no other text. *)
Definition platform_empty_object : Oasth.Platform :=
  {| Oasth.fetch := fun _ =>
       Oasth.Returns
         {| Oasth.ok := true; Oasth.status := 200; Oasth.statusText := "OK";
            Oasth.arrayBuffer := Oasth.Returns [123; 125] |};
     Oasth.ungzip := fun _ => Oasth.Throws "incorrect header check";
     Oasth.utf8_decode := decode_ascii;
     Oasth.JSON_parse := fun text =>
       if String.eqb text "{}" then Oasth.Returns (Oasth.JObject [])
       else Oasth.Throws "SyntaxError" |}.

(** A stand-in for the engine's arithmetic, to run the definitions: whole
    numbers, with a sine of 0, a cosine of 1 and an arc tangent of 0. The
    statements below that use it hold for every [Float64]. *)
Definition lift1 (f : Z -> Z) (a : option Z) : option Z :=
  match a with
  | Some x => Some (f x)
  | None => None
  end.

Definition lift2 (f : Z -> Z -> Z) (a b : option Z) : option Z :=
  match a, b with
  | Some x, Some y => Some (f x y)
  | _, _ => None
  end.

Definition digit_value (c : ascii) : Z := Z.of_N (N_of_ascii c) - 48.

Fixpoint Z_of_digits (acc : Z) (s : string) : Z :=
  match s with
  | String c r => Z_of_digits (10 * acc + digit_value c) r
  | EmptyString => acc
  end.

(** The whole part of a decimal literal. *)
Definition whole_part (s : string) : Z :=
  match s with
  | String "-" r => - Z_of_digits 0 (fst (Oasth.span Oasth.is_digit r))
  | String "+" r => Z_of_digits 0 (fst (Oasth.span Oasth.is_digit r))
  | _ => Z_of_digits 0 (fst (Oasth.span Oasth.is_digit s))
  end.

#[local] Instance whole_numbers : Oasth.Float64 :=
  {| Oasth.double := Z;
     Oasth.strtod := whole_part;
     Oasth.fadd := lift2 Z.add;
     Oasth.fsub := lift2 Z.sub;
     Oasth.fmul := lift2 Z.mul;
     Oasth.fdiv := lift2 Z.div;
     Oasth.Math_sin := lift1 (fun _ => 0);
     Oasth.Math_cos := lift1 (fun _ => 1);
     Oasth.Math_sqrt := lift1 Z.sqrt;
     Oasth.Math_atan2 := lift2 (fun _ _ => 0);
     Oasth.Math_PI := Some 3;
     Oasth.lit := Some;
     Oasth.toFixed2 := fun x =>
       match x with
       | Some k => JS.toString k +:+ ".00"
       | None => "NaN"
       end;
     Oasth.is_positive := fun x =>
       match x with
       | Some k => 0 <? k
       | None => false
       end |}.

Definition stop (code lat lng : string) : Oasth.Stop :=
  {| Oasth.StopCode := code; Oasth.StopID := code;
     Oasth.StopDescr := "STOP " +:+ code;
     Oasth.StopDescrEng := "STOP " +:+ code;
     Oasth.StopLat := lat; Oasth.StopLng := lng; Oasth.StopHeading := "0";
     Oasth.StopStreet := None; Oasth.StopStreetEng := None;
     Oasth.distance := None |}.

(** A stop at the reference point (40, 22) and a stop whose latitude is
    not a number. *)
Definition stop_here : Oasth.Stop := stop "1001" "40" "22".
Definition stop_garbled : Oasth.Stop := stop "1002" "abc" "22".
End Samples.

(** ** The reading of a little-endian field *)

(** The unsigned 32-bit integer whose bytes, least significant first, are
    [b0], [b1], [b2] and [b3]; an entry counts modulo 256. *)
Definition u32le (b0 b1 b2 b3 : Z) : Z :=
  b0 mod 256 + 2 ^ 8 * (b1 mod 256) + 2 ^ 16 * (b2 mod 256)
  + 2 ^ 24 * (b3 mod 256).

(** ** The card id, digit by digit *)

(** The two characters a byte contributes to the card id. *)
Definition HEX2 (b : Z) : string :=
  JS.toUpperCase (JS.padStart (JS.toString16 b) 2 "0").

(** A digit or a letter A..F. *)
Definition is_HEX (c : ascii) : bool :=
  let n := N_of_ascii c in
  ((48 <=? n) && (n <=? 57) || (65 <=? n) && (n <=? 70))%N.

Definition HEX2_ok (b : Z) : bool :=
  match HEX2 b with
  | String c (String d EmptyString) => is_HEX c && is_HEX d
  | _ => false
  end.

(** ** Further sample inputs *)

Module MoreSamples.

(** The bytes of a text of characters below U+0080. *)
Definition ascii_bytes (text : string) : list Z :=
  map (fun c => Z.of_N (N_of_ascii c)) (list_ascii_of_string text).

(** A server that answers the endpoint [packed] with a gzip body (the two
    magic bytes and a payload the stand-in decompressor maps to the text
    [(7, 8)]) and every other endpoint with that text as it stands. *)
Definition packed_body : list Z := [0x1f; 0x8b; 8; 0; 1; 2; 3].

Definition plain_text : string := "(7, 8)".

Definition platform_tuples : Oasth.Platform :=
  {| Oasth.fetch := fun url =>
       Oasth.Returns
         {| Oasth.ok := true; Oasth.status := 200; Oasth.statusText := "OK";
            Oasth.arrayBuffer :=
              Oasth.Returns
                (if String.eqb url (Oasth.buildUrl "packed" None)
                 then packed_body else ascii_bytes plain_text) |};
     Oasth.ungzip := fun data =>
       if decide (data = packed_body) then Oasth.Returns (Some plain_text)
       else Oasth.Throws "incorrect header check";
     Oasth.utf8_decode := Samples.decode_ascii;
     Oasth.JSON_parse := fun _ => Oasth.Throws "SyntaxError" |}.

(** A server that answers every request with three rows of numbers, as
    the arrivals of a stop come in tuple form: minutes, route code,
    vehicle. Its [JSON.parse] reads the empty array and nothing else. *)
Definition arrivals_text : string :=
  "(7, 804, 1520), (12, 804, 1533), (3, 31, 22)".

Definition arrival_rows : list (list string) :=
  [["7"; "804"; "1520"]; ["12"; "804"; "1533"]; ["3"; "31"; "22"]].

Definition platform_arrivals : Oasth.Platform :=
  {| Oasth.fetch := fun _ =>
       Oasth.Returns
         {| Oasth.ok := true; Oasth.status := 200; Oasth.statusText := "OK";
            Oasth.arrayBuffer := Oasth.Returns (ascii_bytes arrivals_text) |};
     Oasth.ungzip := fun _ => Oasth.Throws "incorrect header check";
     Oasth.utf8_decode := Samples.decode_ascii;
     Oasth.JSON_parse := fun text =>
       if String.eqb text "[]" then Oasth.Returns (Oasth.JArray [])
       else Oasth.Throws "SyntaxError" |}.

Definition stop_arrivals : list StopArrival.t :=
  OasthMappers.getStopArrivals_items (map OasthMappers.Positional arrival_rows).

Definition stop_routes : list StopRoute.t :=
  [OasthMappers.stop_route "804"; OasthMappers.stop_route "31"].

(** Departures at 06:30, 14:05 and 23:50. *)
Definition departures : list (Z * Z) := [(6, 30); (14, 5); (23, 50)].

(** A stand-in for the engine's sine, cosine and arc tangent, to run the
    definitions: it has the values at zero that ECMAScript fixes, a
    cosine of 1 everywhere, and is otherwise arbitrary. The statements
    hold for every engine. *)
Definition engine : IEEE754.Engine :=
  {| IEEE754.sin := fun x => x;
     IEEE754.cos := fun _ => Some IEEE754.one;
     IEEE754.atan2 := fun y _ => y |}.

(** A stop at 40.6401, 22.9444 and a stop whose latitude is not a
    number. *)
Definition stop_at_reference : Oasth.Stop :=
  Samples.stop "1001" "40.6401" "22.9444".
Definition stop_abc : Oasth.Stop := Samples.stop "1002" "abc" "22.9444".

End MoreSamples.

(** ** The bit operations *)

Section Bits.
Import JS.

Lemma ToInt32_small (x : Z) : 0 <= x < 2 ^ 31 -> ToInt32 x = x.
Proof.
  intros H. unfold ToInt32.
  rewrite Z.mod_small by lia.
  destruct (x <? 2 ^ 31) eqn:E; [reflexivity | apply Z.ltb_ge in E; lia].
Qed.

Lemma ToInt32_mod (x : Z) : ToInt32 x mod 2 ^ 32 = x mod 2 ^ 32.
Proof.
  unfold ToInt32.
  destruct (x mod 2 ^ 32 <? 2 ^ 31).
  - apply Z.mod_mod. lia.
  - rewrite <- (Z.mod_mod x (2 ^ 32)) at 2 by lia.
    replace (x mod 2 ^ 32 - 2 ^ 32) with (x mod 2 ^ 32 + (-1) * 2 ^ 32) by lia.
    apply Z.mod_add. lia.
Qed.

Lemma band_0xff (b : Z) : band b 0xff = b mod 256.
Proof.
  unfold band.
  rewrite (ToInt32_small 255) by lia.
  change 255 with (Z.ones 8). rewrite Z.land_ones by lia.
  assert (E : ToInt32 b mod 2 ^ 8 = b mod 2 ^ 8).
  { assert (D : (2 ^ 8 | 2 ^ 32)) by (exists (2 ^ 24); reflexivity).
    rewrite <- (Z.mod_mod_divide (ToInt32 b) _ _ D), ToInt32_mod.
    apply Z.mod_mod_divide, D. }
  rewrite E. change (2 ^ 8) with 256.
  apply ToInt32_small. pose proof (Z.mod_pos_bound b 256). lia.
Qed.

Lemma lor_disjoint (a b k : Z) :
  0 <= k -> 0 <= a < 2 ^ k -> Z.lor a (b * 2 ^ k) = a + b * 2 ^ k.
Proof.
  intros Hk Ha.
  assert (D : Z.land a (b * 2 ^ k) = 0).
  { apply Z.bits_inj'. intros n Hn.
    rewrite Z.land_spec, Z.bits_0.
    destruct (Z.ltb_spec n k).
    - rewrite Z.mul_pow2_bits_low by lia. apply andb_false_r.
    - rewrite <- (Z.mod_small a (2 ^ k)) by lia.
      rewrite Z.mod_pow2_bits_high by lia. reflexivity. }
  rewrite Z.add_nocarry_lxor by exact D.
  symmetry. apply Z.lxor_lor. exact D.
Qed.

Lemma lor_mod (a b : Z) :
  Z.lor a b mod 2 ^ 32 = Z.lor (a mod 2 ^ 32) (b mod 2 ^ 32).
Proof.
  rewrite <- !Z.land_ones by lia. apply Z.land_lor_distr_l.
Qed.

Lemma bor_mod (a b : Z) :
  bor a b mod 2 ^ 32 = Z.lor (a mod 2 ^ 32) (b mod 2 ^ 32).
Proof.
  unfold bor. rewrite ToInt32_mod, lor_mod, !ToInt32_mod. reflexivity.
Qed.

Lemma shl_mod (x k : Z) :
  0 <= k < 32 -> 0 <= x < 2 ^ 31 -> shl x k mod 2 ^ 32 = (x * 2 ^ k) mod 2 ^ 32.
Proof.
  intros Hk Hx. unfold shl, ToUint32.
  rewrite ToInt32_mod, (ToInt32_small x) by lia.
  rewrite (Z.mod_small k (2 ^ 32)) by lia.
  rewrite (Z.mod_small k 32) by lia.
  rewrite Z.shiftl_mul_pow2 by lia. reflexivity.
Qed.

(** The expression of the source computes the little-endian reading. *)
Lemma le32_u32le (b0 b1 b2 b3 : Z) :
  Ticket.le32 b0 b1 b2 b3 = u32le b0 b1 b2 b3.
Proof.
  unfold Ticket.le32, u32le, ushr.
  rewrite !band_0xff.
  pose proof (Z.mod_pos_bound b0 256 ltac:(lia)) as H0.
  pose proof (Z.mod_pos_bound b1 256 ltac:(lia)) as H1.
  pose proof (Z.mod_pos_bound b2 256 ltac:(lia)) as H2.
  pose proof (Z.mod_pos_bound b3 256 ltac:(lia)) as H3.
  set (m0 := b0 mod 256) in *. set (m1 := b1 mod 256) in *.
  set (m2 := b2 mod 256) in *. set (m3 := b3 mod 256) in *.
  change (ToUint32 0 mod 32) with 0. rewrite Z.shiftr_0_r.
  unfold ToUint32.
  rewrite !bor_mod, !shl_mod by lia.
  rewrite (Z.mod_small m0), (Z.mod_small (m1 * 2 ^ 8)),
    (Z.mod_small (m2 * 2 ^ 16)), (Z.mod_small (m3 * 2 ^ 24)) by lia.
  rewrite (lor_disjoint m0 m1 8) by lia.
  rewrite (lor_disjoint (m0 + m1 * 2 ^ 8) m2 16) by lia.
  rewrite (lor_disjoint (m0 + m1 * 2 ^ 8 + m2 * 2 ^ 16) m3 24) by lia.
  lia.
Qed.

Lemma u32le_range (b0 b1 b2 b3 : Z) : 0 <= u32le b0 b1 b2 b3 < 2 ^ 32.
Proof.
  unfold u32le.
  pose proof (Z.mod_pos_bound b0 256 ltac:(lia)).
  pose proof (Z.mod_pos_bound b1 256 ltac:(lia)).
  pose proof (Z.mod_pos_bound b2 256 ltac:(lia)).
  pose proof (Z.mod_pos_bound b3 256 ltac:(lia)).
  lia.
Qed.
End Bits.

(** ** The card decoders *)

Section TicketFacts.
Import Ticket.
Variable clk : JSDate.Clock.

(** What [parseAthenaTicketData] returns for a card that is not
    encrypted, block by block. *)
Lemma parse_not_encrypted data tagId desfireInfo applicationId isEncrypted fd :
  truthy_bool isEncrypted = false ->
  let r := parseAthenaTicketData clk data tagId desfireInfo applicationId
             isEncrypted (Some fd) in
  let products := parse_file16_products fd None None (parse_file12 fd (Count 0)) in
  let v := parse_file16_timestamps clk fd no_validity in
  cardId r = fst (parse_file2 fd (truthy_str tagId) "Unknown")
  /\ userCategory r
     = parse_file4 fd (snd (parse_file2 fd (truthy_str tagId) "Unknown"))
  /\ tripsRemaining r = snd products
  /\ activeProduct r = fst (fst products)
  /\ expiredProduct r = snd (fst products)
  /\ expiryDate r = val_expiryDate v
  /\ loadDate r = val_loadDate v
  /\ isActive r = val_isActive v
  /\ remainingTimeSeconds r = val_remainingTimeSeconds v.
Proof.
  intros E. cbv zeta. unfold parseAthenaTicketData. rewrite E. cbn [negb].
  destruct (parse_file2 fd (truthy_str tagId) "Unknown") as [c u].
  destruct (parse_file16_products fd None None (parse_file12 fd (Count 0)))
    as [[a x] t].
  cbn. repeat split.
Qed.

(** C10: a version block shorter than 7 bytes, the empty one included,
    decodes to card type DESFire, manufacturer Unknown, capacity Unknown
    and an empty production date. *)
Theorem short_version_defaults (versionData : list Z) :
  (length versionData < 7)%nat ->
  parseDESFireVersion versionData
  = {| v_cardType := "DESFire"; v_manufacturer := "Unknown";
       v_capacity := "Unknown"; v_productionDate := "" |}.
Proof.
  intros H. unfold parseDESFireVersion.
  destruct (7 <=? Z.of_nat (length versionData)) eqn:E7;
    [apply Z.leb_le in E7; lia |].
  destruct (28 <=? Z.of_nat (length versionData)) eqn:E28;
    [apply Z.leb_le in E28; lia |].
  reflexivity.
Qed.

(** The empty version block is such a block. *)
Lemma short_version_defaults_empty :
  (length (@nil Z) < 7)%nat
  /\ v_cardType (parseDESFireVersion []) = "DESFire".
Proof.
  split; [simpl; lia |].
  rewrite (short_version_defaults []); [reflexivity | simpl; lia].
Defined.

(** C9, as the code has it: in a version block of at least 28 bytes the
    production date is Week w, y (w byte 26, y byte 27 plus 2000 when
    below 50 and plus 1900 otherwise) when w lies in 1..53 and byte 27 is
    not zero; a week outside 1..53 or a zero year byte leaves it empty. *)
Theorem production_date_of_week_and_year (versionData : list Z) :
  (28 <= length versionData)%nat ->
  let w := nth 26 versionData 0 in
  let y := nth 27 versionData 0 in
  let date := v_productionDate (parseDESFireVersion versionData) in
  (1 <= w <= 53 -> 0 < y ->
   date = "Week " +:+ JS.toString w +:+ ", "
          +:+ JS.toString (if y <? 50 then 2000 + y else 1900 + y))
  /\ (w <= 0 \/ 53 < w -> date = "")
  /\ (y <= 0 -> date = "").
Proof.
  intros H. cbv zeta. unfold parseDESFireVersion, JS.at_. cbn [v_productionDate].
  destruct (28 <=? Z.of_nat (length versionData)) eqn:E28;
    [| apply Z.leb_gt in E28; lia].
  set (w := nth 26 versionData 0). set (y := nth 27 versionData 0).
  repeat split.
  - intros Hw Hy.
    replace (0 <? w) with true by (symmetry; apply Z.ltb_lt; lia).
    replace (w <=? 53) with true by (symmetry; apply Z.leb_le; lia).
    replace (0 <? y) with true by (symmetry; apply Z.ltb_lt; lia).
    reflexivity.
  - intros [Hw | Hw].
    + replace (0 <? w) with false by (symmetry; apply Z.ltb_ge; lia).
      reflexivity.
    + replace (w <=? 53) with false by (symmetry; apply Z.leb_gt; lia).
      rewrite andb_false_r. reflexivity.
  - intros Hy.
    replace (0 <? y) with false by (symmetry; apply Z.ltb_ge; lia).
    rewrite andb_false_r. reflexivity.
Qed.

(** Week 10 of year 23 gives Week 10, 2023. *)
Lemma production_date_week10_2023 :
  (28 <= length (Samples.version28 10 23))%nat
  /\ v_productionDate (parseDESFireVersion (Samples.version28 10 23))
     = "Week 10, 2023".
Proof.
  split; [vm_compute; lia |].
  apply (production_date_of_week_and_year (Samples.version28 10 23));
    vm_compute; try lia; split; discriminate.
Defined.

(** C9 as stated fails: week 10 is valid, yet with year byte 0 the
    production date is empty, not Week 10, 2000. *)
Lemma production_date_year_zero :
  (28 <= length (Samples.version28 10 0))%nat
  /\ nth 26 (Samples.version28 10 0) 0 = 10
  /\ nth 27 (Samples.version28 10 0) 0 = 0
  /\ v_productionDate (parseDESFireVersion (Samples.version28 10 0)) = ""
  /\ v_productionDate (parseDESFireVersion (Samples.version28 10 0))
     <> "Week 10, 2000".
Proof.
  repeat split; try (vm_compute; (lia || reflexivity)).
  vm_compute. discriminate.
Qed.

(** C1: with the encryption flag set, whatever the files hold, trips
    remaining is encrypted and every field read from the files keeps its
    default: the card id is the UID, the category Unknown, no product,
    not active, no remaining time, no expiry or load date. *)
Theorem encrypted_card_keeps_defaults
    (data : list Z) (tagId : option string) (desfireInfo : option VersionInfo)
    (applicationId : option string) (fileData : option (gmap Z (list Z))) :
  let r := parseAthenaTicketData clk data tagId desfireInfo applicationId
             (Some true) fileData in
  tripsRemaining r = encrypted
  /\ cardId r = uid r
  /\ uid r = match tagId with Some u => u | None => "" end
  /\ userCategory r = "Unknown"
  /\ activeProduct r = None
  /\ expiredProduct r = None
  /\ isActive r = false
  /\ remainingTimeSeconds r = 0
  /\ expiryDate r = None
  /\ loadDate r = None
  /\ isEncrypted r = true.
Proof.
  cbv zeta. unfold parseAthenaTicketData.
  destruct fileData; cbn; repeat split.
Qed.
End TicketFacts.

Section TicketClaims.
Import Ticket.

Lemma in_window_iff (t : Z) :
  in_window t = true <-> 1420070400 < t < 2208988800.
Proof. unfold in_window. rewrite andb_true_iff, !Z.ltb_lt. tauto. Qed.

Lemma in_window_false (t : Z) :
  ~ 1420070400 < t < 2208988800 -> in_window t = false.
Proof.
  intros H. destruct (in_window t) eqn:E; [| reflexivity].
  apply in_window_iff in E. contradiction.
Qed.

Lemma nth_slice (l : list Z) (i j k : nat) :
  (k < j - i)%nat -> nth k (JS.slice l i j) 0 = nth (i + k) l 0.
Proof.
  intros H. unfold JS.slice.
  rewrite nth_firstn.
  destruct (Nat.ltb_spec k (j - i)); [| lia].
  apply nth_skipn.
Qed.

(** C5, as the code has it: for a record of file 16 whose type byte is
    not 0x31, the expiry is the little-endian reading t of bytes 8..11
    when 1420070400 < t < 2208988800 (both ends excluded), else
    t + 852076800 when t > 0 and that sum lies strictly between the same
    bounds, else null; the load date is read from bytes 4..7 in the same
    way. *)
Theorem count_product_dates (clk : JSDate.Clock)
    (data : list Z) (tagId : option string) (desfireInfo : option VersionInfo)
    (applicationId : option string) (isEncrypted : option bool)
    (fd : gmap Z (list Z)) (file16 : list Z) :
  truthy_bool isEncrypted = false ->
  fd !! 16 = Some file16 ->
  (12 <= length file16)%nat ->
  nth 1 file16 0 <> 0x31 ->
  let r := parseAthenaTicketData clk data tagId desfireInfo applicationId
             isEncrypted (Some fd) in
  let t := u32le (nth 8 file16 0) (nth 9 file16 0) (nth 10 file16 0)
                 (nth 11 file16 0) in
  let l := u32le (nth 4 file16 0) (nth 5 file16 0) (nth 6 file16 0)
                 (nth 7 file16 0) in
  (1420070400 < t < 2208988800 ->
   expiryDate r = Some (formatTimestamp clk t))
  /\ (~ 1420070400 < t < 2208988800 -> 0 < t ->
      1420070400 < t + 852076800 < 2208988800 ->
      expiryDate r = Some (formatTimestamp clk (t + 852076800)))
  /\ (~ 1420070400 < t < 2208988800 ->
      ~ (0 < t /\ 1420070400 < t + 852076800 < 2208988800) ->
      expiryDate r = None)
  /\ (1420070400 < l < 2208988800 ->
      loadDate r = Some (formatTimestamp clk l))
  /\ (~ 1420070400 < l < 2208988800 -> 0 < l ->
      1420070400 < l + 852076800 < 2208988800 ->
      loadDate r = Some (formatTimestamp clk (l + 852076800)))
  /\ (~ 1420070400 < l < 2208988800 ->
      ~ (0 < l /\ 1420070400 < l + 852076800 < 2208988800) ->
      loadDate r = None).
Proof.
  intros E H16 Hlen Hty. cbv zeta.
  destruct (parse_not_encrypted clk data tagId desfireInfo applicationId
              isEncrypted fd E) as (_ & _ & _ & _ & _ & -> & -> & _).
  unfold parse_file16_timestamps. rewrite H16.
  destruct (12 <=? Z.of_nat (length file16)) eqn:E12;
    [| apply Z.leb_gt in E12; lia].
  unfold JS.at_.
  rewrite !nth_slice by lia. cbn [Nat.add].
  rewrite !le32_u32le.
  destruct (nth 1 file16 0 =? 0x31) eqn:Ety; [apply Z.eqb_eq in Ety; lia |].
  set (t := u32le (nth 8 file16 0) _ _ _).
  set (l := u32le (nth 4 file16 0) _ _ _).
  unfold athenaEpoch.
  repeat split.
  - intros Ht. rewrite (proj2 (in_window_iff t) Ht). reflexivity.
  - intros N P W. rewrite (in_window_false t N).
    replace (0 <? t) with true by (symmetry; apply Z.ltb_lt; lia).
    rewrite (proj2 (in_window_iff (852076800 + t))) by lia.
    cbn. f_equal. f_equal. lia.
  - intros N M. rewrite (in_window_false t N).
    destruct (0 <? t) eqn:P; [| reflexivity].
    apply Z.ltb_lt in P.
    rewrite (in_window_false (852076800 + t)) by lia. reflexivity.
  - intros Hl. rewrite (proj2 (in_window_iff l) Hl).
    destruct (in_window t); [reflexivity |].
    destruct (0 <? t); [| reflexivity].
    destruct (in_window (852076800 + t)); reflexivity.
  - intros N P W. rewrite (in_window_false l N).
    replace (0 <? l) with true by (symmetry; apply Z.ltb_lt; lia).
    rewrite (proj2 (in_window_iff (852076800 + l))) by lia.
    replace (852076800 + l) with (l + 852076800) by lia.
    destruct (in_window t); [reflexivity |].
    destruct (0 <? t); [| reflexivity].
    destruct (in_window (852076800 + t)); reflexivity.
  - intros N M. rewrite (in_window_false l N).
    destruct (0 <? l) eqn:P.
    + apply Z.ltb_lt in P.
      rewrite (in_window_false (852076800 + l)) by lia.
      destruct (in_window t); [reflexivity |].
      destruct (0 <? t); [| reflexivity].
      destruct (in_window (852076800 + t)); reflexivity.
    + destruct (in_window t); [reflexivity |].
      destruct (0 <? t); [| reflexivity].
      destruct (in_window (852076800 + t)); reflexivity.
Qed.

(** A 15-trip record whose expiry field holds 1700000000: the expiry date
    is that instant. *)
Lemma count_product_dates_sample :
  let file16 :=
    Samples.record32 1 0x32 Samples.bytes_1700000000
      Samples.bytes_1700000000 15 in
  truthy_bool None = false
  /\ Samples.card_15_trips !! 16 = Some file16
  /\ (12 <= length file16)%nat
  /\ nth 1 file16 0 <> 0x31
  /\ expiryDate (parseAthenaTicketData Samples.clock [] None None None None
                   (Some Samples.card_15_trips))
     = Some (formatTimestamp Samples.clock 1700000000).
Proof.
  cbv zeta.
  assert (H1 : truthy_bool None = false) by reflexivity.
  assert (H2 : Samples.card_15_trips !! 16
               = Some (Samples.record32 1 0x32 Samples.bytes_1700000000
                         Samples.bytes_1700000000 15)) by (vm_compute; reflexivity).
  assert (H3 : (12 <= length (Samples.record32 1 0x32 Samples.bytes_1700000000
                                Samples.bytes_1700000000 15))%nat)
    by (vm_compute; lia).
  assert (H4 : nth 1 (Samples.record32 1 0x32 Samples.bytes_1700000000
                        Samples.bytes_1700000000 15) 0 <> 0x31)
    by (vm_compute; discriminate).
  refine (conj H1 (conj H2 (conj H3 (conj H4 _)))).
  apply (proj1 (count_product_dates Samples.clock [] None None None None
                  Samples.card_15_trips _ H1 H2 H3 H4)).
  vm_compute. split; reflexivity.
Defined.

(** C5 as stated fails at the lower end of its window: an expiry field
    of exactly 1420070400 (2015-01-01 00:00:00 UTC) is not taken as a
    Unix time, and adding 852076800 leaves the window, so the expiry
    date stays null. *)
Lemma expiry_2015_01_01_is_rejected :
  let file16 :=
    Samples.record32 1 0x32 [0; 0; 0; 0] Samples.bytes_1420070400 15 in
  Samples.card_expiry_2015 !! 16 = Some file16
  /\ nth 1 file16 0 = 0x32
  /\ u32le (nth 8 file16 0) (nth 9 file16 0) (nth 10 file16 0)
           (nth 11 file16 0) = 1420070400
  /\ 1420070400 <= 1420070400 < 2208988800
  /\ expiryDate (parseAthenaTicketData Samples.clock [] None None None None
                   (Some Samples.card_expiry_2015)) = None.
Proof.
  cbv zeta. repeat split; try (vm_compute; reflexivity); vm_compute; discriminate.
Qed.

Lemma product_at_period (file16 : list Z) (off : nat) :
  nth (off + 1) file16 0 = 0x31
  \/ (nth (off + 16) file16 0 = 0 /\ nth off file16 0 <> 0xff) ->
  product_at file16 off = Some (Monthly, true).
Proof.
  unfold product_at, JS.at_. intros [T | [N B]].
  - rewrite T. rewrite orb_true_r. reflexivity.
  - rewrite N. cbn [Z.eqb].
    destruct (nth off file16 0 =? 255) eqn:E;
      [apply Z.eqb_eq in E; contradiction |].
    reflexivity.
Qed.

Lemma product_at_count (file16 : list Z) (off : nat) :
  ~ (nth (off + 1) file16 0 = 0x31
     \/ (nth (off + 16) file16 0 = 0 /\ nth off file16 0 <> 0xff)) ->
  0 < nth (off + 16) file16 0 ->
  product_at file16 off
  = Some (count_product (nth (off + 16) file16 0), false).
Proof.
  unfold product_at, JS.at_. intros N P.
  destruct (nth (off + 16) file16 0 =? 0) eqn:E0;
    [apply Z.eqb_eq in E0; lia |].
  destruct (nth (off + 1) file16 0 =? 49) eqn:E1;
    [apply Z.eqb_eq in E1; tauto |].
  cbn [andb orb].
  replace (0 <? nth (off + 16) file16 0) with true
    by (symmetry; apply Z.ltb_lt; exact P).
  reflexivity.
Qed.

Lemma product_at_none (file16 : list Z) (off : nat) :
  ~ (nth (off + 1) file16 0 = 0x31
     \/ (nth (off + 16) file16 0 = 0 /\ nth off file16 0 <> 0xff)) ->
  nth (off + 16) file16 0 <= 0 ->
  product_at file16 off = None.
Proof.
  unfold product_at, JS.at_. intros N P.
  destruct (nth (off + 1) file16 0 =? 49) eqn:E1;
    [apply Z.eqb_eq in E1; tauto |].
  rewrite orb_false_r.
  replace (0 <? nth (off + 16) file16 0) with false
    by (symmetry; apply Z.ltb_ge; exact P).
  destruct (nth (off + 16) file16 0 =? 0) eqn:E0; [| reflexivity].
  destruct (nth off file16 0 =? 255) eqn:E; [reflexivity |].
  apply Z.eqb_eq in E0. apply Z.eqb_neq in E. tauto.
Qed.

(** The decimal notation of a byte, read back. *)
Lemma toString_byte_reads_back (n : Z) :
  0 <= n <= 255 -> is_decimal_of n (JS.toString n) = true.
Proof.
  intros H.
  assert (B : forallb (fun n => is_decimal_of n (JS.toString n))
                (map Z.of_nat (seq 0 256)) = true)
    by (vm_compute; reflexivity).
  rewrite forallb_forall in B. apply B.
  apply in_map_iff. exists (Z.to_nat n). split; [lia | apply in_seq; lia].
Qed.

(** C6: with a file 16 of at least 32 bytes, a first record whose type
    byte is 0x31, or whose trip count is 0 while its first byte is not
    0xFF, gives the active product Monthly and unlimited trips;
    otherwise a positive trip count n gives the active product named
    n trips (for a byte, the decimal digits of n, a space and the word
    trips), and n trips remaining when file 12 is absent (or shorter
    than 4 bytes); a record that is neither gives no active product. *)
Theorem first_product_record (clk : JSDate.Clock)
    (data : list Z) (tagId : option string) (desfireInfo : option VersionInfo)
    (applicationId : option string) (isEncrypted : option bool)
    (fd : gmap Z (list Z)) (file16 : list Z) :
  truthy_bool isEncrypted = false ->
  fd !! 16 = Some file16 ->
  (32 <= length file16)%nat ->
  let r := parseAthenaTicketData clk data tagId desfireInfo applicationId
             isEncrypted (Some fd) in
  let type := nth 1 file16 0 in
  let n := nth 16 file16 0 in
  let period := type = 0x31 \/ (n = 0 /\ nth 0 file16 0 <> 0xff) in
  (period ->
   tripsRemaining r = unlimited
   /\ exists p, activeProduct r = Some p /\ name p = "Monthly")
  /\ (~ period -> 0 < n ->
      (exists p, activeProduct r = Some p
                 /\ name p = JS.toString n +:+ " trips" /\ trips p = Some n
                 /\ (n <= 255 ->
                     exists digits, name p = digits +:+ " trips"
                                    /\ is_decimal_of n digits = true))
      /\ (match fd !! 12 with
          | Some file12 => (length file12 < 4)%nat
          | None => True
          end -> tripsRemaining r = Count n))
  /\ (~ period -> n <= 0 -> activeProduct r = None).
Proof.
  intros E H16 Hlen. cbv zeta.
  destruct (parse_not_encrypted clk data tagId desfireInfo applicationId
              isEncrypted fd E) as (_ & _ & -> & -> & _).
  unfold parse_file16_products. rewrite H16.
  destruct (32 <=? Z.of_nat (length file16)) eqn:E32;
    [| apply Z.leb_gt in E32; lia].
  split; [| split].
  - intros Hp. rewrite (product_at_period file16 0 Hp). cbn.
    split; [reflexivity | exists Monthly; split; reflexivity].
  - intros Hp Hn. rewrite (product_at_count file16 0 Hp Hn).
    cbn [fst snd]. split.
    + eexists. split; [reflexivity |]. split; [reflexivity |].
      split; [reflexivity |]. intros Hb.
      exists (JS.toString (nth 16 file16 0)). split; [reflexivity |].
      apply toString_byte_reads_back. lia.
    + intros H12.
      assert (T : parse_file12 fd (Count 0) = Count 0).
      { unfold parse_file12. destruct (fd !! 12) as [file12 |]; [| reflexivity].
        destruct (4 <=? Z.of_nat (length file12)) eqn:E4;
          [apply Z.leb_le in E4; lia | reflexivity]. }
      rewrite T. unfold fallback_applies, count_product. cbn [trips].
      change (nth (0 + 16) file16 0) with (nth 16 file16 0).
      destruct (nth 16 file16 0 =? 0) eqn:E0; [apply Z.eqb_eq in E0; lia |].
      replace (0 <? nth 16 file16 0) with true
        by (symmetry; apply Z.ltb_lt; exact Hn).
      reflexivity.
  - intros Hp Hn. rewrite (product_at_none file16 0 Hp Hn).
    destruct (64 <=? Z.of_nat (length file16)); reflexivity.
Qed.

(** Type byte 0x32 and trip count 15, without file 12: the product is
    named 15 trips and 15 trips remain. *)
Lemma first_product_record_15_trips :
  let file16 :=
    Samples.record32 1 0x32 Samples.bytes_1700000000
      Samples.bytes_1700000000 15 in
  let r := parseAthenaTicketData Samples.clock [] None None None None
             (Some Samples.card_15_trips) in
  truthy_bool None = false
  /\ Samples.card_15_trips !! 16 = Some file16
  /\ (32 <= length file16)%nat
  /\ (exists p, activeProduct r = Some p
                /\ name p = "15 trips" /\ trips p = Some 15)
  /\ tripsRemaining r = Count 15.
Proof.
  cbv zeta.
  assert (H1 : truthy_bool None = false) by reflexivity.
  assert (H2 : Samples.card_15_trips !! 16
               = Some (Samples.record32 1 0x32 Samples.bytes_1700000000
                         Samples.bytes_1700000000 15)) by (vm_compute; reflexivity).
  assert (H3 : (32 <= length (Samples.record32 1 0x32 Samples.bytes_1700000000
                                Samples.bytes_1700000000 15))%nat)
    by (vm_compute; lia).
  refine (conj H1 (conj H2 (conj H3 _))).
  assert (Hp : ~ (nth 1 (Samples.record32 1 0x32 Samples.bytes_1700000000
                           Samples.bytes_1700000000 15) 0 = 0x31
                  \/ (nth 16 (Samples.record32 1 0x32 Samples.bytes_1700000000
                                Samples.bytes_1700000000 15) 0 = 0
                      /\ nth 0 (Samples.record32 1 0x32
                                  Samples.bytes_1700000000
                                  Samples.bytes_1700000000 15) 0 <> 0xff))).
  { vm_compute. intros [T | [N _]]; discriminate. }
  assert (Hn : 0 < nth 16 (Samples.record32 1 0x32 Samples.bytes_1700000000
                             Samples.bytes_1700000000 15) 0).
  { vm_compute. reflexivity. }
  destruct (proj1 (proj2 (first_product_record Samples.clock [] None None None
                            None Samples.card_15_trips _ H1 H2 H3)) Hp Hn)
    as ((p & Ep & En & Et & _) & Hc).
  split.
  - exists p. split; [exact Ep |]. split; [| exact Et].
    rewrite En. vm_compute. reflexivity.
  - apply Hc. vm_compute. exact I.
Defined.

(** Trips remaining when file 12 holds at least four bytes and no period
    pass overrides it: the reading v of file 12, except that a reading
    of 0 gives way to the trip count of a count-based first record. *)
Lemma trips_remaining_with_file12 (clk : JSDate.Clock)
    (data : list Z) (tagId : option string) (desfireInfo : option VersionInfo)
    (applicationId : option string) (isEncrypted : option bool)
    (fd : gmap Z (list Z)) (file12 : list Z) :
  truthy_bool isEncrypted = false ->
  fd !! 12 = Some file12 ->
  (4 <= length file12)%nat ->
  let r := parseAthenaTicketData clk data tagId desfireInfo applicationId
             isEncrypted (Some fd) in
  let v := u32le (nth 0 file12 0) (nth 1 file12 0) (nth 2 file12 0)
                 (nth 3 file12 0) in
  (fd !! 16 = None -> tripsRemaining r = Count v)
  /\ (forall file16,
        fd !! 16 = Some file16 -> (32 <= length file16)%nat ->
        ~ (nth 1 file16 0 = 0x31
           \/ (nth 16 file16 0 = 0 /\ nth 0 file16 0 <> 0xff)) ->
        0 < nth 16 file16 0 ->
        tripsRemaining r
        = Count (if v =? 0 then nth 16 file16 0 else v)).
Proof.
  intros E H12 Hlen. cbv zeta.
  destruct (parse_not_encrypted clk data tagId desfireInfo applicationId
              isEncrypted fd E) as (_ & _ & -> & _).
  assert (T : parse_file12 fd (Count 0)
              = Count (u32le (nth 0 file12 0) (nth 1 file12 0)
                             (nth 2 file12 0) (nth 3 file12 0))).
  { unfold parse_file12. rewrite H12.
    destruct (4 <=? Z.of_nat (length file12)) eqn:E4;
      [| apply Z.leb_gt in E4; lia].
    unfold JS.at_. rewrite le32_u32le. reflexivity. }
  rewrite T. unfold parse_file16_products. split.
  - intros ->. reflexivity.
  - intros file16 -> H32 Hp Hn.
    destruct (32 <=? Z.of_nat (length file16)) eqn:E32;
      [| apply Z.leb_gt in E32; lia].
    rewrite (product_at_count file16 0 Hp Hn). cbn [fst snd].
    unfold fallback_applies, count_product. cbn [trips].
    change (nth (0 + 16) file16 0) with (nth 16 file16 0).
    set (v := u32le _ _ _ _).
    destruct (Z.eqb_spec v 0) as [-> | Hv].
    + destruct (nth 16 file16 0 =? 0) eqn:E0; [apply Z.eqb_eq in E0; lia |].
      replace (0 <? nth 16 file16 0) with true
        by (symmetry; apply Z.ltb_lt; exact Hn).
      reflexivity.
    + destruct v; try reflexivity. contradiction.
Qed.

Lemma HEX2_shape (b : Z) :
  0 <= b < 256 ->
  exists c d, HEX2 b = String c (String d "")
              /\ is_HEX c = true /\ is_HEX d = true.
Proof.
  intros Hb.
  assert (A : forallb HEX2_ok (map Z.of_nat (seq 0 256)) = true)
    by (vm_compute; reflexivity).
  rewrite forallb_forall in A.
  assert (I : In b (map Z.of_nat (seq 0 256))).
  { apply in_map_iff. exists (Z.to_nat b). split; [lia |].
    apply in_seq. lia. }
  specialize (A b I). unfold HEX2_ok in A.
  destruct (HEX2 b) as [| c [| d [| e r]]]; try discriminate A.
  apply andb_true_iff in A as [Hc Hd]. exists c, d. auto.
Qed.

Lemma is_HEX_plain (c : ascii) :
  is_HEX c = true ->
  JS.isLineTerminator c = false /\ JS.isWhiteSpace c = false.
Proof.
  destruct c as [[] [] [] [] [] [] [] []]; vm_compute; intros H;
    try discriminate H; split; reflexivity.
Qed.

Lemma trimEnd_blank (w : string) :
  Oasth.all_chars JS.isWhiteSpace w = true -> JS.trimEnd w = "".
Proof.
  induction w as [| c w IH]; intros H; [reflexivity |].
  cbn in H. apply andb_true_iff in H as [Hc Hw].
  cbn [JS.trimEnd]. rewrite (IH Hw), Hc. reflexivity.
Qed.

(** [trimEnd] removes the white space behind the last other character. *)
Lemma trimEnd_last (s : string) (c : ascii) (w : string) :
  JS.isWhiteSpace c = false ->
  Oasth.all_chars JS.isWhiteSpace w = true ->
  JS.trimEnd (s +:+ String c w) = s +:+ String c "".
Proof.
  intros Hc Hw. induction s as [| a s IH].
  - change ("" +:+ String c w) with (String c w).
    cbn [JS.trimEnd]. rewrite Hc, (trimEnd_blank w Hw). reflexivity.
  - change (String a s +:+ String c w) with (String a (s +:+ String c w)).
    cbn [JS.trimEnd]. rewrite IH.
    assert (N : String.eqb (s +:+ String c "") "" = false)
      by (destruct s; reflexivity).
    rewrite N, andb_false_r. reflexivity.
Qed.

Lemma toUpperCase_app (a b : string) :
  JS.toUpperCase (a +:+ b) = JS.toUpperCase a +:+ JS.toUpperCase b.
Proof.
  induction a as [| c a IH]; [reflexivity |].
  change (String c a +:+ b) with (String c (a +:+ b)).
  cbn [JS.toUpperCase]. rewrite IH. reflexivity.
Qed.

Lemma slice_12_17 (l : list Z) :
  (17 <= length l)%nat ->
  JS.slice l 12 17
  = [nth 12 l 0; nth 13 l 0; nth 14 l 0; nth 15 l 0; nth 16 l 0].
Proof.
  intros H.
  do 17 (destruct l as [| ? l]; [cbn in H; lia |]).
  reflexivity.
Qed.

(** What the card id of file 2 looks like for every card whose bytes
    12..16 are bytes: the prefix is cut after 3001 and 010, and the ten
    digits of bytes 12..16 follow in groups of two, four and four. *)
Lemma card_id_shape (clk : JSDate.Clock)
    (data : list Z) (tagId : option string) (desfireInfo : option VersionInfo)
    (applicationId : option string) (isEncrypted : option bool)
    (fd : gmap Z (list Z)) (file2 : list Z) :
  truthy_bool isEncrypted = false ->
  fd !! 2 = Some file2 ->
  (20 <= length file2)%nat ->
  (forall i, (12 <= i <= 16)%nat -> 0 <= nth i file2 0 < 256) ->
  cardId (parseAthenaTicketData clk data tagId desfireInfo applicationId
            isEncrypted (Some fd))
  = "3001  010 0 " +:+ HEX2 (nth 12 file2 0) +:+ " "
    +:+ HEX2 (nth 13 file2 0) +:+ HEX2 (nth 14 file2 0) +:+ " "
    +:+ HEX2 (nth 15 file2 0) +:+ HEX2 (nth 16 file2 0).
Proof.
  intros E H2 Hlen Hb.
  destruct (parse_not_encrypted clk data tagId desfireInfo applicationId
              isEncrypted fd E) as (-> & _).
  unfold parse_file2. rewrite H2.
  destruct (20 <=? Z.of_nat (length file2)) eqn:E20;
    [| apply Z.leb_gt in E20; lia].
  cbn [fst]. unfold cardId_of_file2.
  rewrite slice_12_17 by lia. cbn [fold_left].
  rewrite !toUpperCase_app. fold (HEX2 (nth 12 file2 0)).
  fold (HEX2 (nth 13 file2 0)). fold (HEX2 (nth 14 file2 0)).
  fold (HEX2 (nth 15 file2 0)). fold (HEX2 (nth 16 file2 0)).
  destruct (HEX2_shape (nth 12 file2 0)) as (c0 & d0 & -> & Hc0 & Hd0);
    [apply Hb; lia |].
  destruct (HEX2_shape (nth 13 file2 0)) as (c1 & d1 & -> & Hc1 & Hd1);
    [apply Hb; lia |].
  destruct (HEX2_shape (nth 14 file2 0)) as (c2 & d2 & -> & Hc2 & Hd2);
    [apply Hb; lia |].
  destruct (HEX2_shape (nth 15 file2 0)) as (c3 & d3 & -> & Hc3 & Hd3);
    [apply Hb; lia |].
  destruct (HEX2_shape (nth 16 file2 0)) as (c4 & d4 & -> & Hc4 & Hd4);
    [apply Hb; lia |].
  apply is_HEX_plain in Hc0 as [L0 W0], Hd0 as [L0' W0'],
    Hc1 as [L1 W1], Hd1 as [L1' W1'], Hc2 as [L2 W2], Hd2 as [L2' W2'],
    Hc3 as [L3 W3], Hd3 as [L3' W3'], Hc4 as [L4 W4], Hd4 as [L4' W4'].
  change (JS.toUpperCase "3001 0100 ") with "3001 0100 ".
  set (P := "3001  010 0 " +:+ String c0 (String d0 "") +:+ " "
            +:+ String c1 (String d1 "") +:+ String c2 (String d2 "") +:+ " "
            +:+ String c3 (String d3 "") +:+ String c4 "").
  match goal with
  | |- context [replace4 O ?x] =>
      assert (R : replace4 O x = P +:+ String d4 " ")
  end.
  { subst P. cbv [String.append]. cbn [replace4 matches4].
    rewrite L0, L0', L1, L1', L2, L2', L3, L3', L4, L4'. reflexivity. }
  rewrite R. unfold JS.trim.
  assert (T : JS.trimStart (P +:+ String d4 " ") = P +:+ String d4 " ")
    by reflexivity.
  rewrite T, (trimEnd_last P d4 " " W4' eq_refl).
  subst P. cbv [String.append]. reflexivity.
Qed.

(** C7, the code at the failing input: file 12 is present with four
    bytes and reads 0, the first product record is count-based with 15
    trips, and the decoder reports 15 trips remaining, not the 0 of
    file 12. *)
Lemma zero_counter_is_overridden :
  Samples.card_used_up !! 12 = Some [0; 0; 0; 0]
  /\ u32le 0 0 0 0 = 0
  /\ tripsRemaining (parseAthenaTicketData Samples.clock [] None None None
                       None (Some Samples.card_used_up)) = Count 15.
Proof. repeat split; vm_compute; reflexivity. Qed.

(** The card id of the sample file 2, by [card_id_shape]. *)
Lemma card_id_shape_sample :
  Samples.card_file2 !! 2 = Some Samples.file2
  /\ (20 <= length Samples.file2)%nat
  /\ cardId (parseAthenaTicketData Samples.clock [] None None None None
               (Some Samples.card_file2))
     = "3001  010 0 " +:+ HEX2 0x00 +:+ " " +:+ HEX2 0x02 +:+ HEX2 0x16
       +:+ " " +:+ HEX2 0x39 +:+ HEX2 0x54.
Proof.
  assert (H2 : Samples.card_file2 !! 2 = Some Samples.file2)
    by (vm_compute; reflexivity).
  assert (H3 : (20 <= length Samples.file2)%nat) by (vm_compute; lia).
  refine (conj H2 (conj H3 _)).
  apply (card_id_shape Samples.clock [] None None None None
           Samples.card_file2 Samples.file2 eq_refl H2 H3).
  intros i Hi.
  assert (C : (i = 12 \/ i = 13 \/ i = 14 \/ i = 15 \/ i = 16)%nat) by lia.
  destruct C as [-> | [-> | [-> | [-> | ->]]]]; vm_compute;
    (split; [discriminate | reflexivity]).
Defined.

(** The card that reads zero trips in file 12, by
    [trips_remaining_with_file12]. *)
Lemma trips_remaining_with_file12_sample :
  Samples.card_used_up !! 12 = Some [0; 0; 0; 0]
  /\ (4 <= length [0; 0; 0; 0])%nat
  /\ tripsRemaining (parseAthenaTicketData Samples.clock [] None None None
                       None (Some Samples.card_used_up))
     = Count 15.
Proof.
  assert (H12 : Samples.card_used_up !! 12 = Some [0; 0; 0; 0])
    by (vm_compute; reflexivity).
  assert (H4 : (4 <= length [0; 0; 0; 0])%nat) by (vm_compute; lia).
  refine (conj H12 (conj H4 _)).
  apply (proj2 (trips_remaining_with_file12 Samples.clock [] None None None
                  None Samples.card_used_up [0; 0; 0; 0] eq_refl H12 H4)
           (Samples.record32 1 0x32 [0; 0; 0; 0] [0; 0; 0; 0] 15)).
  - vm_compute. reflexivity.
  - vm_compute. lia.
  - vm_compute. intros [T | [N _]]; discriminate.
  - vm_compute. reflexivity.
Defined.

(** C8, the code at the bytes its own comment quotes: bytes 12..16 of
    file 2 are 00 02 16 39 54 and the card id comes out with the
    prefix cut into pieces, neither the 3001 0100 0216 3954 of the
    comment nor blocks of four hexadecimal characters. *)
Lemma card_id_of_comment_bytes :
  JS.slice Samples.file2 12 17 = [0x00; 0x02; 0x16; 0x39; 0x54]
  /\ cardId (parseAthenaTicketData Samples.clock [] None None None None
               (Some Samples.card_file2))
     = "3001  010 0 00 0216 3954".
Proof. split; vm_compute; reflexivity. Qed.
End TicketClaims.

(** ** The tuple parser *)

Section TupleFacts.
Import Oasth.

Lemma scan_values_skip (s : string) (skip : nat) :
  (String.length s <= skip)%nat -> scan_values skip s = [].
Proof.
  revert skip. induction s as [| c r IH]; intros skip H; [reflexivity |].
  destruct skip as [| k]; [simpl in H; lia |].
  cbn [scan_values]. apply IH. simpl in H. lia.
Qed.

Lemma append_nil_l (s : string) : "" +:+ s = s.
Proof. reflexivity. Qed.

Lemma append_cons (a : ascii) (s t : string) :
  String a s +:+ t = String a (s +:+ t).
Proof. reflexivity. Qed.

Lemma span_prefix (p : ascii -> bool) (s : string) (c : ascii) (r : string) :
  all_chars p s = true -> p c = false ->
  span p (s +:+ String c r) = (s, String c r).
Proof.
  intros Hs Hc. induction s as [| a s IH].
  - rewrite append_nil_l. cbn. rewrite Hc. reflexivity.
  - cbn in Hs. apply andb_true_iff in Hs as [Ha Hs].
    rewrite append_cons. cbn [span]. rewrite Ha, (IH Hs). reflexivity.
Qed.

Lemma span_all (p : ascii -> bool) (s : string) :
  all_chars p s = true -> span p s = (s, EmptyString).
Proof.
  induction s as [| a s IH]; intros Hs; [reflexivity |].
  cbn in Hs. apply andb_true_iff in Hs as [Ha Hs].
  cbn. rewrite Ha, (IH Hs). reflexivity.
Qed.

Lemma length_append (a b : string) :
  String.length (a +:+ b) = (String.length a + String.length b)%nat.
Proof.
  induction a as [| c a IH]; [reflexivity |].
  rewrite append_cons. cbn [String.length]. rewrite IH. reflexivity.
Qed.

Lemma append_empty_r (a : string) : a +:+ "" = a.
Proof.
  induction a as [| c a IH]; [reflexivity |].
  rewrite append_cons, IH. reflexivity.
Qed.

(** A quoted token is pushed without its quotes. *)
Lemma scan_values_quoted (s : string) :
  all_chars (is_not dquote) s = true ->
  scan_values O (String dquote (s +:+ String dquote "")) = [s].
Proof.
  intros Hs. cbn [scan_values].
  unfold match_value, match_quoted.
  rewrite Ascii.eqb_refl.
  rewrite (span_prefix _ s dquote "" Hs) by reflexivity.
  cbn [pushed]. f_equal.
  apply scan_values_skip. rewrite length_append. cbn. lia.
Qed.

Lemma digit_cases (c : ascii) :
  is_digit c = true ->
  c = "0"%char \/ c = "1"%char \/ c = "2"%char \/ c = "3"%char
  \/ c = "4"%char \/ c = "5"%char \/ c = "6"%char \/ c = "7"%char
  \/ c = "8"%char \/ c = "9"%char.
Proof.
  destruct c as [[] [] [] [] [] [] [] []]; vm_compute; intros H;
    try discriminate H; tauto.
Qed.

(** A run of digits is pushed as it stands. *)
Lemma scan_values_digits (d : string) :
  d <> "" -> all_chars is_digit d = true -> scan_values O d = [d].
Proof.
  intros Hne Hd. destruct d as [| c r]; [contradiction |].
  cbn [scan_values].
  assert (M : match_value (String c r)
              = Some (Bare (String c r), String.length (String c r))).
  { unfold match_value.
    pose proof Hd as Hd'. cbn in Hd'. apply andb_true_iff in Hd' as [Hc Hr].
    assert (Q : match_quoted (String c r) = None).
    { unfold match_quoted.
      destruct (digit_cases c Hc) as [-> | [-> | [-> | [-> | [-> | [-> | [-> | [-> | [-> | ->]]]]]]]]];
        reflexivity. }
    rewrite Q.
    assert (N : match_number (String c r)
                = Some (Bare (String c r), String.length (String c r))).
    { unfold match_number.
      assert (S : match String c r with
                  | String "-" r' => ("-", r')
                  | _ => ("", String c r)
                  end = ("", String c r)).
      { destruct (digit_cases c Hc) as [-> | [-> | [-> | [-> | [-> | [-> | [-> | [-> | [-> | ->]]]]]]]]];
          reflexivity. }
      rewrite S. rewrite (span_all is_digit (String c r) Hd).
      cbn [span]. rewrite append_nil_l, !append_empty_r. reflexivity. }
    rewrite N. reflexivity. }
  rewrite M.
  assert (P : pushed (Bare (String c r)) = String c r).
  { unfold pushed.
    pose proof Hd as Hd'. cbn in Hd'. apply andb_true_iff in Hd' as [Hc _].
    destruct (digit_cases c Hc) as [-> | [-> | [-> | [-> | [-> | [-> | [-> | [-> | [-> | ->]]]]]]]]];
      reflexivity. }
  rewrite P. f_equal. apply scan_values_skip. cbn. lia.
Qed.

(** No row is empty: a group without a token is dropped. *)
Lemma scan_tuples_rows_nonempty (s : string) (skip : nat) :
  Forall (fun row => row <> []) (scan_tuples skip s).
Proof.
  revert skip. induction s as [| c r IH]; intros skip; [constructor |].
  cbn [scan_tuples]. destruct skip as [| k]; [| apply IH].
  destruct (match_tuple (String c r)) as [[tupleContent n] |]; [| apply IH].
  destruct (scan_values O tupleContent) as [| v vs] eqn:V; cbn; [apply IH |].
  constructor; [discriminate | apply IH].
Qed.

(** C3: the text (1, "a", None), (2, "b", 3) parses to the rows
    [1; a; (empty)] and [2; b; 3]; a quoted token is kept without its
    quotes, a run of digits as it stands, None and null as the empty
    string, in the order of the text; and no row of any result is
    empty, a group without a token being dropped. *)
Theorem parseTupleFormat_sample :
  parseTupleFormat Samples.tuple_text
  = [["1"; "a"; ""]; ["2"; "b"; "3"]]
  /\ (forall s, all_chars (is_not dquote) s = true ->
                scan_values O (String dquote (s +:+ String dquote "")) = [s])
  /\ (forall d, d <> "" -> all_chars is_digit d = true ->
                scan_values O d = [d])
  /\ scan_values O "None" = [""]
  /\ scan_values O "null" = [""]
  /\ scan_values O "-12.50" = ["-12.50"]
  /\ (forall text, Forall (fun row => row <> []) (parseTupleFormat text))
  /\ parseTupleFormat "(x), (7)" = [["7"]].
Proof.
  split; [vm_compute; reflexivity |].
  split; [exact scan_values_quoted |].
  split; [exact scan_values_digits |].
  split; [vm_compute; reflexivity |].
  split; [vm_compute; reflexivity |].
  split; [vm_compute; reflexivity |].
  split; [| vm_compute; reflexivity].
  intros text. apply scan_tuples_rows_nonempty.
Qed.
End TupleFacts.

(** ** The response decoder *)

Section DecoderFacts.
Import Oasth.
Variable P : Platform.

(** [decompressGzip] returns: the handler of its [try] cannot throw. *)
Lemma decompressGzip_returns (data : list Z) :
  decompressGzip P data
  = Returns (if has_gzip_magic data then
               match ungzip P data with
               | Returns text => text
               | Throws _ => Some (utf8_decode P data)
               end
             else Some (utf8_decode P data)).
Proof.
  unfold decompressGzip, try_catch.
  destruct (has_gzip_magic data); [| reflexivity].
  destruct (ungzip P data); reflexivity.
Qed.

(** The sniffing returns too: an array, or what [JSON.parse] made of a
    text that starts with a bracket or a brace. *)
Lemma decode_text_returns (text : string) :
  exists v, decode_text P text = Returns v
    /\ (isArray v = true
        \/ (JSON_parse P text = Returns v
            /\ JS.startsWith "[" (JS.trim text)
               || JS.startsWith "{" (JS.trim text) = true)).
Proof.
  unfold decode_text.
  destruct (is_empty_response text).
  - exists (of_rows []). split; [reflexivity | left; reflexivity].
  - destruct (JS.startsWith "[" (JS.trim text)
              || JS.startsWith "{" (JS.trim text)) eqn:B.
    + destruct (JSON_parse P text) as [j | e] eqn:J.
      * exists j. split; [reflexivity | right; split; reflexivity].
      * exists (of_rows (parseTupleFormat text)).
        split; [reflexivity | left; reflexivity].
    + exists (of_rows (parseTupleFormat text)).
      split; [reflexivity | left; reflexivity].
Qed.

(** The test for a body without data, spelled out. *)
Lemma is_empty_response_iff (text : string) :
  is_empty_response text = true
  <-> text = "" \/ JS.trim text = "" \/ text = "null" \/ text = "[]"
      \/ text = "()".
Proof.
  unfold is_empty_response. rewrite !orb_true_iff, !String.eqb_eq. tauto.
Qed.

(** [fetchAPI] behind a body that was read. *)
Lemma fetchAPI_body (endpoint : string) (param : option string)
    (response : Response) (bytes : list Z) :
  fetch P (buildUrl endpoint param) = Returns response ->
  ok response = true ->
  arrayBuffer response = Returns bytes ->
  forall text, decompressGzip P bytes = Returns text ->
  fetchAPI P endpoint param
  = match text with
    | None => Returns (JArray [])
    | Some text => decode_text P text
    end.
Proof.
  intros Hf Hok Hb text Hd. unfold fetchAPI. rewrite Hf. cbn.
  rewrite Hok, Hb. cbn. rewrite Hd. cbn.
  destruct text as [text |]; [| reflexivity].
  destruct (decode_text_returns text) as (v & -> & _). reflexivity.
Qed.

(** C2, as the code has it: [fetchAPI] never throws, and what it returns
    is told by the body. A failed request, a status that is not ok and
    an unreadable body give the empty array. A gzip body (magic bytes 1f
    8b) is decompressed: a decompression that throws falls back to
    decoding the raw bytes as UTF-8, one that returns nothing gives the
    empty array; another body is decoded as UTF-8. A text that is empty,
    blank, null, the empty brackets or the empty parentheses gives the
    empty array; a text that starts with a bracket or a brace and that
    [JSON.parse] accepts is returned as parsed, array or not; every other
    text is returned as the rows of the tuple parser. *)
Theorem fetchAPI_never_throws (endpoint : string) (param : option string) :
  let url := buildUrl endpoint param in
  (exists v, fetchAPI P endpoint param = Returns v
     /\ (isArray v = true
         \/ exists response bytes text,
              fetch P url = Returns response
              /\ ok response = true
              /\ arrayBuffer response = Returns bytes
              /\ decompressGzip P bytes = Returns (Some text)
              /\ JSON_parse P text = Returns v
              /\ JS.startsWith "[" (JS.trim text)
                 || JS.startsWith "{" (JS.trim text) = true))
  /\ (forall e, fetch P url = Throws e ->
                fetchAPI P endpoint param = Returns (JArray []))
  /\ (forall response, fetch P url = Returns response ->
                       ok response = false ->
                       fetchAPI P endpoint param = Returns (JArray []))
  /\ (forall response e, fetch P url = Returns response ->
                         arrayBuffer response = Throws e ->
                         fetchAPI P endpoint param = Returns (JArray []))
  /\ (forall data, exists text, decompressGzip P data = Returns text)
  /\ (forall data, has_gzip_magic data = false ->
                   decompressGzip P data = Returns (Some (utf8_decode P data)))
  /\ (forall data text, has_gzip_magic data = true ->
                        ungzip P data = Returns text ->
                        decompressGzip P data = Returns text)
  /\ (forall data e, ungzip P data = Throws e ->
                     decompressGzip P data
                     = Returns (Some (utf8_decode P data)))
  /\ (forall response bytes,
        fetch P url = Returns response ->
        ok response = true ->
        arrayBuffer response = Returns bytes ->
        (decompressGzip P bytes = Returns None ->
         fetchAPI P endpoint param = Returns (JArray []))
        /\ forall text,
             decompressGzip P bytes = Returns (Some text) ->
             let no_data :=
               text = "" \/ JS.trim text = "" \/ text = "null"
               \/ text = "[]" \/ text = "()" in
             let json_like :=
               JS.startsWith "[" (JS.trim text)
               || JS.startsWith "{" (JS.trim text) in
             (no_data -> fetchAPI P endpoint param = Returns (JArray []))
             /\ (~ no_data -> json_like = true ->
                 forall v, JSON_parse P text = Returns v ->
                           fetchAPI P endpoint param = Returns v)
             /\ (~ no_data -> json_like = true ->
                 forall e, JSON_parse P text = Throws e ->
                           fetchAPI P endpoint param
                           = Returns (of_rows (parseTupleFormat text)))
             /\ (~ no_data -> json_like = false ->
                 fetchAPI P endpoint param
                 = Returns (of_rows (parseTupleFormat text))))
  /\ (forall text e, JSON_parse P text = Throws e ->
                     is_empty_response text = false ->
                     decode_text P text
                     = Returns (of_rows (parseTupleFormat text))).
Proof.
  cbv zeta. unfold fetchAPI.
  repeat apply conj.
  - destruct (fetch P (buildUrl endpoint param)) as [response | e] eqn:Hf.
    + cbn. destruct (ok response) eqn:Hok; cbn.
      * destruct (arrayBuffer response) as [bytes | e] eqn:Hb; cbn.
        -- destruct (decompressGzip P bytes) as [[text |] | e] eqn:Hd; cbn.
           ++ destruct (decode_text_returns text) as (v & -> & Hv).
              exists v. split; [reflexivity |].
              destruct Hv as [Hv | [Hj Hs]]; [left; exact Hv | right].
              exists response, bytes, text. repeat split; assumption.
           ++ exists (of_rows []). split; [reflexivity | left; reflexivity].
           ++ exists (of_rows []). split; [reflexivity | left; reflexivity].
        -- exists (of_rows []). split; [reflexivity | left; reflexivity].
      * exists (of_rows []). split; [reflexivity | left; reflexivity].
    + exists (of_rows []). split; [reflexivity | left; reflexivity].
  - intros e ->. reflexivity.
  - intros response -> Hok. cbn. rewrite Hok. reflexivity.
  - intros response e -> Hb. cbn. rewrite Hb.
    destruct (ok response); reflexivity.
  - intros data. rewrite decompressGzip_returns. eexists. reflexivity.
  - intros data M. rewrite decompressGzip_returns, M. reflexivity.
  - intros data text M U. rewrite decompressGzip_returns, M, U. reflexivity.
  - intros data e He. rewrite decompressGzip_returns, He.
    destruct (has_gzip_magic data); reflexivity.
  - intros response bytes Hf Hok Hb.
    fold (fetchAPI P endpoint param). split.
    + intros Hd. apply (fetchAPI_body _ _ _ _ Hf Hok Hb _ Hd).
    + intros text Hd.
      rewrite (fetchAPI_body _ _ _ _ Hf Hok Hb _ Hd).
      unfold decode_text. repeat apply conj.
      * intros N. apply is_empty_response_iff in N. rewrite N. reflexivity.
      * intros N B v J.
        destruct (is_empty_response text) eqn:E;
          [apply is_empty_response_iff in E; contradiction |].
        rewrite B, J. reflexivity.
      * intros N B e J.
        destruct (is_empty_response text) eqn:E;
          [apply is_empty_response_iff in E; contradiction |].
        rewrite B, J. reflexivity.
      * intros N B.
        destruct (is_empty_response text) eqn:E;
          [apply is_empty_response_iff in E; contradiction |].
        rewrite B. reflexivity.
  - intros text e He Hne. unfold decode_text. rewrite Hne, He.
    destruct (JS.startsWith "[" (JS.trim text)
              || JS.startsWith "{" (JS.trim text)); reflexivity.
Qed.
End DecoderFacts.

(** C2 as stated fails: when the body is the text {}, [fetchAPI] returns
    the parsed object, which is not an array. *)
Lemma fetchAPI_returns_an_object :
  Oasth.fetchAPI Samples.platform_empty_object "getStopArrivals" (Some "1399")
  = Oasth.Returns (Oasth.JObject [])
  /\ Oasth.isArray (Oasth.JObject []) = false.
Proof. split; vm_compute; reflexivity. Qed.

(** ** The nearest stops *)

Section ClosestStopsFacts.
Import Oasth.
Context {F : Float64}.

Lemma insert_sorted_perm (cmp : Stop -> Stop -> num) (x : Stop) (l : list Stop) :
  Permutation (insert_sorted cmp x l) (x :: l).
Proof.
  induction l as [| y r IH]; [reflexivity |].
  cbn [insert_sorted]. destruct (is_positive (cmp y x)); [reflexivity |].
  rewrite IH. apply perm_swap.
Qed.

Lemma fold_insert_perm (cmp : Stop -> Stop -> num) (l acc : list Stop) :
  Permutation (fold_left (fun a x => insert_sorted cmp x a) l acc) (acc ++ l).
Proof.
  revert acc. induction l as [| x l IH]; intros acc.
  - cbn. rewrite app_nil_r. reflexivity.
  - cbn [fold_left]. rewrite IH, insert_sorted_perm.
    apply (Permutation_middle acc l x).
Qed.

(** [sort] rearranges, whatever the comparator answers. *)
Lemma sort_perm (cmp : Stop -> Stop -> num) (l : list Stop) :
  Permutation (sort cmp l) l.
Proof. unfold sort. apply (fold_insert_perm cmp l []). Qed.

Lemma In_firstn_In {A} (n : nat) (l : list A) (x : A) :
  In x (firstn n l) -> In x l.
Proof.
  intros H. rewrite <- (firstn_skipn n l). apply in_or_app. left. exact H.
Qed.

Lemma getClosestStops_unfold (allStops : list Stop) (lat lng : num) :
  getClosestStops allStops lat lng
  = firstn 30 (sort by_distance
                 (map (add_distance lat lng) (List.filter has_coordinates allStops))).
Proof. destruct allStops; reflexivity. Qed.

(** A stop that passes the filter but whose latitude or longitude is not
    numeric gets the distance 999. *)
Lemma add_distance_not_numeric (lat lng : num) (s : Stop) :
  isNaN (parseFloat (StopLat s)) = true \/ isNaN (parseFloat (StopLng s)) = true ->
  add_distance lat lng s = with_distance s "999".
Proof.
  unfold add_distance. intros [H | H]; rewrite H;
    [| rewrite orb_true_r]; reflexivity.
Qed.

Lemma add_distance_numeric (lat lng : num) (s : Stop) :
  isNaN (parseFloat (StopLat s)) = false ->
  isNaN (parseFloat (StopLng s)) = false ->
  add_distance lat lng s
  = with_distance s (toFixed2 (haversine_km lat lng (parseFloat (StopLat s))
                                 (parseFloat (StopLng s)))).
Proof. unfold add_distance. intros -> ->. reflexivity. Qed.

(** Whatever the arithmetic, the sample stop whose latitude is abc is
    returned with the distance 999 when it is listed with the stop at the
    reference point. *)
Lemma garbled_stop_returned (lat lng : num) :
  In (with_distance Samples.stop_garbled "999")
     (getClosestStops [Samples.stop_here; Samples.stop_garbled] lat lng).
Proof.
  rewrite getClosestStops_unfold.
  change (List.filter has_coordinates [Samples.stop_here; Samples.stop_garbled])
    with [Samples.stop_here; Samples.stop_garbled].
  rewrite firstn_all2.
  - apply (Permutation_in _ (Permutation_sym (sort_perm _ _))).
    cbn [map]. right. left.
    apply add_distance_not_numeric. left. reflexivity.
  - rewrite (Permutation_length (sort_perm _ _)). cbn. lia.
Qed.

(** The general part of C4: the result holds at most 30 stops; each is a
    stop of the list with both coordinates present, with the distance the
    source computes for it, which is 999 when a coordinate is not
    numeric; and such a stop is returned whenever at most 30 stops have
    coordinates. *)
Lemma closest_stops_general (allStops : list Stop) (lat lng : num) :
  let present (s : Stop) :=
    negb (String.eqb (StopLat s) "") && negb (String.eqb (StopLng s) "")
    && negb (String.eqb (StopLat s) "0") && negb (String.eqb (StopLng s) "0") in
  let distance_of (s : Stop) :=
    let stopLat := parseFloat (StopLat s) in
    let stopLng := parseFloat (StopLng s) in
    match stopLat, stopLng with
    | Some _, Some _ =>
        let dLat := fdiv (fmul (fsub stopLat lat) Math_PI) (lit 180) in
        let dLng := fdiv (fmul (fsub stopLng lng) Math_PI) (lit 180) in
        let a :=
          fadd (fmul (Math_sin (fdiv dLat (lit 2)))
                     (Math_sin (fdiv dLat (lit 2))))
               (fmul (fmul (fmul (Math_cos (fdiv (fmul lat Math_PI) (lit 180)))
                                 (Math_cos (fdiv (fmul stopLat Math_PI)
                                              (lit 180))))
                           (Math_sin (fdiv dLng (lit 2))))
                     (Math_sin (fdiv dLng (lit 2)))) in
        toFixed2
          (fmul (lit 6371)
             (fmul (lit 2)
                (Math_atan2 (Math_sqrt a) (Math_sqrt (fsub (lit 1) a)))))
    | _, _ => "999"
    end in
  (length (getClosestStops allStops lat lng) <= 30)%nat
  /\ (forall r, In r (getClosestStops allStops lat lng) ->
        exists s, In s allStops /\ present s = true
                  /\ r = with_distance s (distance_of s))
  /\ (forall s, In s allStops -> present s = true ->
        parseFloat (StopLat s) = None \/ parseFloat (StopLng s) = None ->
        (length (List.filter present allStops) <= 30)%nat ->
        In (with_distance s "999") (getClosestStops allStops lat lng)).
Proof.
  cbv zeta. rewrite getClosestStops_unfold.
  change (fun s : Stop =>
            negb (String.eqb (StopLat s) "") && negb (String.eqb (StopLng s) "")
            && negb (String.eqb (StopLat s) "0")
            && negb (String.eqb (StopLng s) "0")) with has_coordinates.
  set (candidates := List.filter has_coordinates allStops).
  set (sorted := sort by_distance (map (add_distance lat lng) candidates)).
  assert (Hperm : Permutation sorted (map (add_distance lat lng) candidates))
    by apply sort_perm.
  repeat apply conj.
  - rewrite length_firstn. lia.
  - intros r Hr. apply In_firstn_In in Hr.
    apply (Permutation_in _ Hperm) in Hr.
    apply in_map_iff in Hr as (s & <- & Hs).
    apply filter_In in Hs as [Hin Hc].
    exists s. split; [exact Hin |]. split; [exact Hc |].
    unfold add_distance, haversine_km, isNaN.
    destruct (parseFloat (StopLat s)), (parseFloat (StopLng s)); reflexivity.
  - intros s Hin Hc Hnan Hlen.
    rewrite firstn_all2.
    + apply (Permutation_in _ (Permutation_sym Hperm)).
      rewrite <- (add_distance_not_numeric lat lng s)
        by (destruct Hnan as [-> | ->]; [left | right]; reflexivity).
      apply in_map. apply filter_In. split; assumption.
    + rewrite (Permutation_length Hperm), length_map. exact Hlen.
Qed.

(** Two stops with coordinates, the first numeric and the second not,
    are returned in the order the comparator gives. *)
Lemma closest_pair (z n : Stop) (lat lng : num) (d : string) :
  has_coordinates z = true -> has_coordinates n = true ->
  add_distance lat lng z = with_distance z d ->
  add_distance lat lng n = with_distance n "999" ->
  is_positive (fsub (parseFloat d) (parseFloat "999")) = false ->
  is_positive (fsub (parseFloat "999") (parseFloat d)) = true ->
  getClosestStops [z; n] lat lng = [with_distance z d; with_distance n "999"]
  /\ getClosestStops [n; z] lat lng
     = [with_distance z d; with_distance n "999"].
Proof.
  intros Hz Hn Ez En C1 C2. rewrite !getClosestStops_unfold.
  cbn [List.filter]. rewrite Hz, Hn. cbn [map]. rewrite Ez, En.
  unfold sort. cbn [fold_left insert_sorted].
  unfold by_distance. cbn [distance with_distance].
  rewrite C1, C2. split; reflexivity.
Qed.
End ClosestStopsFacts.

(** *** The arithmetic of the reference point *)

Section Binary64Facts.
Import SpecFloat IEEE754.

Lemma iter_pos_shr_1_bounds (p : positive) (mrs : shr_record) (M : Z) :
  0 <= shr_m mrs <= M -> 0 <= shr_m (iter_pos shr_1 p mrs) <= M.
Proof.
  revert mrs. induction p as [p IH | p IH |]; intros mrs H; cbn [iter_pos].
  - apply IH, IH. destruct mrs as [m r s]. cbn in *.
    destruct m as [| [q | q |] |]; cbn; lia.
  - apply IH, IH. exact H.
  - destruct mrs as [m r s]. cbn in *.
    destruct m as [| [q | q |] |]; cbn; lia.
Qed.

Lemma digits2_pos_size (p : positive) : digits2_pos p = Pos.size p.
Proof. induction p as [p IH | p IH |]; cbn; congruence. Qed.

Lemma Zdigits2_bound (x k : Z) :
  0 <= k -> 0 <= x <= 2 ^ k -> Zdigits2 x <= k + 1.
Proof.
  intros Hk [H0 H]. destruct x as [| p | p]; [cbn; lia | | lia].
  cbn [Zdigits2]. rewrite digits2_pos_size.
  pose proof (Pos.size_le p) as L.
  apply Pos2Z.pos_le_pos in L. rewrite Pos2Z.inj_pow in L.
  change (Z.pos p~0) with (2 * Z.pos p) in L.
  destruct (Z_le_gt_dec (Z.pos (Pos.size p)) (k + 1)) as [? | G]; [assumption |].
  exfalso.
  assert (2 ^ (k + 2) <= 2 ^ Z.pos (Pos.size p))
    by (apply Z.pow_le_mono_r; lia).
  replace (2 ^ (k + 2)) with (4 * 2 ^ k) in *
    by (rewrite Z.pow_add_r by lia; lia).
  lia.
Qed.

Lemma round_nearest_even_bounds (m : Z) (l : location) :
  0 <= m -> m <= round_nearest_even m l <= m + 1.
Proof.
  intros H. unfold round_nearest_even.
  destruct l as [| []]; try lia. destruct (Z.even m); lia.
Qed.

Lemma shr_bounds (mrs : shr_record) (e n M : Z) :
  0 <= shr_m mrs <= M ->
  0 <= shr_m (fst (shr mrs e n)) <= M
  /\ snd (shr mrs e n) = (if 0 <? n then e + n else e).
Proof.
  intros H. unfold shr. destruct n as [| p | p]; cbn [fst snd].
  - split; [exact H | reflexivity].
  - split; [apply iter_pos_shr_1_bounds; exact H | reflexivity].
  - split; [exact H | reflexivity].
Qed.

(** Rounding a product of two mantissas of at most 53 bits with an
    exponent that is not positive never overflows. *)
Lemma binary_round_aux_finite (s : bool) (M E : Z) :
  0 < M <= 2 ^ 106 -> E <= 0 ->
  match binary_round_aux prec emax s M E loc_Exact with
  | S754_zero _ | S754_finite _ _ _ => True
  | _ => False
  end.
Proof.
  intros HM HE. unfold binary_round_aux, shr_fexp.
  set (n1 := fexp prec emax (Zdigits2 M + E) - E).
  pose proof (shr_bounds (shr_record_of_loc M loc_Exact) E n1 M
                ltac:(cbn; lia)) as B1.
  destruct (shr (shr_record_of_loc M loc_Exact) E n1) as [mrs' e'].
  cbn [fst snd] in B1. destruct B1 as [Bm Be].
  set (m1 := round_nearest_even (shr_m mrs') (loc_of_shr_record mrs')).
  pose proof (round_nearest_even_bounds (shr_m mrs') (loc_of_shr_record mrs')
                ltac:(lia)) as R. fold m1 in R.
  set (n2 := fexp prec emax (Zdigits2 m1 + e') - e').
  pose proof (shr_bounds (shr_record_of_loc m1 loc_Exact) e' n2 (M + 1)
                ltac:(cbn; lia)) as B2.
  destruct (shr (shr_record_of_loc m1 loc_Exact) e' n2) as [mrs'' e''].
  cbn [fst snd] in B2. destruct B2 as [Bm2 Be2].
  assert (D0 : Zdigits2 M <= 107) by (apply (Zdigits2_bound M 106); lia).
  assert (D1 : Zdigits2 m1 <= 108) by (apply (Zdigits2_bound m1 107); 
    [lia | split; [lia | replace (2 ^ 107) with (2 * 2 ^ 106) by reflexivity; lia]]).
  assert (E1 : e' <= 54).
  { rewrite Be. subst n1. unfold fexp, emin, prec, emax.
    clear - D0 HE.
    match goal with |- context [if ?c then _ else _] => destruct c end; lia. }
  assert (E2 : e'' <= 971).
  { rewrite Be2. subst n2. unfold fexp, emin, prec, emax.
    clearbody m1. clear - D1 E1.
    match goal with |- context [if ?c then _ else _] => destruct c end; lia. }
  destruct (shr_m mrs'') as [| q | q]; [exact I | | lia].
  unfold emax, prec.
  destruct (Z.leb_spec e'' (1024 - 53)); [exact I | lia].
Qed.

Lemma SFmul_unit_range (a b : option binary64) :
  unit_range a = true -> unit_range b = true ->
  finite (of_sf (SFmul prec emax (to_sf a) (to_sf b))) = true.
Proof.
  destruct a as [[sa | sa | sa ma ea] |]; try discriminate;
    destruct b as [[sb | sb | sb mb eb] |]; try discriminate;
    cbn [unit_range to_sf SFmul]; intros Ha Hb; try reflexivity.
  apply andb_true_iff in Ha, Hb. destruct Ha as [Ha1 Ha2], Hb as [Hb1 Hb2].
  apply Z.ltb_lt in Ha1, Hb1. apply Z.leb_le in Ha2, Hb2.
  assert (ea <= 0).
  { destruct (Z_le_gt_dec ea 0); [assumption |].
    rewrite Z.pow_neg_r in Ha2 by lia. lia. }
  assert (eb <= 0).
  { destruct (Z_le_gt_dec eb 0); [assumption |].
    rewrite Z.pow_neg_r in Hb2 by lia. lia. }
  pose proof (binary_round_aux_finite (xorb sa sb) (Z.pos (ma * mb)) (ea + eb))
    as F.
  destruct (binary_round_aux prec emax (xorb sa sb) (Z.pos (ma * mb))
              (ea + eb) loc_Exact); try reflexivity; exfalso; apply F;
    try lia; rewrite Pos2Z.inj_mul;
    (split; [lia |]);
    replace (2 ^ 106) with (2 ^ 53 * 2 ^ 53) by reflexivity; nia.
Qed.


Section ZeroDistance.
Variable E : Engine.
Hypothesis laws : zero_laws E.
Let F : Oasth.Float64 := float64 E.
Existing Instance F.
Import Oasth.

Lemma fsub_diag (x : num) : finite x = true -> fsub x x = (Some (Zero false)).
Proof.
  destruct x as [[s | s | s m e] |]; try discriminate; intros _.
  - destruct s; reflexivity.
  - cbn [fsub F float64 to_sf SFsub]. rewrite Z.sub_diag. reflexivity.
Qed.

Lemma radians_zero : fdiv (fmul (Some (Zero false)) Math_PI) (lit 180) = (Some (Zero false)).
Proof. reflexivity. Qed.

Lemma half_zero : fdiv (Some (Zero false)) (lit 2) = (Some (Zero false)).
Proof. reflexivity. Qed.

Lemma square_zero : fmul (Some (Zero false)) (Some (Zero false)) = (Some (Zero false)).
Proof. reflexivity. Qed.

Lemma add_zero_product (p : num) :
  finite p = true -> fadd (Some (Zero false)) (fmul (fmul p (Some (Zero false))) (Some (Zero false))) = (Some (Zero false)).
Proof.
  destruct p as [[s | s | s m e] |]; try discriminate; intros _;
    destruct s; reflexivity.
Qed.

Lemma central_angle_zero :
  fmul (lit 6371)
    (fmul (lit 2)
       (Math_atan2 (Math_sqrt (Some (Zero false))) (Math_sqrt (fsub (lit 1) (Some (Zero false))))))
  = (Some (Zero false)).
Proof.
  assert (A : Math_sqrt (Some (Zero false)) = (Some (Zero false))) by reflexivity.
  assert (B : Math_sqrt (fsub (lit 1) (Some (Zero false))) = Some one)
    by (vm_compute; reflexivity).
  rewrite A, B.
  cbn [Math_atan2 F float64]. rewrite (proj2 laws). reflexivity.
Qed.

(** The distance of the reference point from itself is +0. *)
Lemma haversine_km_zero (lat lng : num) :
  finite lat = true -> finite lng = true ->
  unit_range (Math_cos (fdiv (fmul lat Math_PI) (lit 180))) = true ->
  haversine_km lat lng lat lng = (Some (Zero false)).
Proof.
  intros Hlat Hlng Hcos. unfold haversine_km.
  rewrite (fsub_diag lat Hlat), (fsub_diag lng Hlng).
  rewrite radians_zero, half_zero.
  cbn [Math_sin F float64]. rewrite (proj1 laws).
  rewrite square_zero.
  rewrite add_zero_product.
  - apply central_angle_zero.
  - apply SFmul_unit_range; exact Hcos.
Qed.

Lemma toFixed2_zero : toFixed2 (Some (Zero false)) = "0.00".
Proof. reflexivity. Qed.

Lemma zero_before_999 :
  is_positive (fsub (parseFloat "0.00") (parseFloat "999")) = false
  /\ is_positive (fsub (parseFloat "999") (parseFloat "0.00")) = true.
Proof. split; vm_compute; reflexivity. Qed.

End ZeroDistance.
End Binary64Facts.



(** The two sample stops under the stand-in arithmetic: both are returned,
    the garbled one with the distance 999. *)
Lemma closest_stops_sample :
  Oasth.getClosestStops (F := Samples.whole_numbers)
    [Samples.stop_here; Samples.stop_garbled] (Some 40) (Some 22)
  = [Oasth.with_distance Samples.stop_here "0.00";
     Oasth.with_distance Samples.stop_garbled "999"].
Proof. vm_compute. reflexivity. Qed.


(** * Further properties of the decoders *)

(** ** The version block *)

Section VersionFacts.
Import Ticket.

Lemma prefix_append (p s : string) : String.prefix p (p +:+ s) = true.
Proof.
  induction p as [| c p IH]; [destruct s; reflexivity |].
  change (String c p +:+ s) with (String c (p +:+ s)).
  cbn [String.prefix]. destruct (ascii_dec c c); [exact IH | contradiction].
Qed.

(** The card type label always starts with DESFire, whatever the version
    block holds, and so does the card type of the ticket that
    [startScan] builds from it. *)
Theorem card_type_starts_with_DESFire (clk : JSDate.Clock)
    (pages versionData : list Z) (tagId : option string)
    (applicationId : string) (isEncrypted : bool) (fileData : gmap Z (list Z)) :
  String.prefix "DESFire" (v_cardType (parseDESFireVersion versionData)) = true
  /\ String.prefix "DESFire"
       (cardType (TicketScreen.decode_card clk pages versionData tagId
                    applicationId isEncrypted fileData)) = true.
Proof.
  assert (A : String.prefix "DESFire"
                (v_cardType (parseDESFireVersion versionData)) = true).
  { unfold parseDESFireVersion. cbn [v_cardType].
    destruct (7 <=? Z.of_nat (length versionData)); [| reflexivity].
    cbn [fst].
    destruct (JS.at_ versionData 1 =? 1); [| reflexivity].
    destruct (JS.at_ versionData 2 =? 1); [reflexivity |].
    destruct (JS.at_ versionData 2 =? 2); [reflexivity |].
    destruct (JS.at_ versionData 2 =? 3); [reflexivity |].
    change ("DESFire (" +:+ ?x) with ("DESFire" +:+ (" (" +:+ x)).
    apply prefix_append. }
  split; [exact A |].
  unfold TicketScreen.decode_card, parseAthenaTicketData.
  destruct isEncrypted; cbn [truthy_bool negb].
  - exact A.
  - destruct (parse_file2 fileData _ _) as [c u].
    destruct (parse_file16_products fileData None None _) as [[a x] t].
    exact A.
Qed.

(** The capacity text as [parseDESFireVersion] computes it from the storage
    byte. *)
Lemma capacity_from_storage_byte (versionData : list Z) :
  (7 <= length versionData)%nat ->
  v_capacity (parseDESFireVersion versionData)
  = v_capacity (parseDESFireVersion [0; 0; 0; 0; 0; nth 5 versionData 0; 0]).
Proof.
  intros H. unfold parseDESFireVersion. cbn [v_capacity].
  destruct (7 <=? Z.of_nat (length versionData)) eqn:E;
    [| apply Z.leb_gt in E; lia].
  reflexivity.
Qed.

(** The storage byte b (byte 5 of a version block of at least 7 bytes)
    decodes to 2^(b >> 1) bytes, shown in bytes below 1024 and in KB from
    1024 on, for every b from 0 to 61; for b = 62 and b = 63 the shift
    overflows 32 bits and the capacity shown is -2147483648 bytes. *)
Theorem capacity_of_storage_byte (versionData : list Z) :
  (7 <= length versionData)%nat ->
  let b := nth 5 versionData 0 in
  let shown := v_capacity (parseDESFireVersion versionData) in
  (0 <= b <= 19 -> shown = JS.toString (2 ^ (b / 2)) +:+ " bytes")
  /\ (20 <= b <= 61 -> shown = JS.toString (2 ^ (b / 2 - 10)) +:+ " KB")
  /\ (62 <= b <= 63 -> shown = "-2147483648 bytes").
Proof.
  intros H. cbv zeta. rewrite (capacity_from_storage_byte versionData H).
  set (b := nth 5 versionData 0).
  set (expected := fun b : Z =>
         if b <=? 19 then JS.toString (2 ^ (b / 2)) +:+ " bytes"
         else if b <=? 61 then JS.toString (2 ^ (b / 2 - 10)) +:+ " KB"
         else "-2147483648 bytes").
  assert (A : forall x, 0 <= x <= 63 ->
            v_capacity (parseDESFireVersion [0; 0; 0; 0; 0; x; 0]) = expected x).
  { assert (B : forallb (fun x =>
                   String.eqb (v_capacity (parseDESFireVersion [0; 0; 0; 0; 0; x; 0]))
                              (expected x))
                  (map Z.of_nat (seq 0 64)) = true) by (vm_compute; reflexivity).
    rewrite forallb_forall in B. intros x Hx.
    apply String.eqb_eq, B, in_map_iff.
    exists (Z.to_nat x). split; [lia | apply in_seq; lia]. }
  repeat split; intros Hb; rewrite (A b) by lia; unfold expected.
  - destruct (Z.leb_spec b 19); [reflexivity | lia].
  - destruct (Z.leb_spec b 19); [lia |].
    destruct (Z.leb_spec b 61); [reflexivity | lia].
  - destruct (Z.leb_spec b 19); [lia |].
    destruct (Z.leb_spec b 61); [lia | reflexivity].
Qed.

(** A storage byte of 0x18 (4 KB, the ATH.ENA card) in a 7-byte block. *)
Lemma capacity_of_storage_byte_4KB :
  (7 <= length [4; 1; 1; 1; 0; 0x18; 5])%nat
  /\ v_capacity (parseDESFireVersion [4; 1; 1; 1; 0; 0x18; 5]) = "4 KB".
Proof.
  split; [cbn; lia |].
  apply (proj1 (proj2 (capacity_of_storage_byte [4; 1; 1; 1; 0; 0x18; 5]
                         ltac:(cbn; lia)))).
  cbn. lia.
Defined.
End VersionFacts.

(** ** The ticket record *)

Section TicketInvariants.
Import Ticket.

Lemma USER_CATEGORIES_labels (key : Z) (c : string) :
  USER_CATEGORIES key = Some c -> In c category_labels.
Proof.
  unfold USER_CATEGORIES.
  repeat match goal with
         | |- context [if ?k =? ?n then _ else _] => destruct (k =? n)
         end;
    intros H; inversion H; subst; cbn; tauto.
Qed.

Lemma parse_file2_label (fd : gmap Z (list Z)) (cardId : string) :
  In (snd (parse_file2 fd cardId "Unknown")) category_labels.
Proof.
  unfold parse_file2. destruct (fd !! 2) as [file2 |]; [| cbn; tauto].
  destruct (20 <=? Z.of_nat (length file2)); [| cbn; tauto].
  cbn [snd]. destruct (USER_CATEGORIES (JS.at_ file2 9)) as [c |] eqn:E.
  - exact (USER_CATEGORIES_labels _ _ E).
  - cbn. tauto.
Qed.

Lemma parse_file4_label (fd : gmap Z (list Z)) (u : string) :
  In u category_labels -> In (parse_file4 fd u) category_labels.
Proof.
  intros Hu. unfold parse_file4.
  destruct (fd !! 4) as [file4 |]; [| exact Hu].
  destruct (10 <=? Z.of_nat (length file4)); [| exact Hu].
  destruct (is_PKP _ _ _ || (JS.at_ file4 3 =? 55)); [| exact Hu].
  match goal with
  | |- context [String.eqb ?x "Adult"] =>
      assert (Hx : In x category_labels); [| destruct (String.eqb x "Adult" && _)]
  end.
  - destruct (negb (JS.at_ file4 9 =? 0)); [| exact Hu].
    destruct (USER_CATEGORIES (JS.at_ file4 9)) as [c |] eqn:E; [| exact Hu].
    exact (USER_CATEGORIES_labels _ _ E).
  - cbn. tauto.
  - exact Hx.
Qed.

(** Whatever the card holds, the user category of the ticket is one of ten
    labels: Unknown, Regular, or a label of the category table. *)
Theorem user_category_is_a_known_label (clk : JSDate.Clock) (data : list Z)
    (tagId : option string) (desfireInfo : option VersionInfo)
    (applicationId : option string) (isEncrypted : option bool)
    (fileData : option (gmap Z (list Z))) :
  In (userCategory (parseAthenaTicketData clk data tagId desfireInfo
                      applicationId isEncrypted fileData))
     category_labels.
Proof.
  destruct fileData as [fd |]; [| cbn; tauto].
  destruct (truthy_bool isEncrypted) eqn:E.
  - unfold parseAthenaTicketData. rewrite E. cbn. tauto.
  - destruct (parse_not_encrypted clk data tagId desfireInfo applicationId
                isEncrypted fd E) as (_ & -> & _).
    apply parse_file4_label, parse_file2_label.
Qed.

Lemma timestamps_invariant (clk : JSDate.Clock) (fd : gmap Z (list Z)) :
  let v := parse_file16_timestamps clk fd no_validity in
  (val_isActive v = true <-> 0 < val_remainingTimeSeconds v)
  /\ (val_isActive v = true -> val_expiryDate v <> None)
  /\ (val_isActive v = false -> val_remainingTimeSeconds v = 0).
Proof.
  cbv zeta. unfold parse_file16_timestamps.
  assert (D : (no_validity.(val_isActive) = true
               <-> 0 < no_validity.(val_remainingTimeSeconds))
              /\ (no_validity.(val_isActive) = true
                  -> no_validity.(val_expiryDate) <> None)
              /\ (no_validity.(val_isActive) = false
                  -> no_validity.(val_remainingTimeSeconds) = 0)).
  { cbn. repeat split; try discriminate; lia. }
  assert (X : forall l now e,
            let v := expires_at clk no_validity l now e in
            (val_isActive v = true <-> 0 < val_remainingTimeSeconds v)
            /\ (val_isActive v = true -> val_expiryDate v <> None)
            /\ (val_isActive v = false -> val_remainingTimeSeconds v = 0)).
  { intros l now e. cbn. destruct (Z.ltb_spec now e); cbn;
      repeat split; try discriminate; try lia; reflexivity. }
  destruct (fd !! 16) as [file16 |]; [| exact D].
  destruct (12 <=? Z.of_nat (length file16)); [| exact D].
  destruct (JS.at_ file16 1 =? 49); [apply X |].
  repeat match goal with
         | |- context [if ?c then _ else _] =>
             lazymatch c with
             | in_window _ => destruct c
             | (0 <? _) => destruct c
             end
         end; try apply X; cbn; repeat split; try discriminate; lia.
Qed.

(** The validity fields agree with each other on every card: the ticket is
    active exactly when its remaining time is positive, an active ticket
    has an expiry date, and a ticket that is not active has no remaining
    time. *)
Theorem active_iff_time_remains (clk : JSDate.Clock) (data : list Z)
    (tagId : option string) (desfireInfo : option VersionInfo)
    (applicationId : option string) (isEncrypted : option bool)
    (fileData : option (gmap Z (list Z))) :
  let r := parseAthenaTicketData clk data tagId desfireInfo applicationId
             isEncrypted fileData in
  (isActive r = true <-> 0 < remainingTimeSeconds r)
  /\ (isActive r = true -> expiryDate r <> None)
  /\ (isActive r = false -> remainingTimeSeconds r = 0).
Proof.
  cbv zeta.
  assert (D : forall r : TicketInfo,
            isActive r = false -> remainingTimeSeconds r = 0 ->
            (isActive r = true <-> 0 < remainingTimeSeconds r)
            /\ (isActive r = true -> expiryDate r <> None)
            /\ (isActive r = false -> remainingTimeSeconds r = 0)).
  { intros r A B. rewrite A, B. repeat split; try discriminate; lia. }
  destruct fileData as [fd |]; [| apply D; reflexivity].
  destruct (truthy_bool isEncrypted) eqn:E.
  - apply D; unfold parseAthenaTicketData; rewrite E; reflexivity.
  - destruct (parse_not_encrypted clk data tagId desfireInfo applicationId
                isEncrypted fd E) as (_ & _ & _ & _ & _ & -> & _ & -> & ->).
    apply timestamps_invariant.
Qed.

(** Trips remaining is the value encrypted exactly when the encryption
    flag is set: no file content can produce it, and none can remove it. *)
Theorem encrypted_iff_flag (clk : JSDate.Clock) (data : list Z)
    (tagId : option string) (desfireInfo : option VersionInfo)
    (applicationId : option string) (isEncrypted : option bool)
    (fileData : option (gmap Z (list Z))) :
  tripsRemaining (parseAthenaTicketData clk data tagId desfireInfo
                    applicationId isEncrypted fileData) = encrypted
  <-> isEncrypted = Some true.
Proof.
  assert (T : truthy_bool isEncrypted = true <-> isEncrypted = Some true).
  { destruct isEncrypted as [[] |]; cbn; split; intros H;
      try discriminate; reflexivity. }
  destruct (truthy_bool isEncrypted) eqn:E.
  - split; [intros _; apply T; reflexivity |].
    intros _. unfold parseAthenaTicketData. rewrite E.
    destruct fileData; reflexivity.
  - split; [| intros H; apply T in H; discriminate].
    intros H. exfalso. revert H.
    destruct fileData as [fd |];
      [| unfold parseAthenaTicketData; rewrite E; discriminate].
    destruct (parse_not_encrypted clk data tagId desfireInfo applicationId
                isEncrypted fd E) as (_ & _ & -> & _).
    unfold parse_file16_products, parse_file12.
    destruct (fd !! 12) as [file12 |];
      [destruct (4 <=? Z.of_nat (length file12)) |];
      (destruct (fd !! 16) as [file16 |]; [| discriminate];
       destruct (32 <=? Z.of_nat (length file16)); [| discriminate];
       destruct (product_at file16 0) as [[p []] |]; cbn [snd];
       match goal with
       | |- context [fallback_applies ?t ?a] => destruct (fallback_applies t a)
       end; discriminate).
Qed.
End TicketInvariants.

Section TicketFrame.
Import Ticket.

(** The decoder reads files 2, 4, 12 and 16 only: two file maps that agree
    on these four give the same ticket, whatever else they hold. *)
Theorem only_four_files_are_read (clk : JSDate.Clock) (data : list Z)
    (tagId : option string) (desfireInfo : option VersionInfo)
    (applicationId : option string) (isEncrypted : option bool)
    (fd fd' : gmap Z (list Z)) :
  fd !! 2 = fd' !! 2 -> fd !! 4 = fd' !! 4 ->
  fd !! 12 = fd' !! 12 -> fd !! 16 = fd' !! 16 ->
  parseAthenaTicketData clk data tagId desfireInfo applicationId isEncrypted
    (Some fd)
  = parseAthenaTicketData clk data tagId desfireInfo applicationId isEncrypted
      (Some fd').
Proof.
  intros H2 H4 H12 H16.
  unfold parseAthenaTicketData, parse_file2, parse_file4, parse_file12,
    parse_file16_products, parse_file16_timestamps.
  rewrite H2, H4, H12, H16. reflexivity.
Qed.

(** A card with a trip-history file 6 besides its product file decodes as
    the same card without file 6. *)
Lemma only_four_files_are_read_sample :
  parseAthenaTicketData Samples.clock [] None None None None
    (Some (<[6 := [1; 2; 3; 4; 5; 6; 7; 8; 9; 10]]> Samples.card_15_trips))
  = parseAthenaTicketData Samples.clock [] None None None None
      (Some Samples.card_15_trips).
Proof.
  apply only_four_files_are_read; vm_compute; reflexivity.
Defined.

(** Without file 16, or with fewer than 32 bytes of it, the ticket has no
    product; with fewer than 64 bytes it has no second product. *)
Theorem products_need_their_records (clk : JSDate.Clock) (data : list Z)
    (tagId : option string) (desfireInfo : option VersionInfo)
    (applicationId : option string) (isEncrypted : option bool)
    (fileData : option (gmap Z (list Z))) :
  let r := parseAthenaTicketData clk data tagId desfireInfo applicationId
             isEncrypted fileData in
  let len16 :=
    match fileData with
    | Some fd => match fd !! 16 with
                 | Some file16 => length file16
                 | None => O
                 end
    | None => O
    end in
  ((len16 < 32)%nat -> activeProduct r = None /\ expiredProduct r = None)
  /\ ((len16 < 64)%nat -> expiredProduct r = None).
Proof.
  cbv zeta.
  destruct fileData as [fd |]; [| split; intros _; repeat split].
  destruct (truthy_bool isEncrypted) eqn:E.
  { unfold parseAthenaTicketData. rewrite E. split; intros _; repeat split. }
  destruct (parse_not_encrypted clk data tagId desfireInfo applicationId
              isEncrypted fd E) as (_ & _ & _ & -> & -> & _).
  unfold parse_file16_products.
  destruct (fd !! 16) as [file16 |]; [| split; intros _; repeat split].
  split; intros H.
  - destruct (32 <=? Z.of_nat (length file16)) eqn:E32;
      [apply Z.leb_le in E32; lia | split; reflexivity].
  - destruct (32 <=? Z.of_nat (length file16)); [| reflexivity].
    destruct (64 <=? Z.of_nat (length file16)) eqn:E64;
      [apply Z.leb_le in E64; lia | reflexivity].
Qed.

(** The record sample is 32 bytes long: no second product. *)
Lemma products_need_their_records_sample :
  expiredProduct (parseAthenaTicketData Samples.clock [] None None None None
                    (Some Samples.card_15_trips)) = None.
Proof.
  apply (proj2 (products_need_their_records Samples.clock [] None None None
                  None (Some Samples.card_15_trips))).
  vm_compute. lia.
Defined.
End TicketFrame.

Section MonthlyPass.
Import Ticket.

Lemma append_assoc (a b c : string) : (a +:+ b) +:+ c = a +:+ (b +:+ c).
Proof.
  induction a as [| x a IH]; [reflexivity |].
  change (String x a +:+ b) with (String x (a +:+ b)).
  change (String x (a +:+ b) +:+ c) with (String x ((a +:+ b) +:+ c)).
  rewrite IH. reflexivity.
Qed.

(** The end of a local day, read back through a clock with a fixed offset,
    shows 23:59:59. *)
Lemma end_of_day_shows_235959 (now nd off year month : Z) :
  let clk := fixed_offset_clock now nd off in
  let e := JSDate.new_Date_fields clk year month 0 23 59 59 / 1000 in
  exists date, formatTimestamp clk e = date +:+ " 23:59:59".
Proof.
  cbv zeta. unfold formatTimestamp.
  set (clk := fixed_offset_clock now nd off).
  set (e := JSDate.new_Date_fields clk year month 0 23 59 59 / 1000).
  assert (L : exists D, JSDate.LocalTime clk (e * 1000)
                        = D * 86400000 + 86399000).
  { unfold e, JSDate.new_Date_fields, JSDate.msPerDay, clk.
    cbn [fixed_offset_clock JSDate.LocalTime JSDate.UTC].
    match goal with
    | |- context [?d * 86400000 + (23 * 3600000 + 59 * 60000 + 59 * 1000)] =>
        exists d; generalize d
    end.
    intros d.
    replace (d * 86400000 + (23 * 3600000 + 59 * 60000 + 59 * 1000)
             - 1000 * off)
      with ((d * 86400 + 86399 - off) * 1000) by lia.
    rewrite Z.div_mul by lia. lia. }
  clearbody e.
  destruct L as [D L].
  assert (H : JSDate.getHours clk (e * 1000) = 23).
  { unfold JSDate.getHours. rewrite L. clear. Z.div_mod_to_equations. lia. }
  assert (M : JSDate.getMinutes clk (e * 1000) = 59).
  { unfold JSDate.getMinutes. rewrite L. clear. Z.div_mod_to_equations. lia. }
  assert (S : JSDate.getSeconds clk (e * 1000) = 59).
  { unfold JSDate.getSeconds. rewrite L. clear. Z.div_mod_to_equations. lia. }
  rewrite H, M, S.
  change (pad2 23) with "23". change (pad2 59) with "59".
  generalize (pad2 (JSDate.getDate clk (e * 1000))) as day.
  generalize (pad2 (JSDate.getMonth clk (e * 1000) + 1)) as mon.
  generalize (JS.toString (JSDate.getFullYear clk (e * 1000))) as yr.
  intros yr mon day.
  exists (day +:+ "/" +:+ mon +:+ "/" +:+ yr).
  rewrite !append_assoc. reflexivity.
Qed.

(** A period pass (type byte 0x31 in a file 16 of at least 12 bytes) on a
    card that is not encrypted always gets an expiry date, and on a device
    whose clock has a fixed offset from UTC that date ends in 23:59:59. *)
Theorem period_pass_expires_at_235959 (now nd off : Z) (data : list Z)
    (tagId : option string) (desfireInfo : option VersionInfo)
    (applicationId : option string) (isEncrypted : option bool)
    (fd : gmap Z (list Z)) (file16 : list Z) :
  truthy_bool isEncrypted = false ->
  fd !! 16 = Some file16 ->
  (12 <= length file16)%nat ->
  nth 1 file16 0 = 0x31 ->
  exists date,
    expiryDate (parseAthenaTicketData (fixed_offset_clock now nd off) data
                  tagId desfireInfo applicationId isEncrypted (Some fd))
    = Some (date +:+ " 23:59:59").
Proof.
  intros E H16 Hlen Hty.
  destruct (parse_not_encrypted (fixed_offset_clock now nd off) data tagId
              desfireInfo applicationId isEncrypted fd E)
    as (_ & _ & _ & _ & _ & -> & _).
  unfold parse_file16_timestamps. rewrite H16.
  destruct (12 <=? Z.of_nat (length file16)) eqn:E12;
    [| apply Z.leb_gt in E12; lia].
  unfold JS.at_ at 1. rewrite Hty. cbn [Z.eqb Pos.eqb].
  cbn [expires_at val_expiryDate].
  match goal with
  | |- context [JSDate.new_Date_fields ?c ?y ?m 0 23 59 59] =>
      destruct (end_of_day_shows_235959 now nd off y m) as [date Hd]
  end.
  exists date. f_equal. exact Hd.
Qed.

(** The monthly pass of the samples, on a device two hours east of UTC. *)
Lemma period_pass_expires_at_235959_sample :
  exists date,
    expiryDate (parseAthenaTicketData
                  (fixed_offset_clock 1700000000000 1700000000123 7200) []
                  None None None None (Some Samples.card_monthly))
    = Some (date +:+ " 23:59:59").
Proof.
  apply (period_pass_expires_at_235959 1700000000000 1700000000123 7200 []
           None None None None Samples.card_monthly
           (Samples.record32 1 0x31 Samples.bytes_1700000000 [0; 0; 0; 0] 0)).
  - reflexivity.
  - vm_compute. reflexivity.
  - vm_compute. lia.
  - vm_compute. reflexivity.
Defined.
End MonthlyPass.

(** ** The remaining-time display *)

Section RemainingTime.
Import Ticket TicketScreen.

(** [pad2] of a number below 100 is two decimal digits that read back as
    the number. *)
Lemma pad2_two_digits (n : Z) :
  0 <= n < 100 ->
  exists a b, pad2 n = String a (String b "")
              /\ n = 10 * Samples.digit_value a + Samples.digit_value b.
Proof.
  intros Hn.
  assert (B : forallb (fun n =>
                 match pad2 n with
                 | String a (String b EmptyString) =>
                     n =? 10 * Samples.digit_value a + Samples.digit_value b
                 | _ => false
                 end) (map Z.of_nat (seq 0 100)) = true)
    by (vm_compute; reflexivity).
  rewrite forallb_forall in B.
  assert (I : In n (map Z.of_nat (seq 0 100))).
  { apply in_map_iff. exists (Z.to_nat n). split; [lia | apply in_seq; lia]. }
  specialize (B n I).
  destruct (pad2 n) as [| a [| b [| c r]]]; try discriminate B.
  exists a, b. split; [reflexivity | apply Z.eqb_eq, B].
Qed.

Lemma rem_pos (a b : Z) : 0 <= a -> 0 < b -> Z.rem a b = a mod b.
Proof. intros. apply Z.rem_mod_nonneg; lia. Qed.

(** Below one hour the display is mm:ss. *)
Lemma formatRemainingTime_minutes (s : Z) :
  0 < s < 3600 ->
  formatRemainingTime s = pad2 (s / 60) +:+ ":" +:+ pad2 (s mod 60).
Proof.
  intros H. unfold formatRemainingTime.
  destruct (Z.leb_spec s 0); [lia |].
  rewrite !rem_pos by lia.
  rewrite (Z.div_small s 86400) by lia. cbn [Z.ltb Z.compare].
  rewrite (Z.mod_small s 86400), (Z.div_small s 3600), (Z.mod_small s 3600)
    by lia.
  reflexivity.
Qed.

(** From one hour to one day it is hh:mm:ss. *)
Lemma formatRemainingTime_hours (s : Z) :
  3600 <= s < 86400 ->
  formatRemainingTime s
  = pad2 (s / 3600) +:+ ":" +:+ pad2 (s mod 3600 / 60) +:+ ":"
    +:+ pad2 (s mod 60).
Proof.
  intros H. unfold formatRemainingTime.
  destruct (Z.leb_spec s 0); [lia |].
  rewrite !rem_pos by lia.
  rewrite (Z.div_small s 86400) by lia. cbn [Z.ltb Z.compare].
  rewrite (Z.mod_small s 86400) by lia.
  destruct (Z.ltb_spec 0 (s / 3600)); [reflexivity |].
  assert (1 <= s / 3600) by (apply Z.div_le_lower_bound; lia). lia.
Qed.

Lemma formatRemainingTime_minutes_length (s : Z) :
  0 < s < 3600 -> String.length (formatRemainingTime s) = 5%nat.
Proof.
  intros H. rewrite (formatRemainingTime_minutes s H).
  destruct (pad2_two_digits (s / 60)) as (a & b & -> & _).
  { split; [apply Z.div_pos; lia | apply Z.div_lt_upper_bound; lia]. }
  destruct (pad2_two_digits (s mod 60)) as (c & d & -> & _).
  { pose proof (Z.mod_pos_bound s 60). lia. }
  reflexivity.
Qed.

Lemma formatRemainingTime_hours_length (s : Z) :
  3600 <= s < 86400 -> String.length (formatRemainingTime s) = 8%nat.
Proof.
  intros H. rewrite (formatRemainingTime_hours s H).
  destruct (pad2_two_digits (s / 3600)) as (a & b & -> & _).
  { split; [apply Z.div_pos; lia | apply Z.div_lt_upper_bound; lia]. }
  destruct (pad2_two_digits (s mod 3600 / 60)) as (c & d & -> & _).
  { pose proof (Z.mod_pos_bound s 3600).
    split; [apply Z.div_pos; lia | apply Z.div_lt_upper_bound; lia]. }
  destruct (pad2_two_digits (s mod 60)) as (x & y & -> & _).
  { pose proof (Z.mod_pos_bound s 60). lia. }
  reflexivity.
Qed.

(** What the remaining-time display shows: 00:00 for nothing left, mm:ss
    (five characters) below an hour, hh:mm:ss (eight characters) below a
    day, and the number of days followed by d and hh:mm:ss from a day on. *)
Theorem formatRemainingTime_layout (s : Z) :
  (s <= 0 -> formatRemainingTime s = "00:00")
  /\ (0 < s < 3600 ->
      formatRemainingTime s = pad2 (s / 60) +:+ ":" +:+ pad2 (s mod 60)
      /\ String.length (formatRemainingTime s) = 5%nat)
  /\ (3600 <= s < 86400 ->
      formatRemainingTime s
      = pad2 (s / 3600) +:+ ":" +:+ pad2 (s mod 3600 / 60) +:+ ":"
        +:+ pad2 (s mod 60)
      /\ String.length (formatRemainingTime s) = 8%nat)
  /\ (86400 <= s ->
      formatRemainingTime s
      = JS.toString (s / 86400) +:+ "d " +:+ pad2 (s mod 86400 / 3600)
        +:+ ":" +:+ pad2 (s mod 3600 / 60) +:+ ":" +:+ pad2 (s mod 60)).
Proof.
  repeat apply conj.
  - intros H. unfold formatRemainingTime.
    destruct (Z.leb_spec s 0); [reflexivity | lia].
  - intros H. split; [apply formatRemainingTime_minutes, H |].
    apply formatRemainingTime_minutes_length, H.
  - intros H. split; [apply formatRemainingTime_hours, H |].
    apply formatRemainingTime_hours_length, H.
  - intros H. unfold formatRemainingTime.
    destruct (Z.leb_spec s 0); [lia |].
    rewrite !rem_pos by lia.
    destruct (Z.ltb_spec 0 (s / 86400)); [reflexivity |].
    assert (1 <= s / 86400) by (apply Z.div_le_lower_bound; lia). lia.
Qed.

(** Two different remaining times of less than a day never show the same
    text. *)
Theorem formatRemainingTime_injective (s t : Z) :
  0 < s < 86400 -> 0 < t < 86400 ->
  formatRemainingTime s = formatRemainingTime t -> s = t.
Proof.
  intros Hs Ht E.
  pose proof formatRemainingTime_minutes_length as Ls.
  pose proof formatRemainingTime_hours_length as Lh.
  destruct (Z.lt_ge_cases s 3600) as [S1 | S1];
    destruct (Z.lt_ge_cases t 3600) as [T1 | T1].
  - rewrite (formatRemainingTime_minutes s), (formatRemainingTime_minutes t)
      in E by lia.
    destruct (pad2_two_digits (s / 60)) as (a & b & Ea & Va).
    { split; [apply Z.div_pos; lia | apply Z.div_lt_upper_bound; lia]. }
    destruct (pad2_two_digits (s mod 60)) as (c & d & Ec & Vc).
    { pose proof (Z.mod_pos_bound s 60). lia. }
    destruct (pad2_two_digits (t / 60)) as (a' & b' & Ea' & Va').
    { split; [apply Z.div_pos; lia | apply Z.div_lt_upper_bound; lia]. }
    destruct (pad2_two_digits (t mod 60)) as (c' & d' & Ec' & Vc').
    { pose proof (Z.mod_pos_bound t 60). lia. }
    rewrite Ea, Ec, Ea', Ec' in E. inversion E; subst.
    rewrite (Z.div_mod s 60), (Z.div_mod t 60) by lia. lia.
  - assert (A := Ls s ltac:(lia)). assert (B := Lh t ltac:(lia)).
    rewrite E in A. rewrite A in B. discriminate.
  - assert (A := Lh s ltac:(lia)). assert (B := Ls t ltac:(lia)).
    rewrite E in A. rewrite A in B. discriminate.
  - rewrite (formatRemainingTime_hours s), (formatRemainingTime_hours t)
      in E by lia.
    destruct (pad2_two_digits (s / 3600)) as (a & b & Ea & Va).
    { split; [apply Z.div_pos; lia | apply Z.div_lt_upper_bound; lia]. }
    destruct (pad2_two_digits (s mod 3600 / 60)) as (c & d & Ec & Vc).
    { pose proof (Z.mod_pos_bound s 3600).
      split; [apply Z.div_pos; lia | apply Z.div_lt_upper_bound; lia]. }
    destruct (pad2_two_digits (s mod 60)) as (x & y & Ex & Vx).
    { pose proof (Z.mod_pos_bound s 60). lia. }
    destruct (pad2_two_digits (t / 3600)) as (a' & b' & Ea' & Va').
    { split; [apply Z.div_pos; lia | apply Z.div_lt_upper_bound; lia]. }
    destruct (pad2_two_digits (t mod 3600 / 60)) as (c' & d' & Ec' & Vc').
    { pose proof (Z.mod_pos_bound t 3600).
      split; [apply Z.div_pos; lia | apply Z.div_lt_upper_bound; lia]. }
    destruct (pad2_two_digits (t mod 60)) as (x' & y' & Ex' & Vx').
    { pose proof (Z.mod_pos_bound t 60). lia. }
    rewrite Ea, Ec, Ex, Ea', Ec', Ex' in E. inversion E; subst.
    assert (Q : s / 3600 = t / 3600) by lia.
    assert (R : s mod 3600 / 60 = t mod 3600 / 60) by lia.
    assert (U : s mod 60 = t mod 60) by lia.
    clear - Q R U Hs Ht. Z.div_mod_to_equations. lia.
Qed.

(** 61 and 3661 seconds show different texts. *)
Lemma formatRemainingTime_injective_sample :
  formatRemainingTime 61 <> formatRemainingTime 3661.
Proof.
  intros E.
  assert (H : 61 = 3661)
    by (apply (formatRemainingTime_injective 61 3661); [lia | lia | exact E]).
  discriminate H.
Defined.

(** The countdown started at n seconds shows n - k after k ticks, reaches
    zero after n ticks and stays there. *)
Theorem countdown_reaches_zero (n : Z) (k : nat) :
  0 <= n ->
  Nat.iter k countdown_tick n = Z.max 0 (n - Z.of_nat k).
Proof.
  intros Hn. induction k as [| k IH].
  - cbn. lia.
  - change (Nat.iter (S k) countdown_tick n)
      with (countdown_tick (Nat.iter k countdown_tick n)).
    rewrite IH. unfold countdown_tick.
    destruct (Z.leb_spec (Z.max 0 (n - Z.of_nat k)) 1); lia.
Qed.

(** Ninety seconds: thirty are left after sixty ticks, none after ninety. *)
Lemma countdown_reaches_zero_sample :
  Nat.iter 60 countdown_tick 90 = 30 /\ Nat.iter 90 countdown_tick 90 = 0.
Proof.
  split.
  - rewrite (countdown_reaches_zero 90 60); [reflexivity | lia].
  - rewrite (countdown_reaches_zero 90 90); [reflexivity | lia].
Defined.
End RemainingTime.

(** ** The tuple parser, in general *)

Section TupleParser.
Import Oasth.

Lemma scan_tuples_skip (s : string) (skip : nat) :
  (String.length s <= skip)%nat -> scan_tuples skip s = [].
Proof.
  revert skip. induction s as [| c r IH]; intros skip H; [reflexivity |].
  destruct skip as [| k]; [simpl in H; lia |].
  cbn [scan_tuples]. apply IH. simpl in H. lia.
Qed.

Lemma match_tuple_none (s : string) :
  all_chars (is_not ")") s = true -> match_tuple s = None.
Proof.
  intros H. unfold match_tuple.
  destruct s as [| c r]; [reflexivity |].
  cbn in H. apply andb_true_iff in H as [_ Hr].
  rewrite (span_all _ r Hr).
  destruct c as [[] [] [] [] [] [] [] []]; try reflexivity;
    destruct r; reflexivity.
Qed.

(** A text without a closing parenthesis, such as a truncated answer,
    gives no row at all. *)
Theorem no_closing_parenthesis_no_row (text : string) :
  all_chars (is_not ")") text = true -> parseTupleFormat text = [].
Proof.
  unfold parseTupleFormat. induction text as [| c r IH]; intros H;
    [reflexivity |].
  cbn [scan_tuples]. rewrite (match_tuple_none _ H).
  cbn in H. apply andb_true_iff in H as [_ Hr]. exact (IH Hr).
Qed.

Lemma all_chars_app (p : ascii -> bool) (a b : string) :
  all_chars p (a +:+ b) = all_chars p a && all_chars p b.
Proof.
  induction a as [| c a IH]; [reflexivity |].
  change (String c a +:+ b) with (String c (a +:+ b)).
  cbn [all_chars]. rewrite IH, andb_assoc. reflexivity.
Qed.

Lemma all_chars_impl (p q : ascii -> bool) (s : string) :
  (forall c, p c = true -> q c = true) ->
  all_chars p s = true -> all_chars q s = true.
Proof.
  intros I. induction s as [| c s IH]; [reflexivity |].
  cbn. intros H. apply andb_true_iff in H as [Hc Hs].
  rewrite (I c Hc), (IH Hs). reflexivity.
Qed.

Lemma plain_field_no_quote (f : string) :
  plain_field f = true -> all_chars (is_not dquote) f = true.
Proof.
  apply all_chars_impl. intros c H. apply andb_true_iff in H. tauto.
Qed.

Lemma plain_field_no_paren (f : string) :
  plain_field f = true -> all_chars (is_not ")") f = true.
Proof.
  apply all_chars_impl. intros c H. apply andb_true_iff in H. tauto.
Qed.

Lemma scan_values_skip_app (a b : string) (k : nat) :
  scan_values (String.length a + k) (a +:+ b) = scan_values k b.
Proof.
  induction a as [| c a IH]; [reflexivity |].
  change (String c a +:+ b) with (String c (a +:+ b)).
  cbn [String.length Nat.add scan_values]. exact IH.
Qed.

Lemma scan_tuples_skip_app (a b : string) (k : nat) :
  scan_tuples (String.length a + k) (a +:+ b) = scan_tuples k b.
Proof.
  induction a as [| c a IH]; [reflexivity |].
  change (String c a +:+ b) with (String c (a +:+ b)).
  cbn [String.length Nat.add scan_tuples]. exact IH.
Qed.

(** A quoted field at the head of a text is pushed without its quotes, and
    the scan goes on behind it. *)
Lemma scan_values_quoted_head (f rest : string) :
  all_chars (is_not dquote) f = true ->
  scan_values O (quoted f +:+ rest) = f :: scan_values O rest.
Proof.
  intros Hf. unfold quoted.
  change (String dquote (f +:+ String dquote "") +:+ rest)
    with (String dquote ((f +:+ String dquote "") +:+ rest)).
  rewrite append_assoc.
  change (String dquote "" +:+ rest) with (String dquote rest).
  cbn [scan_values]. unfold match_value, match_quoted.
  rewrite Ascii.eqb_refl.
  rewrite (span_prefix _ f dquote rest Hf) by reflexivity.
  cbn [pushed]. f_equal.
  replace (String.length f + 2 - 1)%nat with (String.length f + 1)%nat by lia.
  rewrite scan_values_skip_app. reflexivity.
Qed.

(** The fields of a row are read back from their quoted text. *)
Lemma scan_values_joined (fields : list string) :
  forallb plain_field fields = true ->
  scan_values O (joined ", " (map quoted fields)) = fields.
Proof.
  induction fields as [| f rest IH]; intros H; [reflexivity |].
  cbn in H. apply andb_true_iff in H as [Hf Hrest].
  apply plain_field_no_quote in Hf.
  destruct rest as [| g rest].
  - cbn [map joined]. rewrite <- (append_empty_r (quoted f)).
    rewrite scan_values_quoted_head by exact Hf. reflexivity.
  - change (joined ", " (map quoted (f :: g :: rest)))
      with (quoted f +:+ ", " +:+ joined ", " (map quoted (g :: rest))).
    rewrite scan_values_quoted_head by exact Hf. f_equal.
    change (", " +:+ ?t) with (String "," (String " " t)).
    cbn [scan_values].
    change (match_value (String "," ?t)) with (@None (value_match * nat)).
    cbn [scan_values].
    change (match_value (String " " ?t)) with (@None (value_match * nat)).
    cbn beta iota. exact (IH Hrest).
Qed.

Lemma quoted_no_paren (f : string) :
  plain_field f = true -> all_chars (is_not ")") (quoted f) = true.
Proof.
  intros H. unfold quoted. cbn [all_chars].
  rewrite all_chars_app, (plain_field_no_paren f H). reflexivity.
Qed.

Lemma joined_no_paren (fields : list string) :
  forallb plain_field fields = true ->
  all_chars (is_not ")") (joined ", " (map quoted fields)) = true.
Proof.
  induction fields as [| f rest IH]; intros H; [reflexivity |].
  cbn in H. apply andb_true_iff in H as [Hf Hrest].
  destruct rest as [| g rest].
  - cbn [map joined]. exact (quoted_no_paren f Hf).
  - change (joined ", " (map quoted (f :: g :: rest)))
      with (quoted f +:+ ", " +:+ joined ", " (map quoted (g :: rest))).
    rewrite !all_chars_app, (quoted_no_paren f Hf), (IH Hrest). reflexivity.
Qed.

(** One row at the head of a text. *)
Lemma scan_tuples_row_head (fields : list string) (rest : string) :
  (0 < length fields)%nat ->
  forallb plain_field fields = true ->
  scan_tuples O (row_text fields +:+ rest) = fields :: scan_tuples O rest.
Proof.
  intros Hne Hf. unfold row_text.
  set (content := joined ", " (map quoted fields)).
  assert (Hc : all_chars (is_not ")") content = true)
    by exact (joined_no_paren fields Hf).
  assert (Hn : exists c r, content = String c r).
  { subst content. destruct fields as [| f fs]; [cbn in Hne; lia |].
    destruct fs; cbn [map joined]; unfold quoted; eauto. }
  change ("(" +:+ content +:+ ")") with (String "(" (content +:+ ")")).
  change (String "(" (content +:+ ")") +:+ rest)
    with (String "(" ((content +:+ ")") +:+ rest)).
  rewrite append_assoc. change (")" +:+ rest) with (String ")" rest).
  cbn [scan_tuples]. unfold match_tuple.
  rewrite (span_prefix _ content ")" rest Hc) by reflexivity.
  destruct Hn as (c & r & Hcr). rewrite Hcr at 1.
  subst content. rewrite (scan_values_joined fields Hf).
  destruct (Nat.ltb_spec 0 (length fields)); [| lia].
  f_equal.
  replace (String.length (joined ", " (map quoted fields)) + 2 - 1)%nat
    with (String.length (joined ", " (map quoted fields)) + 1)%nat by lia.
  rewrite scan_tuples_skip_app. reflexivity.
Qed.

(** Round trip: rows of plain fields, written as tuple text with every
    field between double quotes, are read back exactly, whatever the
    fields hold otherwise (commas, digits, opening parentheses, the words
    None and null). *)
Theorem parseTupleFormat_reads_back (rows : list (list string)) :
  plain_rows rows = true ->
  parseTupleFormat (rows_text rows) = rows.
Proof.
  unfold parseTupleFormat, rows_text.
  induction rows as [| fields rest IH]; intros H; [reflexivity |].
  unfold plain_rows in H. cbn [forallb] in H.
  apply andb_true_iff in H as [Hrow Hrest].
  apply andb_true_iff in Hrow as [Hne Hf]. apply Nat.ltb_lt in Hne.
  fold (plain_rows rest) in Hrest.
  destruct rest as [| fields' rest].
  - cbn [map joined]. rewrite <- (append_empty_r (row_text fields)).
    rewrite scan_tuples_row_head by assumption. reflexivity.
  - change (joined ", " (map row_text (fields :: fields' :: rest)))
      with (row_text fields +:+ ", "
            +:+ joined ", " (map row_text (fields' :: rest))).
    rewrite scan_tuples_row_head by assumption. f_equal.
    change (", " +:+ ?t) with (String "," (String " " t)).
    cbn [scan_tuples].
    change (match_tuple (String "," ?t)) with (@None (string * nat)).
    cbn [scan_tuples].
    change (match_tuple (String " " ?t)) with (@None (string * nat)).
    cbn beta iota. exact (IH Hrest).
Qed.

(** Two rows whose fields hold a comma, the word None and digits. *)
Lemma parseTupleFormat_reads_back_sample :
  parseTupleFormat (rows_text [["a,b"; "None"]; ["12"; "(x"; ""]])
  = [["a,b"; "None"]; ["12"; "(x"; ""]].
Proof. apply parseTupleFormat_reads_back. reflexivity. Defined.

(** An answer cut off inside its first tuple. *)
Lemma no_closing_parenthesis_no_row_sample :
  parseTupleFormat "(1, 2, 3" = [].
Proof. apply no_closing_parenthesis_no_row. reflexivity. Defined.
End TupleParser.

(** ** The response decoder, in general *)

Section DecoderMore.
Import Oasth.
Variable P : Platform.

Lemma trimStart_blank (text : string) :
  all_chars JS.isWhiteSpace text = true -> JS.trimStart text = "".
Proof.
  induction text as [| c r IH]; intros H; [reflexivity |].
  cbn in H. apply andb_true_iff in H as [Hc Hr].
  cbn [JS.trimStart]. rewrite Hc. exact (IH Hr).
Qed.

(** A body that is empty, that holds white space only, or that is exactly
    null, [[]] or () decodes to the empty array, whatever the platform's
    JSON parser would make of it. *)
Theorem no_data_bodies_decode_to_empty (text : string) :
  all_chars JS.isWhiteSpace text = true
  \/ text = "null" \/ text = "[]" \/ text = "()" ->
  decode_text P text = Returns (JArray []).
Proof.
  intros H. unfold decode_text.
  assert (E : is_empty_response text = true).
  { unfold is_empty_response.
    destruct H as [H | [-> | [-> | ->]]]; try reflexivity.
    unfold JS.trim. rewrite (trimStart_blank text H). cbn [JS.trimEnd].
    rewrite orb_true_r. reflexivity. }
  rewrite E. reflexivity.
Qed.

(** The decoder does not care about compression: a gzip body that
    decompresses to a text and a plain body that is that text give the
    same result. *)
Theorem compression_is_transparent
    (endpoint1 endpoint2 : string) (param1 param2 : option string)
    (response1 response2 : Response) (gz plain : list Z) (text : string) :
  fetch P (buildUrl endpoint1 param1) = Returns response1 ->
  fetch P (buildUrl endpoint2 param2) = Returns response2 ->
  ok response1 = true -> ok response2 = true ->
  arrayBuffer response1 = Returns gz ->
  arrayBuffer response2 = Returns plain ->
  has_gzip_magic gz = true -> ungzip P gz = Returns (Some text) ->
  has_gzip_magic plain = false -> utf8_decode P plain = text ->
  fetchAPI P endpoint1 param1 = fetchAPI P endpoint2 param2
  /\ fetchAPI P endpoint1 param1 = try_catch (decode_text P text)
                                     (fun _ => Returns (JArray [])).
Proof.
  intros F1 F2 O1 O2 B1 B2 M1 U M2 D.
  assert (A : fetchAPI P endpoint1 param1
              = try_catch (decode_text P text) (fun _ => Returns (JArray []))).
  { unfold fetchAPI. rewrite F1. cbn. rewrite O1, B1. cbn.
    unfold decompressGzip. rewrite M1, U. reflexivity. }
  split; [| exact A].
  rewrite A. unfold fetchAPI. rewrite F2. cbn. rewrite O2, B2. cbn.
  unfold decompressGzip. rewrite M2, D. reflexivity.
Qed.
End DecoderMore.

(** A body of line breaks and spaces. *)
Lemma no_data_bodies_decode_to_empty_sample :
  Oasth.decode_text Samples.platform_empty_object
    (String "010" (String " " (String "013" "")))
  = Oasth.Returns (Oasth.JArray []).
Proof. apply no_data_bodies_decode_to_empty. left. reflexivity. Defined.

(** The packed and the plain answer of the sample server give the same
    rows. *)
Lemma compression_is_transparent_sample :
  Oasth.fetchAPI MoreSamples.platform_tuples "packed" None
  = Oasth.fetchAPI MoreSamples.platform_tuples "getLines" None.
Proof.
  refine (proj1 (compression_is_transparent MoreSamples.platform_tuples
                   "packed" "getLines" None None _ _
                   MoreSamples.packed_body
                   (MoreSamples.ascii_bytes MoreSamples.plain_text)
                   MoreSamples.plain_text
                   eq_refl eq_refl eq_refl eq_refl eq_refl eq_refl
                   eq_refl eq_refl eq_refl eq_refl)).
Defined.

(** ** The mappers of the OASTH client and the stop screen *)

Section MapperFacts.
Import Oasth OasthMappers.

Lemma existsb_eqb_In (x : string) (l : list string) :
  existsb (String.eqb x) l = true <-> In x l.
Proof.
  rewrite existsb_exists. split.
  - intros (y & Hy & E). apply String.eqb_eq in E. subst. exact Hy.
  - intros H. exists x. split; [exact H | apply String.eqb_refl].
Qed.

Lemma existsb_eqb_not_In (x : string) (l : list string) :
  existsb (String.eqb x) l = false <-> ~ In x l.
Proof.
  rewrite <- existsb_eqb_In. destruct (existsb _ l); split; congruence.
Qed.

Lemma or_str_empty (x : string) : JS.or_str x "" = x.
Proof. unfold JS.or_str. destruct x; reflexivity. Qed.

Lemma getRoutes_row_line (lineCode : string) (row : list string) :
  is_line lineCode row = true -> Route.LineCode (getRoutes_row row) = lineCode.
Proof.
  unfold is_line, getRoutes_row, field_or. cbn [Route.LineCode].
  destruct (row !! 0%nat) as [x|]; [| discriminate].
  intros E. apply String.eqb_eq in E. subst. apply or_str_empty.
Qed.

Lemma getRoutesForLine_rows_line (lineCode : string)
    (rows : list (list string)) :
  Forall (fun route => Route.LineCode route = lineCode)
         (getRoutesForLine_rows lineCode rows).
Proof.
  unfold getRoutesForLine_rows.
  apply List.Forall_forall. intros r Hr. apply in_map_iff in Hr.
  destruct Hr as (row & <- & Hrow). apply filter_In in Hrow.
  apply getRoutes_row_line, Hrow.
Qed.

Lemma map_indexed_order (rows : list (list string)) (start : nat) :
  map RoutePoint.routed_order (map_indexed getRouteDetails_row start rows)
  = map (fun i => JS.toString (Z.of_nat i)) (seq start (length rows)).
Proof.
  revert start. induction rows as [| row rest IH]; intros start.
  - reflexivity.
  - cbn [map_indexed map length seq]. rewrite IH. reflexivity.
Qed.


(** The deduplication of the stop screen. *)
Lemma unique_from_spec (routes : list StopRoute.t) (seen : list string) :
  let kept := StopScreen.unique_from seen routes in
  List.NoDup (map StopRoute.LineCode kept)
  /\ (forall code, In code (map StopRoute.LineCode kept)
        <-> In code (map StopRoute.LineCode routes) /\ ~ In code seen)
  /\ sublist kept routes.
Proof.
  revert seen. induction routes as [| route rest IH]; intros seen; cbn zeta.
  - cbn. split; [constructor |]. split; [tauto | constructor].
  - cbn [StopScreen.unique_from].
    destruct (existsb _ seen) eqn:E.
    + apply existsb_eqb_In in E.
      destruct (IH seen) as (ND & M & S). split; [exact ND |]. split.
      * intros code. rewrite M. cbn [map In]. split; [tauto |].
        intros [[<- | H] N]; [contradiction | tauto].
      * apply sublist_cons. exact S.
    + apply existsb_eqb_not_In in E.
      destruct (IH (StopRoute.LineCode route :: seen)) as (ND & M & S).
      split; [| split].
      * cbn [map]. constructor; [| exact ND].
        rewrite M. cbn [In]. tauto.
      * intros code. cbn [map In]. rewrite M. cbn [In].
        destruct (string_dec (StopRoute.LineCode route) code) as [<- | N].
        -- tauto.
        -- tauto.
      * apply sublist_skip. exact S.
Qed.

Lemma unique_from_distinct (routes : list StopRoute.t) (seen : list string) :
  List.NoDup (map StopRoute.LineCode routes) ->
  (forall code, In code (map StopRoute.LineCode routes) -> ~ In code seen) ->
  StopScreen.unique_from seen routes = routes.
Proof.
  revert seen. induction routes as [| route rest IH]; intros seen ND D.
  - reflexivity.
  - cbn [StopScreen.unique_from]. cbn [map] in ND, D.
    apply List.NoDup_cons_iff in ND. destruct ND as [N ND].
    destruct (existsb _ seen) eqn:E.
    + apply existsb_eqb_In in E. exfalso. apply (D _ (or_introl eq_refl) E).
    + f_equal. apply IH; [exact ND |].
      intros code H [<- | S]; [contradiction |].
      apply (D code); [right; exact H | exact S].
Qed.

(** The stop screen lists one route per line code: the routes it keeps
    have distinct line codes, every line code of the routes given is
    among them, and they are routes given, in their order. Without
    routes it lists nothing. *)
Theorem uniqueLines_keeps_one_route_per_line (routes : list StopRoute.t) :
  let kept := StopScreen.uniqueLines (Some routes) in
  List.NoDup (map StopRoute.LineCode kept)
  /\ (forall code, In code (map StopRoute.LineCode kept)
        <-> In code (map StopRoute.LineCode routes))
  /\ sublist kept routes
  /\ StopScreen.uniqueLines None = [].
Proof.
  destruct (unique_from_spec routes []) as (ND & M & S).
  cbn [StopScreen.uniqueLines]. split; [exact ND |]. split; [| split].
  - intros code. rewrite (M code). cbn [In]. tauto.
  - exact S.
  - reflexivity.
Qed.

(** The set of route codes. *)
Lemma truthy_Some (x : option string) (code : string) :
  truthy x = Some code <-> x = Some code /\ code <> "".
Proof.
  unfold truthy. destruct x as [v|]; [| split; [discriminate | intros [? _]; discriminate]].
  destruct (String.eqb_spec v "") as [-> | N]; split.
  - discriminate.
  - intros [[= <-] H]. contradiction.
  - intros [= <-]. split; [reflexivity | exact N].
  - intros [[= <-] _]. reflexivity.
Qed.

Lemma code_of_not_empty (arr : arrival_item) (code : string) :
  code_of arr = Some code -> code <> "".
Proof.
  destruct arr as [members | row]; cbn [code_of].
  - destruct (truthy (member members "route_code")) as [c|] eqn:E.
    + intros [= <-]. apply truthy_Some in E. tauto.
    + intros H. apply truthy_Some in H. tauto.
  - intros H. apply truthy_Some in H. tauto.
Qed.

Lemma Set_add_spec (codes : list string) (code : string) :
  List.NoDup codes ->
  List.NoDup (Set_add codes code)
  /\ forall c, In c (Set_add codes code) <-> In c codes \/ c = code.
Proof.
  intros ND. unfold Set_add. destruct (existsb _ codes) eqn:E.
  - apply existsb_eqb_In in E. split; [exact ND |].
    intros c. split; [tauto | intros [H | ->]; assumption].
  - apply existsb_eqb_not_In in E. split.
    + apply List.NoDup_app; [exact ND | |].
      * constructor; [intros [] | constructor].
      * intros x Hx [-> | []]. contradiction.
    + intros c. rewrite in_app_iff. cbn [In]. intuition congruence.
Qed.

Lemma collect_from_spec (arrivals : list arrival_item) (codes : list string) :
  List.NoDup codes ->
  let result :=
    fold_left (fun routeCodes arr =>
                 match code_of arr with
                 | Some code => Set_add routeCodes code
                 | None => routeCodes
                 end) arrivals codes in
  List.NoDup result
  /\ forall c, In c result
       <-> In c codes \/ exists arr, In arr arrivals /\ code_of arr = Some c.
Proof.
  revert codes. induction arrivals as [| arr rest IH]; intros codes ND; cbn zeta.
  - cbn. split; [exact ND |]. intros c. split; [tauto |].
    intros [H | (arr & [] & _)]. exact H.
  - cbn [fold_left]. destruct (code_of arr) as [code|] eqn:E.
    + destruct (Set_add_spec codes code ND) as (ND' & M').
      destruct (IH _ ND') as (ND2 & M2). split; [exact ND2 |].
      intros c. rewrite M2, M'. cbn [In]. split.
      * intros [[H | ->] | (a & Ha & Ea)].
        -- tauto.
        -- right. exists arr. tauto.
        -- right. exists a. tauto.
      * intros [H | (a & [<- | Ha] & Ea)].
        -- tauto.
        -- left. right. congruence.
        -- right. exists a. tauto.
    + destruct (IH _ ND) as (ND2 & M2). split; [exact ND2 |].
      intros c. rewrite M2. cbn [In]. split.
      * intros [H | (a & Ha & Ea)]; [tauto | right; exists a; tauto].
      * intros [H | (a & [<- | Ha] & Ea)]; [tauto | congruence |].
        right. exists a. tauto.
Qed.

Lemma collect_codes_spec (arrivals : list arrival_item) :
  List.NoDup (collect_codes arrivals)
  /\ forall c, In c (collect_codes arrivals)
       <-> exists arr, In arr arrivals /\ code_of arr = Some c.
Proof.
  destruct (collect_from_spec arrivals [] (List.NoDup_nil _)) as (ND & M).
  split; [exact ND |]. intros c. rewrite (M c). cbn [In]. tauto.
Qed.

Lemma map_LineCode_stop_route (codes : list string) :
  map StopRoute.LineCode (map stop_route codes) = codes.
Proof. rewrite map_map. cbn. apply map_id. Qed.

Lemma map_RouteCode_stop_route (codes : list string) :
  map StopRoute.RouteCode (map stop_route codes) = codes.
Proof. rewrite map_map. cbn. apply map_id. Qed.

Lemma uniqueLines_routes_of_arrivals (arrivals : list arrival_item) :
  StopScreen.uniqueLines (Some (routes_of_arrivals arrivals))
  = routes_of_arrivals arrivals.
Proof.
  cbn [StopScreen.uniqueLines]. apply unique_from_distinct.
  - unfold routes_of_arrivals. rewrite map_LineCode_stop_route.
    apply collect_codes_spec.
  - intros code _ [].
Qed.


(** The badge of a route: the end of its code. *)
Lemma substring_to_the_end (s : string) (k m : nat) :
  (k <= String.length s)%nat -> (String.length s <= k + m)%nat ->
  exists front, s = front +:+ String.substring k m s
    /\ String.length (String.substring k m s) = (String.length s - k)%nat.
Proof.
  revert k m. induction s as [| c s IH]; intros k m Hk Hm.
  - exists "". destruct k, m; cbn in *; split; reflexivity || lia.
  - destruct k as [| k].
    + exists "". destruct m as [| m]; [cbn in Hm; lia |].
      cbn [String.substring]. cbn in Hm.
      destruct (IH 0%nat m) as (front & E & L); [lia | lia |].
      assert (F : front = "").
      { apply (f_equal String.length) in E. rewrite length_append in E.
        rewrite L in E. destruct front; [reflexivity | cbn in E; lia]. }
      subst front. rewrite append_nil_l in E. rewrite <- E.
      split; [reflexivity | cbn; lia].
    + cbn [String.substring]. cbn in Hk, Hm.
      destruct (IH k m) as (front & E & L); [lia | lia |].
      exists (String c front). split.
      * rewrite append_cons. f_equal. exact E.
      * rewrite L. cbn. lia.
Qed.

Lemma last_two_end (code : string) :
  exists front, code = front +:+ last_two code
    /\ String.length (last_two code) = Nat.min 2 (String.length code).
Proof.
  unfold last_two.
  destruct (substring_to_the_end code (String.length code - 2) 2) as (f & E & L);
    [lia | lia |].
  exists f. split; [exact E | rewrite L; lia].
Qed.

Lemma LineID_stop_route (code : string) :
  code <> "" ->
  StopRoute.LineID (stop_route code) = last_two code.
Proof.
  intros N. cbn [stop_route StopRoute.LineID]. unfold JS.or_str.
  destruct (last_two_end code) as (f & _ & L).
  destruct (last_two code) eqn:E; [| reflexivity].
  destruct code; [contradiction | cbn in L; lia].
Qed.


(** The typed view of an answer in tuple form. *)
Lemma mapM_as_string (row : list string) :
  mapM as_string (map JString row) = Some row.
Proof.
  induction row as [| x row IH]; [reflexivity |].
  cbn. cbn in IH. rewrite IH. reflexivity.
Qed.

Lemma as_items_of_rows (rows : list (list string)) :
  as_items (of_rows rows) = Some (map Positional rows).
Proof.
  unfold of_rows, as_items.
  induction rows as [| row rows IH]; [reflexivity |].
  cbn. cbn in IH. rewrite IH.
  pose proof (mapM_as_string row) as E. cbn in E. rewrite E. reflexivity.
Qed.

Lemma as_rows_of_rows (rows : list (list string)) :
  as_rows (of_rows rows) = Some rows.
Proof.
  unfold of_rows, as_rows.
  induction rows as [| row rows IH]; [reflexivity |].
  cbn. cbn in IH. rewrite IH.
  pose proof (mapM_as_string row) as E. cbn in E. rewrite E. reflexivity.
Qed.

Section StopAnswer.
Variable P : Platform.

(** [getStopArrivals] and [getRoutesForStop] read the same array when the
    server gives both requests the same answer. *)
Lemma stop_answer (stopCode : string) :
  (JSON_parse P "[]" = Returns (JArray []) \/ exists e, JSON_parse P "[]" = Throws e) ->
  exists answer,
    getStopArrivals P stopCode
    = Returns (if isArray answer
               then getStopArrivals_items <$> as_items answer else Some [])
    /\ getRoutesForStop P stopCode
       = Returns (if isArray answer
                  then routes_of_arrivals <$> as_items answer else Some []).
Proof.
  intros HJ.
  unfold getStopArrivals, with_answer, fetchAPI, getRoutesForStop.
  destruct (fetch P _) as [response | e]; cbn;
    [| exists (of_rows []); split; reflexivity].
  destruct (ok response); cbn; [| exists (of_rows []); split; reflexivity].
  destruct (arrayBuffer response) as [bytes | e]; cbn;
    [| exists (of_rows []); split; reflexivity].
  destruct (decompressGzip P bytes) as [[text |] | e]; cbn;
    [| exists (of_rows []); split; reflexivity
     | exists (of_rows []); split; reflexivity].
  unfold decode_text, is_empty_response.
  destruct (String.eqb_spec text "") as [-> | _];
    [exists (of_rows []); split; reflexivity |].
  destruct (String.eqb (JS.trim text) "") eqn:T;
    [exists (of_rows []); split; reflexivity |].
  cbn [orb].
  destruct (String.eqb_spec text "null") as [-> | _];
    [exists (of_rows []); split; reflexivity |].
  destruct (String.eqb_spec text "[]") as [-> | _].
  { exists (of_rows []). split; [reflexivity |].
    destruct HJ as [HJ | [e HJ]]; cbn; rewrite HJ; reflexivity. }
  destruct (String.eqb_spec text "()") as [-> | _];
    [exists (of_rows []); split; reflexivity |].
  cbn [orb].
  destruct (JS.startsWith "[" (JS.trim text) || JS.startsWith "{" (JS.trim text)).
  - destruct (JSON_parse P text) as [v | e]; cbn.
    + exists v. destruct (isArray v); split; reflexivity.
    + exists (of_rows (parseTupleFormat text)). split; reflexivity.
  - cbn. exists (of_rows (parseTupleFormat text)). split; reflexivity.
Qed.

(** What [getRoutesForStop] returns is built from the elements of one
    array. *)
Lemma getRoutesForStop_items (stopCode : string) (routes : list StopRoute.t) :
  getRoutesForStop P stopCode = Returns (Some routes) ->
  exists items, routes = routes_of_arrivals items.
Proof.
  unfold getRoutesForStop.
  assert (Z : forall r, Returns (Some []) = Returns (Some r) ->
                        exists items, r = routes_of_arrivals items).
  { intros r [= <-]. exists []. reflexivity. }
  assert (A : forall (v : json) r,
             try_catch
               (if negb (isArray v) then Returns (Some [])
                else Returns (routes_of_arrivals <$> as_items v))
               (fun _ => Returns (Some []))
             = Returns (Some r) ->
             exists items, r = routes_of_arrivals items).
  { intros v r. destruct (isArray v); cbn; [| apply Z].
    destruct (as_items v) as [items |]; cbn; [| discriminate].
    intros [= <-]. exists items. reflexivity. }
  destruct (fetch P _) as [response | e]; cbn; [| apply Z].
  destruct (ok response); cbn; [| apply Z].
  destruct (arrayBuffer response) as [bytes | e]; cbn; [| apply Z].
  destruct (decompressGzip P bytes) as [[text |] | e]; cbn;
    [| apply Z | apply Z].
  generalize (of_rows (parseTupleFormat text)); intros w.
  destruct (String.eqb text "" || String.eqb (JS.trim text) ""); [apply Z |].
  destruct (JS.startsWith "[" (JS.trim text) || JS.startsWith "{" (JS.trim text)).
  - destruct (JSON_parse P text) as [v | e]; apply A.
  - apply A.
Qed.


Lemma code_of_route_code (item : arrival_item) :
  StopArrival.route_code (getStopArrivals_item item) <> "" ->
  code_of item = Some (StopArrival.route_code (getStopArrivals_item item)).
Proof.
  destruct item as [members | row]; cbn [getStopArrivals_item code_of
                                          StopArrival.route_code].
  - destruct (member members "route_code") as [c|]; cbn [or_empty truthy];
      [| congruence].
    intros N. destruct (String.eqb_spec c ""); [contradiction | reflexivity].
  - unfold field_or. destruct (row !! 1%nat) as [x|]; cbn [truthy];
      [| congruence].
    rewrite or_str_empty. intros N.
    destruct (String.eqb_spec x ""); [contradiction | reflexivity].
Qed.

(** The routes of a stop are distinct, none has an empty code, and the
    line fields repeat the route code; the badge is the end of the code. *)
Theorem stop_routes_are_distinct (stopCode : string)
    (routes : list StopRoute.t) :
  getRoutesForStop P stopCode = Returns (Some routes) ->
  List.NoDup (map StopRoute.RouteCode routes)
  /\ Forall (fun route =>
               StopRoute.RouteCode route <> ""
               /\ StopRoute.LineCode route = StopRoute.RouteCode route
               /\ StopRoute.MasterLineCode route = StopRoute.RouteCode route
               /\ (exists front,
                     StopRoute.RouteCode route
                     = front +:+ StopRoute.LineID route)
               /\ String.length (StopRoute.LineID route)
                  = Nat.min 2 (String.length (StopRoute.RouteCode route)))
            routes.
Proof.
  intros H. destruct (getRoutesForStop_items _ _ H) as (items & ->).
  destruct (collect_codes_spec items) as (ND & M).
  unfold routes_of_arrivals. split.
  - rewrite map_RouteCode_stop_route. exact ND.
  - apply List.Forall_forall. intros r Hr. apply in_map_iff in Hr.
    destruct Hr as (code & <- & Hc). apply M in Hc.
    destruct Hc as (arr & _ & Hc). apply code_of_not_empty in Hc.
    rewrite (LineID_stop_route code Hc). cbn [stop_route StopRoute.RouteCode
      StopRoute.LineCode StopRoute.MasterLineCode].
    destruct (last_two_end code) as (front & E & L).
    repeat split; [exact Hc | exists front; exact E | exact L].
Qed.

(** The deduplication of the stop screen removes nothing from what
    [getRoutesForStop] returned. *)
Theorem uniqueLines_keeps_every_stop_route (stopCode : string)
    (routes : list StopRoute.t) :
  getRoutesForStop P stopCode = Returns (Some routes) ->
  StopScreen.uniqueLines (Some routes) = routes.
Proof.
  intros H. destruct (getRoutesForStop_items _ _ H) as (items & ->).
  apply uniqueLines_routes_of_arrivals.
Qed.

(** Every arrival with a route code has its route, for an answer whose
    elements are rows of strings or objects with string members only
    (the answers [as_items] accepts, for which both functions are
    embedded): when the server gives [getStopArrivals] and
    [getRoutesForStop] that same answer, each arrival with a route code
    that is not empty has a route with that code. An answer with a member
    that is not a string, such as a number for the route code, is outside
    this statement. *)
Theorem every_arrival_has_its_route (stopCode : string)
    (arrivals : list StopArrival.t) (routes : list StopRoute.t) :
  JSON_parse P "[]" = Returns (JArray []) ->
  getStopArrivals P stopCode = Returns (Some arrivals) ->
  getRoutesForStop P stopCode = Returns (Some routes) ->
  Forall (fun arrival =>
            StopArrival.route_code arrival = ""
            \/ exists route, In route routes
                 /\ StopRoute.RouteCode route = StopArrival.route_code arrival)
         arrivals.
Proof.
  intros HJ Ha Hr.
  destruct (stop_answer stopCode (or_introl HJ)) as (answer & Ea & Er).
  rewrite Ea in Ha. rewrite Er in Hr. clear Ea Er.
  destruct (isArray answer).
  - destruct (as_items answer) as [items |]; [| discriminate].
    cbn in Ha, Hr. injection Ha as <-. injection Hr as <-.
    apply List.Forall_forall. intros a Hin.
    unfold getStopArrivals_items in Hin. apply in_map_iff in Hin.
    destruct Hin as (item & <- & Hitem).
    destruct (String.eqb_spec
                (StopArrival.route_code (getStopArrivals_item item)) "")
      as [E | N]; [left; exact E | right].
    exists (stop_route (StopArrival.route_code (getStopArrivals_item item))).
    split; [| reflexivity].
    unfold routes_of_arrivals. apply in_map.
    apply (proj2 (collect_codes_spec items)).
    exists item. split; [exact Hitem | apply code_of_route_code, N].
  - injection Ha as <-. constructor.
Qed.

Section Mapped.
Context {A B : Type}.

Lemma with_answer_Some (answer : outcome json) (typed : json -> option A)
    (mapping : A -> list B) (l : list B) :
  with_answer answer typed mapping = Returns (Some l) ->
  l = [] \/ exists rows, l = mapping rows.
Proof.
  unfold with_answer. destruct answer as [v | e]; cbn; [| discriminate].
  destruct (isArray v); cbn.
  - destruct (typed v) as [rows |]; cbn; [| discriminate].
    intros [= <-]. right. exists rows. reflexivity.
  - intros [= <-]. left. reflexivity.
Qed.
End Mapped.

(** [getRoutesForLine] returns routes of the line asked for only. *)
Theorem routes_of_a_line_carry_its_code (lineCode : string)
    (routes : list Route.t) :
  getRoutesForLine P lineCode = Returns (Some routes) ->
  Forall (fun route => Route.LineCode route = lineCode) routes.
Proof.
  intros H. apply with_answer_Some in H. destruct H as [-> | (rows & ->)].
  - constructor.
  - apply getRoutesForLine_rows_line.
Qed.

(** The points of a route are numbered from 0 in the order of the rows. *)
Theorem route_points_are_numbered (routeCode : string)
    (points : list RoutePoint.t) :
  getRouteDetails P routeCode = Returns (Some points) ->
  map RoutePoint.routed_order points
  = map (fun i => JS.toString (Z.of_nat i)) (seq 0 (length points)).
Proof.
  intros H. apply with_answer_Some in H. destruct H as [-> | (rows & ->)].
  - reflexivity.
  - unfold getRouteDetails_rows. rewrite map_indexed_order. f_equal. f_equal.
    pose proof (f_equal (@length _) (map_indexed_order rows 0)) as L.
    rewrite !length_map, length_seq in L. symmetry. exact L.
Qed.

End StopAnswer.

End MapperFacts.

Lemma stop_routes_are_distinct_sample :
  List.NoDup (map StopRoute.RouteCode MoreSamples.stop_routes)
  /\ Forall (fun route =>
               StopRoute.RouteCode route <> ""
               /\ StopRoute.LineCode route = StopRoute.RouteCode route
               /\ StopRoute.MasterLineCode route = StopRoute.RouteCode route
               /\ (exists front,
                     StopRoute.RouteCode route
                     = front +:+ StopRoute.LineID route)
               /\ String.length (StopRoute.LineID route)
                  = Nat.min 2 (String.length (StopRoute.RouteCode route)))
            MoreSamples.stop_routes.
Proof.
  apply (stop_routes_are_distinct MoreSamples.platform_arrivals "1403").
  vm_compute. reflexivity.
Defined.

(** The two routes of the sample stop pass the deduplication. *)
Lemma uniqueLines_keeps_every_stop_route_sample :
  StopScreen.uniqueLines (Some MoreSamples.stop_routes)
  = MoreSamples.stop_routes.
Proof.
  apply (uniqueLines_keeps_every_stop_route MoreSamples.platform_arrivals
           "1403").
  vm_compute. reflexivity.
Defined.

(** The three arrivals of the sample stop and its two routes. *)
Lemma every_arrival_has_its_route_sample :
  Forall (fun arrival =>
            StopArrival.route_code arrival = ""
            \/ exists route, In route MoreSamples.stop_routes
                 /\ StopRoute.RouteCode route = StopArrival.route_code arrival)
         MoreSamples.stop_arrivals.
Proof.
  apply (every_arrival_has_its_route MoreSamples.platform_arrivals "1403").
  - reflexivity.
  - vm_compute. reflexivity.
  - vm_compute. reflexivity.
Defined.

(** The one row of the sample server whose first field is 7. *)
Lemma routes_of_a_line_carry_its_code_sample :
  Forall (fun route => Route.LineCode route = "7")
         [OasthMappers.getRoutes_row ["7"; "804"; "1520"]].
Proof.
  apply (routes_of_a_line_carry_its_code MoreSamples.platform_arrivals "7").
  vm_compute. reflexivity.
Defined.

(** The three points of the sample server are numbered 0, 1, 2. *)
Lemma route_points_are_numbered_sample :
  map RoutePoint.routed_order
      (OasthMappers.getRouteDetails_rows MoreSamples.arrival_rows)
  = ["0"; "1"; "2"].
Proof.
  apply (route_points_are_numbered MoreSamples.platform_arrivals "804").
  vm_compute. reflexivity.
Defined.

(** ** The schedule dialog and the closest stops *)

Section ScheduleFacts.
Import ScheduleModal.

Lemma compare_app (a b s t : string) :
  String.length a = String.length b ->
  String.compare (a +:+ s) (b +:+ t)
  = match String.compare a b with
    | Eq => String.compare s t
    | c => c
    end.
Proof.
  revert b. induction a as [| x a IH]; intros [| y b] L; try discriminate.
  - reflexivity.
  - rewrite !append_cons. cbn [String.compare].
    destruct (Ascii.compare x y); [| reflexivity | reflexivity].
    apply IH. cbn in L. lia.
Qed.

Lemma pad2_compare (a b : Z) :
  0 <= a < 60 -> 0 <= b < 60 ->
  String.compare (Ticket.pad2 a) (Ticket.pad2 b) = Z.compare a b.
Proof.
  intros Ha Hb.
  assert (B : forallb (fun a =>
                 forallb (fun b =>
                   match String.compare (Ticket.pad2 a) (Ticket.pad2 b),
                         Z.compare a b with
                   | Eq, Eq | Lt, Lt | Gt, Gt => true
                   | _, _ => false
                   end) (map Z.of_nat (seq 0 60)))
               (map Z.of_nat (seq 0 60)) = true)
    by (vm_compute; reflexivity).
  rewrite forallb_forall in B.
  assert (I : forall x, 0 <= x < 60 -> In x (map Z.of_nat (seq 0 60))).
  { intros x Hx. apply in_map_iff. exists (Z.to_nat x).
    split; [lia | apply in_seq; lia]. }
  specialize (B a (I a Ha)). rewrite forallb_forall in B.
  specialize (B b (I b Hb)).
  destruct (String.compare _ _), (a ?= b); congruence.
Qed.

Lemma pad2_length (a : Z) :
  0 <= a < 100 -> String.length (Ticket.pad2 a) = 2%nat.
Proof.
  intros H. destruct (pad2_two_digits a H) as (x & y & -> & _). reflexivity.
Qed.

Lemma ge_clock_text (h m h' m' : Z) :
  0 <= h < 24 -> 0 <= m < 60 -> 0 <= h' < 24 -> 0 <= m' < 60 ->
  ge (clock_text h m) (clock_text h' m') = (60 * h' + m' <=? 60 * h + m).
Proof.
  intros Hh Hm Hh' Hm'. unfold ge, clock_text.
  rewrite compare_app by (rewrite !pad2_length by lia; reflexivity).
  rewrite pad2_compare by lia.
  rewrite (compare_app ":" ":") by reflexivity.
  cbn [String.compare Ascii.compare]. 
  change (String.compare ":" ":") with Eq. cbv iota.
  rewrite pad2_compare by lia.
  destruct (Z.compare_spec h h'); destruct (Z.compare_spec m m');
    destruct (Z.leb_spec (60 * h' + m') (60 * h + m)); reflexivity || lia.
Qed.

Lemma findIndex_from_ext {A B} (f : A -> bool) (g : B -> bool) (text : B -> A)
    (l : list B) (start : Z) :
  Forall (fun x => f (text x) = g x) l ->
  findIndex_from f start (map text l) = findIndex_from g start l.
Proof.
  intros H. revert start. induction H as [| x l E _ IH]; intros start.
  - reflexivity.
  - cbn [map findIndex_from]. rewrite E, IH. reflexivity.
Qed.

Theorem next_departure_is_the_first_not_earlier (clk : JSDate.Clock) (now : Z)
    (times : list (Z * Z)) :
  Forall (fun time => 0 <= fst time < 24 /\ 0 <= snd time < 60) times ->
  findNextDepartureIndex (currentTime clk now)
    (map (fun time => clock_text (fst time) (snd time)) times)
  = findIndex (fun time =>
                 60 * JSDate.getHours clk now + JSDate.getMinutes clk now
                 <=? 60 * fst time + snd time) times.
Proof.
  intros H. unfold findNextDepartureIndex, findIndex.
  apply findIndex_from_ext.
  eapply Forall_impl; [exact H |].
  intros time [Hh Hm]. cbv beta.
  change (currentTime clk now)
    with (clock_text (JSDate.getHours clk now) (JSDate.getMinutes clk now)).
  apply ge_clock_text; [exact Hh | exact Hm | |].
  - unfold JSDate.getHours. apply Z.mod_pos_bound. lia.
  - unfold JSDate.getMinutes. apply Z.mod_pos_bound. lia.
Qed.

End ScheduleFacts.

(** With the sample clock at 1 700 000 000 s, the next of the departures
    06:30, 14:05 and 23:50. *)
Lemma next_departure_is_the_first_not_earlier_sample :
  ScheduleModal.findNextDepartureIndex
    (ScheduleModal.currentTime Samples.clock 1700000000000)
    (map (fun time => clock_text (fst time) (snd time)) MoreSamples.departures)
  = ScheduleModal.findIndex
      (fun time =>
         60 * JSDate.getHours Samples.clock 1700000000000
         + JSDate.getMinutes Samples.clock 1700000000000
         <=? 60 * fst time + snd time) MoreSamples.departures.
Proof.
  apply next_departure_is_the_first_not_earlier.
  unfold MoreSamples.departures.
  repeat (constructor; [cbn [fst snd]; lia |]). constructor.
Defined.

Section ClosestRows.
Import Oasth.
Context {F : Float64}.

Lemma field_or_zero (row : list string) (i : nat) :
  field_or row i "0" <> "" /\
  (field_or row i "0" <> "0" ->
   row !! i = Some (field_or row i "0")).
Proof.
  unfold field_or, JS.or_str. destruct (row !! i) as [x|].
  - destruct (String.eqb_spec x "").
    + split; [discriminate | congruence].
    + split; [exact n | reflexivity].
  - split; [discriminate | congruence].
Qed.

Lemma add_distance_keeps (lat lng : num) (s : Stop) :
  let r := add_distance lat lng s in
  StopCode r = StopCode s /\ StopLat r = StopLat s /\ StopLng r = StopLng s
  /\ distance r <> None.
Proof.
  unfold add_distance.
  destruct (isNaN (parseFloat (StopLat s)) || isNaN (parseFloat (StopLng s)));
    cbn; repeat split; discriminate.
Qed.

Theorem closest_stops_have_coordinates (rows : list (list string))
    (lat lng : num) :
  let found := getClosestStops (getStops_rows rows) lat lng in
  (length found <= 30)%nat
  /\ Forall (fun stop =>
               exists row, In row rows
                 /\ StopCode stop = field_or row 1 ""
                 /\ row !! 7%nat = Some (StopLng stop)
                 /\ row !! 8%nat = Some (StopLat stop)
                 /\ StopLng stop <> "" /\ StopLng stop <> "0"
                 /\ StopLat stop <> "" /\ StopLat stop <> "0"
                 /\ distance stop <> None)
            found.
Proof.
  cbv zeta. rewrite getClosestStops_unfold. split.
  - rewrite length_firstn. lia.
  - apply List.Forall_forall. intros s Hs.
    apply In_firstn_In in Hs.
    apply (Permutation_in _ (sort_perm _ _)) in Hs.
    apply in_map_iff in Hs. destruct Hs as (s0 & <- & Hs0).
    apply filter_In in Hs0. destruct Hs0 as [Hin Hc].
    unfold getStops_rows in Hin. apply in_map_iff in Hin.
    destruct Hin as (row & <- & Hrow).
    destruct (add_distance_keeps lat lng (getStops_row row))
      as (Ec & Elat & Elng & Ed).
    unfold has_coordinates in Hc.
    rewrite !andb_true_iff, !negb_true_iff in Hc.
    destruct Hc as [[[H1 H2] H3] H4].
    apply String.eqb_neq in H1, H2, H3, H4.
    exists row. rewrite Ec, Elat, Elng.
    cbn [getStops_row StopCode StopLat StopLng] in *.
    repeat split; try assumption.
    + apply (proj2 (field_or_zero row 7)), H4.
    + apply (proj2 (field_or_zero row 8)), H3.
Qed.
End ClosestRows.
